(** * LLGL: descriptor translation, device negotiation and context negotiation

    A shallow embedding of the parts of LLGL's Direct3D 11, Direct3D 12 and
    WGL back ends that translate resource descriptors and negotiate devices
    and contexts:

    - [D3D11ResourceFlags]  : sources/Renderer/Direct3D11/D3D11ResourceFlags.cpp
    - [D3D11Textures]       : sources/Renderer/Direct3D11/D3D11RenderSystem_Textures.cpp
    - [D3D12Device]         : sources/Renderer/Direct3D12/D3D12RenderSystem.cpp
    - [Win32GL]             : sources/Renderer/OpenGL/Platform/Win32/Win32GLContext.cpp
    - [Win32Module]         : sources/Platform/Win32/Win32Module.cpp

    Integers are [Z]; the 32-bit conversions of the C++ code are written out
    with [Machine.to_uint] and [Machine.to_int]. *)

From Stdlib Require Import ZArith List String Bool Lia DecimalString.
Import ListNotations.
Local Open Scope Z_scope.

(* ===================================================================== *)
(** ** 32-bit machine integers *)
(* ===================================================================== *)

Module Machine.

Definition UINT_MAX : Z := 4294967295.
Definition INT_MAX  : Z := 2147483647.
Definition INT_MIN  : Z := -2147483648.

(** Conversion to [unsigned int], [UINT]: reduction modulo 2^32. *)
Definition to_uint (z : Z) : Z := z mod 2 ^ 32.

(** Conversion to [int], [LONG]: the two's complement representative. *)
Definition to_int (z : Z) : Z := (z + 2 ^ 31) mod 2 ^ 32 - 2 ^ 31.

(** [a + b] on two [int]s, as the 32-bit adder computes it.  The sum is
    exact whenever it is representable ([MachineFacts.int_add_exact]); C++
    leaves the other case undefined. *)
Definition int_add (a b : Z) : Z := to_int (a + b).

(** [(flags & bit) != 0] *)
Definition has_flag (flags bit : Z) : bool := negb (Z.land flags bit =? 0).

(** [HRESULT] is a signed 32-bit code; [FAILED(hr)] tests its sign. *)
Definition HRESULT : Type := Z.
Definition FAILED (hr : HRESULT) : bool := hr <? 0.

End Machine.

(* ===================================================================== *)
(** ** Results of C++ calls *)
(* ===================================================================== *)

Module Cxx.

(** A call either returns a value or is left by an exception
    ([std::runtime_error], [std::invalid_argument]) carrying a message. *)
Inductive Outcome (A : Type) : Type :=
| Val (a : A)
| Throw (what : string).
Arguments Val {A} a.
Arguments Throw {A} what.

End Cxx.

(* ===================================================================== *)
(** ** Constants of the Direct3D 11 SDK (d3d11.h) *)
(* ===================================================================== *)

Module D3D11.

(** [D3D11_BIND_FLAG] *)
Definition D3D11_BIND_VERTEX_BUFFER    : Z := 0x1.
Definition D3D11_BIND_INDEX_BUFFER     : Z := 0x2.
Definition D3D11_BIND_CONSTANT_BUFFER  : Z := 0x4.
Definition D3D11_BIND_SHADER_RESOURCE  : Z := 0x8.
Definition D3D11_BIND_STREAM_OUTPUT    : Z := 0x10.
Definition D3D11_BIND_RENDER_TARGET    : Z := 0x20.
Definition D3D11_BIND_DEPTH_STENCIL    : Z := 0x40.
Definition D3D11_BIND_UNORDERED_ACCESS : Z := 0x80.

(** [D3D11_RESOURCE_MISC_FLAG] *)
Definition D3D11_RESOURCE_MISC_GENERATE_MIPS : Z := 0x1.
Definition D3D11_RESOURCE_MISC_TEXTURECUBE   : Z := 0x4.

Definition D3D11_RESOURCE_MISC_DRAWINDIRECT_ARGS      : Z := 0x10.
Definition D3D11_RESOURCE_MISC_BUFFER_ALLOW_RAW_VIEWS : Z := 0x20.
Definition D3D11_RESOURCE_MISC_BUFFER_STRUCTURED      : Z := 0x40.

(** [D3D11_CPU_ACCESS_FLAG] *)
Definition D3D11_CPU_ACCESS_WRITE : Z := 0x10000.
Definition D3D11_CPU_ACCESS_READ  : Z := 0x20000.

(** [D3D11_USAGE] *)
Inductive D3D11_USAGE : Type :=
| D3D11_USAGE_DEFAULT
| D3D11_USAGE_IMMUTABLE
| D3D11_USAGE_DYNAMIC
| D3D11_USAGE_STAGING.

End D3D11.

(* ===================================================================== *)
(** ** D3D11ResourceFlags.cpp: flag translation tables *)
(* ===================================================================== *)

Module D3D11ResourceFlags.
Import Machine D3D11.

(** The enumerators of [BindFlags] and [CPUAccessFlags].  They are declared
    in ResourceFlags.h, which this development does not cover; each
    enumerator is a single-bit mask [1 << k], and the bit positions are
    parameters of the development. *)
Inductive BindFlag : Type :=
| VertexBuffer | IndexBuffer | ConstantBuffer | StreamOutputBuffer
| SampleBuffer | RWStorageBuffer | ColorAttachment | DepthStencilAttachment
| IndirectBuffer.

Inductive CPUAccessFlag : Type := Read | Write.

Section Flags.

Variable bindBit : BindFlag -> nat.
Variable cpuAccessBit : CPUAccessFlag -> nat.

(** [BindFlags::b] *)
Definition BindFlags (b : BindFlag) : Z := Z.shiftl 1 (Z.of_nat (bindBit b)).

(** [CPUAccessFlags::f] *)
Definition CPUAccessFlags (f : CPUAccessFlag) : Z :=
  Z.shiftl 1 (Z.of_nat (cpuAccessBit f)).

(** The descriptor structs are declared in headers this development does
    not cover: they are abstract types with one accessor per member the
    translation reads ([long bindFlags], [long cpuAccessFlags],
    [TextureType type]). *)
Variable BufferDescriptor : Type.
Variable buffer_cpuAccessFlags : BufferDescriptor -> Z.

Variable TextureType : Type.
Variable TextureDescriptor : Type.
Variable texture_type : TextureDescriptor -> TextureType.
Variable texture_bindFlags : TextureDescriptor -> Z.
Variable texture_cpuAccessFlags : TextureDescriptor -> Z.

(** Helpers of TextureFlags.h, parameters for the same reason. *)
Variable IsMipMappedTexture : TextureDescriptor -> bool.
Variable IsCubeTexture : TextureType -> bool.

(** [UINT DXGetBufferBindFlags(long bindFlags)] *)
Definition DXGetBufferBindFlags (bindFlags : Z) : Z :=
  let flagsD3D := 0 in
  let flagsD3D :=
    if has_flag bindFlags (BindFlags VertexBuffer)
    then Z.lor flagsD3D D3D11_BIND_VERTEX_BUFFER else flagsD3D in
  let flagsD3D :=
    if has_flag bindFlags (BindFlags IndexBuffer)
    then Z.lor flagsD3D D3D11_BIND_INDEX_BUFFER else flagsD3D in
  let flagsD3D :=
    if has_flag bindFlags (BindFlags ConstantBuffer)
    then Z.lor flagsD3D D3D11_BIND_CONSTANT_BUFFER else flagsD3D in
  let flagsD3D :=
    if has_flag bindFlags (BindFlags StreamOutputBuffer)
    then Z.lor flagsD3D D3D11_BIND_STREAM_OUTPUT else flagsD3D in
  let flagsD3D :=
    if has_flag bindFlags (BindFlags SampleBuffer)
    then Z.lor flagsD3D D3D11_BIND_SHADER_RESOURCE else flagsD3D in
  let flagsD3D :=
    if has_flag bindFlags (BindFlags RWStorageBuffer)
    then Z.lor flagsD3D D3D11_BIND_UNORDERED_ACCESS else flagsD3D in
  flagsD3D.

(** [UINT DXGetTextureBindFlags(const TextureDescriptor& desc)] *)
Definition DXGetTextureBindFlags (desc : TextureDescriptor) : Z :=
  let flagsD3D := 0 in
  let hasMipMaps := IsMipMappedTexture desc in
  let flagsD3D :=
    if has_flag (texture_bindFlags desc) (BindFlags DepthStencilAttachment)
    then Z.lor flagsD3D D3D11_BIND_DEPTH_STENCIL
    else if hasMipMaps || has_flag (texture_bindFlags desc) (BindFlags ColorAttachment)
    then Z.lor flagsD3D D3D11_BIND_RENDER_TARGET
    else flagsD3D in
  let flagsD3D :=
    if hasMipMaps || has_flag (texture_bindFlags desc) (BindFlags SampleBuffer)
    then Z.lor flagsD3D D3D11_BIND_SHADER_RESOURCE else flagsD3D in
  let flagsD3D :=
    if has_flag (texture_bindFlags desc) (BindFlags RWStorageBuffer)
    then Z.lor flagsD3D D3D11_BIND_UNORDERED_ACCESS else flagsD3D in
  flagsD3D.

(** [UINT DXGetTextureMiscFlags(const TextureDescriptor& desc)] *)
Definition DXGetTextureMiscFlags (desc : TextureDescriptor) : Z :=
  let flagsD3D := 0 in
  let flagsD3D :=
    if IsMipMappedTexture desc
       && negb (has_flag (texture_bindFlags desc) (BindFlags DepthStencilAttachment))
    then Z.lor flagsD3D D3D11_RESOURCE_MISC_GENERATE_MIPS else flagsD3D in
  let flagsD3D :=
    if IsCubeTexture (texture_type desc)
    then Z.lor flagsD3D D3D11_RESOURCE_MISC_TEXTURECUBE else flagsD3D in
  flagsD3D.

(** [D3D11_USAGE DXGetCPUAccessBufferUsage(const BufferDescriptor& desc)] *)
Definition DXGetCPUAccessBufferUsage (desc : BufferDescriptor) : D3D11_USAGE :=
  if has_flag (buffer_cpuAccessFlags desc) (CPUAccessFlags Read)
  then D3D11_USAGE_STAGING
  else if has_flag (buffer_cpuAccessFlags desc) (CPUAccessFlags Write)
  then D3D11_USAGE_DYNAMIC
  else D3D11_USAGE_DEFAULT.

(** [D3D11_USAGE DXGetTextureUsage(const TextureDescriptor& desc)] *)
Definition DXGetTextureUsage (desc : TextureDescriptor) : D3D11_USAGE :=
  if has_flag (texture_cpuAccessFlags desc) (CPUAccessFlags Read)
  then D3D11_USAGE_STAGING
  else if has_flag (texture_cpuAccessFlags desc) (CPUAccessFlags Write)
  then D3D11_USAGE_DYNAMIC
  else D3D11_USAGE_DEFAULT.

(** The members the remaining translations read: [long bindFlags],
    [long miscFlags] and [storageBuffer.storageType] of a buffer
    descriptor; [MiscFlags::DynamicUsage] is a single-bit mask like the
    other enumerators, and [IsStructuredBuffer] and [IsByteAddressBuffer]
    are helpers of BufferFlags.h. *)
Variable dynamicUsageBit : nat.
Variable buffer_bindFlags : BufferDescriptor -> Z.
Variable buffer_miscFlags : BufferDescriptor -> Z.
Variable StorageBufferType : Type.
Variable buffer_storageType : BufferDescriptor -> StorageBufferType.
Variable IsStructuredBuffer : StorageBufferType -> bool.
Variable IsByteAddressBuffer : StorageBufferType -> bool.

(** [MiscFlags::DynamicUsage] *)
Definition MiscFlags_DynamicUsage : Z := Z.shiftl 1 (Z.of_nat dynamicUsageBit).

(** [UINT DXGetCPUAccessFlagsForMiscFlags(long miscFlags)] *)
Definition DXGetCPUAccessFlagsForMiscFlags (miscFlags : Z) : Z :=
  let flagsD3D := 0 in
  let flagsD3D :=
    if has_flag miscFlags MiscFlags_DynamicUsage
    then Z.lor flagsD3D D3D11_CPU_ACCESS_WRITE else flagsD3D in
  flagsD3D.

(** [UINT DXGetCPUAccessFlags(long cpuAccessFlags)] *)
Definition DXGetCPUAccessFlags (cpuAccessFlags : Z) : Z :=
  let flagsD3D := 0 in
  let flagsD3D :=
    if has_flag cpuAccessFlags (CPUAccessFlags Read)
    then Z.lor flagsD3D D3D11_CPU_ACCESS_READ else flagsD3D in
  let flagsD3D :=
    if has_flag cpuAccessFlags (CPUAccessFlags Write)
    then Z.lor flagsD3D D3D11_CPU_ACCESS_WRITE else flagsD3D in
  flagsD3D.

(** [UINT DXGetBufferMiscFlags(const BufferDescriptor& desc)] *)
Definition DXGetBufferMiscFlags (desc : BufferDescriptor) : Z :=
  let flagsD3D := 0 in
  let flagsD3D :=
    if has_flag (buffer_bindFlags desc) (BindFlags IndirectBuffer)
    then Z.lor flagsD3D D3D11_RESOURCE_MISC_DRAWINDIRECT_ARGS else flagsD3D in
  let flagsD3D :=
    if has_flag (buffer_bindFlags desc)
         (Z.lor (BindFlags SampleBuffer) (BindFlags RWStorageBuffer))
    then
      if IsStructuredBuffer (buffer_storageType desc)
      then Z.lor flagsD3D D3D11_RESOURCE_MISC_BUFFER_STRUCTURED
      else if IsByteAddressBuffer (buffer_storageType desc)
      then Z.lor flagsD3D D3D11_RESOURCE_MISC_BUFFER_ALLOW_RAW_VIEWS
      else flagsD3D
    else flagsD3D in
  flagsD3D.

(** [D3D11_USAGE DXGetBufferUsage(const BufferDescriptor& desc)] *)
Definition DXGetBufferUsage (desc : BufferDescriptor) : D3D11_USAGE :=
  if negb (has_flag (buffer_bindFlags desc) (BindFlags RWStorageBuffer))
  then
    if has_flag (buffer_miscFlags desc) MiscFlags_DynamicUsage
    then D3D11_USAGE_DYNAMIC
    else D3D11_USAGE_DEFAULT
  else D3D11_USAGE_DEFAULT.

(** A neutral flag is requested by a flag word when its bit is set in the
    word (a [long], read in two's complement). *)
Definition bind_flag_set (bindFlags : Z) (b : BindFlag) : bool :=
  Z.testbit bindFlags (Z.of_nat (bindBit b)).

Definition cpu_access_requested (cpuAccessFlags : Z) (f : CPUAccessFlag) : bool :=
  Z.testbit cpuAccessFlags (Z.of_nat (cpuAccessBit f)).

End Flags.

(** The neutral bits a buffer can be bound with, each with the native bit
    that corresponds to it (spec section 4.1: vertex, index, constant,
    stream-output, sample, read-write-storage). *)
Definition buffer_bind_table : list (BindFlag * Z) :=
  [ (VertexBuffer,       D3D11_BIND_VERTEX_BUFFER);
    (IndexBuffer,        D3D11_BIND_INDEX_BUFFER);
    (ConstantBuffer,     D3D11_BIND_CONSTANT_BUFFER);
    (StreamOutputBuffer, D3D11_BIND_STREAM_OUTPUT);
    (SampleBuffer,       D3D11_BIND_SHADER_RESOURCE);
    (RWStorageBuffer,    D3D11_BIND_UNORDERED_ACCESS) ].

(** A numbering of the neutral bind flags, to run the translation on. *)
Definition sample_bindBit (b : BindFlag) : nat :=
  match b with
  | VertexBuffer => 0 | IndexBuffer => 1 | ConstantBuffer => 2
  | StreamOutputBuffer => 3 | SampleBuffer => 4 | RWStorageBuffer => 5
  | ColorAttachment => 6 | DepthStencilAttachment => 7 | IndirectBuffer => 8
  end%nat.

(** The union of a list of native flag words. *)
Definition union (flags : list Z) : Z := fold_right Z.lor 0 flags.

End D3D11ResourceFlags.

(* ===================================================================== *)
(** ** D3D11RenderSystem_Textures.cpp: texture creation, query and update *)
(* ===================================================================== *)

Module D3D11Textures.
Import Machine Cxx D3D11.

(** [enum class TextureType].  [TextureTypeOther] stands for every value of
    the enumeration besides the seven kinds the back end names; it is what
    the [default:] branches receive. *)
Inductive TextureType : Type :=
| Texture1D | Texture2D | Texture3D | TextureCube
| Texture1DArray | Texture2DArray | TextureCubeArray
| TextureTypeOther.

(** [TextureFormat] and [DXGI_FORMAT] are enumerations, kept as their
    integer codes; [ImageDescriptor] is handed through to the native update
    call unread and is kept as an opaque identifier. *)
Definition TextureFormat : Type := Z.
Definition DXGI_FORMAT : Type := Z.
Definition ImageDescriptor : Type := Z.

(** Modelled from the spec: the declaration of [TextureDescriptor]
    (TextureFlags.h) is missing.  Spec section 3 gives a resource descriptor
    a dimension kind, width/height/depth, a layer count and a format.  The
    members [texture1DDesc], [texture2DDesc], [texture3DDesc] and
    [textureCubeDesc] are the per-kind views of one anonymous union, as the
    code relies on: [CreateTexture] writes [textureCubeDesc.layers] and
    [BuildGenericTexture2D] reads it back as [texture2DDesc.layers], and
    [QueryTextureDescriptor] writes [texture2DDesc.layers] and then divides
    [textureCubeDesc.layers].  The union is three 32-bit words:
    -  [texture1DDesc]   = [{ int width; unsigned layers; }]
    -  [texture2DDesc]   = [{ int width; int height; unsigned layers; }]
    -  [texture3DDesc]   = [{ int width; int height; int depth; }]
    -  [textureCubeDesc] = [{ int width; int height; unsigned layers; }] *)
Record TextureDescriptor : Type := mkTextureDescriptor {
  type   : TextureType;
  format : TextureFormat;
  word0  : Z;
  word1  : Z;
  word2  : Z
}.

(** Member reads through each view. *)
Definition texture1DDesc_width  (d : TextureDescriptor) : Z := to_int  (word0 d).
Definition texture1DDesc_layers (d : TextureDescriptor) : Z := to_uint (word1 d).

Definition texture2DDesc_width  (d : TextureDescriptor) : Z := to_int  (word0 d).
Definition texture2DDesc_height (d : TextureDescriptor) : Z := to_int  (word1 d).
Definition texture2DDesc_layers (d : TextureDescriptor) : Z := to_uint (word2 d).

Definition texture3DDesc_width  (d : TextureDescriptor) : Z := to_int  (word0 d).
Definition texture3DDesc_height (d : TextureDescriptor) : Z := to_int  (word1 d).
Definition texture3DDesc_depth  (d : TextureDescriptor) : Z := to_int  (word2 d).

Definition textureCubeDesc_width  (d : TextureDescriptor) : Z := to_int  (word0 d).
Definition textureCubeDesc_height (d : TextureDescriptor) : Z := to_int  (word1 d).
Definition textureCubeDesc_layers (d : TextureDescriptor) : Z := to_uint (word2 d).

(** Member writes; a word holds the 32-bit pattern of what is stored. *)
Definition set_type (t : TextureType) (d : TextureDescriptor) : TextureDescriptor :=
  mkTextureDescriptor t (format d) (word0 d) (word1 d) (word2 d).
Definition set_format (f : TextureFormat) (d : TextureDescriptor) : TextureDescriptor :=
  mkTextureDescriptor (type d) f (word0 d) (word1 d) (word2 d).
Definition set_word0 (v : Z) (d : TextureDescriptor) : TextureDescriptor :=
  mkTextureDescriptor (type d) (format d) (to_uint v) (word1 d) (word2 d).
Definition set_word1 (v : Z) (d : TextureDescriptor) : TextureDescriptor :=
  mkTextureDescriptor (type d) (format d) (word0 d) (to_uint v) (word2 d).
Definition set_word2 (v : Z) (d : TextureDescriptor) : TextureDescriptor :=
  mkTextureDescriptor (type d) (format d) (word0 d) (word1 d) (to_uint v).

Definition set_texture1DDesc_width    := set_word0.
Definition set_texture1DDesc_layers   := set_word1.
Definition set_texture2DDesc_width    := set_word0.
Definition set_texture2DDesc_height   := set_word1.
Definition set_texture2DDesc_layers   := set_word2.
Definition set_texture3DDesc_width    := set_word0.
Definition set_texture3DDesc_height   := set_word1.
Definition set_texture3DDesc_depth    := set_word2.
Definition set_textureCubeDesc_layers := set_word2.

(** The native descriptors of d3d11.h; all counts are [UINT]. *)
Record D3D11_TEXTURE1D_DESC : Type := mkTexture1DDesc {
  Width1D          : Z;
  MipLevels1D      : Z;
  ArraySize1D      : Z;
  Format1D         : DXGI_FORMAT;
  Usage1D          : D3D11_USAGE;
  BindFlags1D      : Z;
  CPUAccessFlags1D : Z;
  MiscFlags1D      : Z
}.

Record D3D11_TEXTURE2D_DESC : Type := mkTexture2DDesc {
  Width2D             : Z;
  Height2D            : Z;
  MipLevels2D         : Z;
  ArraySize2D         : Z;
  Format2D            : DXGI_FORMAT;
  SampleDescCount2D   : Z;
  SampleDescQuality2D : Z;
  Usage2D             : D3D11_USAGE;
  BindFlags2D         : Z;
  CPUAccessFlags2D    : Z;
  MiscFlags2D         : Z
}.

Record D3D11_TEXTURE3D_DESC : Type := mkTexture3DDesc {
  Width3D          : Z;
  Height3D         : Z;
  Depth3D          : Z;
  MipLevels3D      : Z;
  Format3D         : DXGI_FORMAT;
  Usage3D          : D3D11_USAGE;
  BindFlags3D      : Z;
  CPUAccessFlags3D : Z;
  MiscFlags3D      : Z
}.

(** The six [LONG] coordinates handed to the [CD3D11_BOX] constructor. *)
Record D3D11_BOX : Type := CD3D11_BOX {
  left : Z; top : Z; front : Z; right : Z; bottom : Z; back : Z
}.

(** The native resource behind a texture, with the descriptor it was
    created from ([GetDesc] hands it back). *)
Inductive D3D11HardwareTexture : Type :=
| HwTexture1D (desc : D3D11_TEXTURE1D_DESC)
| HwTexture2D (desc : D3D11_TEXTURE2D_DESC)
| HwTexture3D (desc : D3D11_TEXTURE3D_DESC).

(** [class D3D11Texture]: the texture type and the hardware texture, null
    until one of the [CreateTexture?D] members has succeeded. *)
Record D3D11Texture : Type := mkD3D11Texture {
  GetType            : TextureType;
  GetHardwareTexture : option D3D11HardwareTexture
}.

Definition SetType (t : TextureType) (tex : D3D11Texture) : D3D11Texture :=
  mkD3D11Texture t (GetHardwareTexture tex).

(** Calls made on the native device and device context, in program order. *)
Inductive NativeCall : Type :=
| CallCreateTexture1D (desc : D3D11_TEXTURE1D_DESC)
| CallCreateTexture2D (desc : D3D11_TEXTURE2D_DESC)
| CallCreateTexture3D (desc : D3D11_TEXTURE3D_DESC)
| CallUpdateSubresource (mipLevel layer : Z) (box : D3D11_BOX) (image : ImageDescriptor).

(** A call returns a value or leaves by a C++ exception; either way it has
    made a sequence of native calls. *)
Definition Run (A : Type) : Type := Outcome A * list NativeCall.

Definition ret {A} (a : A) : Run A := (Val a, []).
Definition throw {A} (what : string) : Run A := (Throw what, []).
Definition call (c : NativeCall) : Run unit := (Val tt, [c]).
Definition bind {A B} (m : Run A) (k : A -> Run B) : Run B :=
  match m with
  | (Val a, cs) => let (r, cs') := k a in (r, cs ++ cs')
  | (Throw what, cs) => (Throw what, cs)
  end.

Notation "x <- m ;; k" := (bind m (fun x => k))
  (at level 61, m at next level, right associativity).
Notation "m ;;; k" := (bind m (fun _ => k))
  (at level 61, right associativity).

(** [Gs::Vector3i]; its default constructor zeroes the components. *)
Record Vector3i : Type := mkVector3i { vx : Z; vy : Z; vz : Z }.
Definition Vector3i_default : Vector3i := mkVector3i 0 0 0.

(** [SubTextureDescriptor], declared in TextureFlags.h: a MIP level and one
    region per texture kind.  [WriteTexture] reads every kind through its
    own member only.  Offsets and extents along x, y, z are [int]; layer
    offsets and layer and face counts are [unsigned int]; [cubeFaceOffset]
    is an enumerator, kept as its integer value. *)
Module Sub1D.
Record t : Type := mk { x : Z; layerOffset : Z; width : Z; layers : Z }.
End Sub1D.

Module Sub2D.
Record t : Type :=
  mk { x : Z; y : Z; layerOffset : Z; width : Z; height : Z; layers : Z }.
End Sub2D.

Module Sub3D.
Record t : Type :=
  mk { x : Z; y : Z; z : Z; width : Z; height : Z; depth : Z }.
End Sub3D.

Module SubCube.
Record t : Type :=
  mk { x : Z; y : Z; layerOffset : Z; width : Z; height : Z;
       cubeFaces : Z; cubeFaceOffset : Z }.
End SubCube.

Record SubTextureDescriptor : Type := mkSubTextureDescriptor {
  mipLevel            : Z;
  sub_texture1DDesc   : Sub1D.t;
  sub_texture2DDesc   : Sub2D.t;
  sub_texture3DDesc   : Sub3D.t;
  sub_textureCubeDesc : SubCube.t
}.

Section RenderSystem.

(** [D3D11Types::Map] and [D3D11Types::Unmap] (D3D11Types.cpp). *)
Variable Map : TextureFormat -> DXGI_FORMAT.
Variable Unmap : DXGI_FORMAT -> TextureFormat.

(** Whether the native device accepts a texture descriptor. *)
Variable device_CreateTexture1D : D3D11_TEXTURE1D_DESC -> bool.
Variable device_CreateTexture2D : D3D11_TEXTURE2D_DESC -> bool.
Variable device_CreateTexture3D : D3D11_TEXTURE3D_DESC -> bool.

(** Modelled from the spec: [D3D11Texture::CreateTexture1D], [CreateTexture2D]
    and [CreateTexture3D] (D3D11Texture.cpp) are missing.  Spec section 2:
    creation ends in the "native creation call" and "on success, the
    returned native handle is wrapped"; section 7: a fatal failure aborts
    "the in-progress creation instead of returning a partially-initialized
    object". *)
Definition CreateTexture1D (tex : D3D11Texture) (desc : D3D11_TEXTURE1D_DESC)
  : Run D3D11Texture :=
  call (CallCreateTexture1D desc) ;;;
  if device_CreateTexture1D desc
  then ret (mkD3D11Texture (GetType tex) (Some (HwTexture1D desc)))
  else throw "failed to create D3D11 1D-texture".

Definition CreateTexture2D (tex : D3D11Texture) (desc : D3D11_TEXTURE2D_DESC)
  : Run D3D11Texture :=
  call (CallCreateTexture2D desc) ;;;
  if device_CreateTexture2D desc
  then ret (mkD3D11Texture (GetType tex) (Some (HwTexture2D desc)))
  else throw "failed to create D3D11 2D-texture".

Definition CreateTexture3D (tex : D3D11Texture) (desc : D3D11_TEXTURE3D_DESC)
  : Run D3D11Texture :=
  call (CallCreateTexture3D desc) ;;;
  if device_CreateTexture3D desc
  then ret (mkD3D11Texture (GetType tex) (Some (HwTexture3D desc)))
  else throw "failed to create D3D11 3D-texture".

(** [D3D11Texture::UpdateSubresource]: one native update of the box. *)
Definition UpdateSubresource (mipSlice arraySlice : Z) (box : D3D11_BOX)
    (imageDesc : ImageDescriptor) : Run unit :=
  call (CallUpdateSubresource mipSlice arraySlice box imageDesc).

(** [D3D11RenderSystem::BuildGenericTexture1D] *)
Definition BuildGenericTexture1D (textureD3D : D3D11Texture)
    (descD3D : TextureDescriptor) (imageDesc : option ImageDescriptor)
    (cpuAccessFlags miscFlags : Z) : Run D3D11Texture :=
  let texDesc :=
    {| Width1D          := to_uint (texture1DDesc_width descD3D);
       MipLevels1D      := 0;
       ArraySize1D      := texture1DDesc_layers descD3D;
       Format1D         := Map (format descD3D);
       Usage1D          := D3D11_USAGE_DEFAULT;
       BindFlags1D      := Z.lor D3D11_BIND_SHADER_RESOURCE D3D11_BIND_RENDER_TARGET;
       CPUAccessFlags1D := cpuAccessFlags;
       MiscFlags1D      := miscFlags |} in
  textureD3D <- CreateTexture1D textureD3D texDesc ;;
  match imageDesc with
  | Some image =>
      UpdateSubresource 0 0
        (CD3D11_BOX 0 0 0
           (texture1DDesc_width descD3D)
           (to_int (texture1DDesc_layers descD3D)) 1)
        image ;;;
      ret textureD3D
  | None => ret textureD3D
  end.

(** [D3D11RenderSystem::BuildGenericTexture2D] *)
Definition BuildGenericTexture2D (textureD3D : D3D11Texture)
    (descD3D : TextureDescriptor) (imageDesc : option ImageDescriptor)
    (cpuAccessFlags miscFlags : Z) : Run D3D11Texture :=
  let texDesc :=
    {| Width2D             := to_uint (texture2DDesc_width descD3D);
       Height2D            := to_uint (texture2DDesc_height descD3D);
       MipLevels2D         := 0;
       ArraySize2D         := texture2DDesc_layers descD3D;
       Format2D            := Map (format descD3D);
       SampleDescCount2D   := 1;
       SampleDescQuality2D := 0;
       Usage2D             := D3D11_USAGE_DEFAULT;
       BindFlags2D         := Z.lor D3D11_BIND_SHADER_RESOURCE D3D11_BIND_RENDER_TARGET;
       CPUAccessFlags2D    := cpuAccessFlags;
       MiscFlags2D         := miscFlags |} in
  textureD3D <- CreateTexture2D textureD3D texDesc ;;
  match imageDesc with
  | Some image =>
      UpdateSubresource 0 0
        (CD3D11_BOX 0 0 0
           (texture2DDesc_width descD3D)
           (texture2DDesc_height descD3D)
           (to_int (texture2DDesc_layers descD3D)))
        image ;;;
      ret textureD3D
  | None => ret textureD3D
  end.

(** [D3D11RenderSystem::BuildGenericTexture3D] *)
Definition BuildGenericTexture3D (textureD3D : D3D11Texture)
    (descD3D : TextureDescriptor) (imageDesc : option ImageDescriptor)
    (cpuAccessFlags miscFlags : Z) : Run D3D11Texture :=
  let texDesc :=
    {| Width3D          := to_uint (texture3DDesc_width descD3D);
       Height3D         := to_uint (texture3DDesc_height descD3D);
       Depth3D          := to_uint (texture3DDesc_depth descD3D);
       MipLevels3D      := 0;
       Format3D         := Map (format descD3D);
       Usage3D          := D3D11_USAGE_DEFAULT;
       BindFlags3D      := Z.lor D3D11_BIND_SHADER_RESOURCE D3D11_BIND_RENDER_TARGET;
       CPUAccessFlags3D := cpuAccessFlags;
       MiscFlags3D      := miscFlags |} in
  textureD3D <- CreateTexture3D textureD3D texDesc ;;
  match imageDesc with
  | Some image =>
      UpdateSubresource 0 0
        (CD3D11_BOX 0 0 0
           (texture3DDesc_width descD3D)
           (texture3DDesc_height descD3D)
           (texture3DDesc_depth descD3D))
        image ;;;
      ret textureD3D
  | None => ret textureD3D
  end.

(** The first [switch] of [CreateTexture]: "Modify number of layers". *)
Definition CreateTexture_layers (descD3D : TextureDescriptor) : TextureDescriptor :=
  match type descD3D with
  | Texture1D        => set_texture1DDesc_layers 1 descD3D
  | Texture2D        => set_texture2DDesc_layers 1 descD3D
  | TextureCube      => set_textureCubeDesc_layers 6 descD3D
  | TextureCubeArray =>
      set_textureCubeDesc_layers (textureCubeDesc_layers descD3D * 6) descD3D
  | _                => descD3D
  end.

(** [D3D11RenderSystem::CreateTexture].  The result is the texture that
    [TakeOwnership] stores in [textures_] and hands back. *)
Definition CreateTexture (textureDesc : TextureDescriptor)
    (imageDesc : option ImageDescriptor) : Run D3D11Texture :=
  let texture := mkD3D11Texture TextureTypeOther None in
  let texture := SetType (type textureDesc) texture in
  let descD3D := CreateTexture_layers textureDesc in
  match type descD3D with
  | Texture1D | Texture1DArray =>
      BuildGenericTexture1D texture descD3D imageDesc 0
        D3D11_RESOURCE_MISC_GENERATE_MIPS
  | Texture2D | Texture2DArray =>
      BuildGenericTexture2D texture descD3D imageDesc 0
        D3D11_RESOURCE_MISC_GENERATE_MIPS
  | Texture3D =>
      BuildGenericTexture3D texture descD3D imageDesc 0
        D3D11_RESOURCE_MISC_GENERATE_MIPS
  | TextureCube | TextureCubeArray =>
      BuildGenericTexture2D texture descD3D imageDesc 0
        (Z.lor D3D11_RESOURCE_MISC_GENERATE_MIPS D3D11_RESOURCE_MISC_TEXTURECUBE)
  | TextureTypeOther =>
      throw "failed to create texture with invalid texture type"
  end.

(** [D3D11RenderSystem::QueryTextureDescriptor].  [texDesc] is the
    default-constructed local the function fills in; the result is [None]
    where the C++ dereferences the null resource of a texture that was never
    created. *)
Definition QueryTextureDescriptor (texDesc : TextureDescriptor)
    (texture : D3D11Texture) : option TextureDescriptor :=
  match GetHardwareTexture texture with
  | None => None
  | Some hwTex =>
      let texDesc := set_type (GetType texture) texDesc in
      match hwTex with
      | HwTexture1D desc =>
          let texDesc := set_format (Unmap (Format1D desc)) texDesc in
          let texDesc := set_texture1DDesc_width (to_int (Width1D desc)) texDesc in
          let texDesc := set_texture1DDesc_layers (ArraySize1D desc) texDesc in
          Some texDesc
      | HwTexture2D desc =>
          let texDesc := set_format (Unmap (Format2D desc)) texDesc in
          let texDesc := set_texture2DDesc_width (to_int (Width2D desc)) texDesc in
          let texDesc := set_texture2DDesc_height (to_int (Height2D desc)) texDesc in
          let texDesc := set_texture2DDesc_layers (ArraySize2D desc) texDesc in
          match type texDesc with
          | TextureCube | TextureCubeArray =>
              Some (set_textureCubeDesc_layers (textureCubeDesc_layers texDesc / 6) texDesc)
          | _ => Some texDesc
          end
      | HwTexture3D desc =>
          let texDesc := set_format (Unmap (Format3D desc)) texDesc in
          let texDesc := set_texture3DDesc_width (to_int (Width3D desc)) texDesc in
          let texDesc := set_texture3DDesc_height (to_int (Height3D desc)) texDesc in
          let texDesc := set_texture3DDesc_depth (to_int (Depth3D desc)) texDesc in
          Some texDesc
      end
  end.

(** [D3D11RenderSystem::UpdateGenericTexture] *)
Definition UpdateGenericTexture (texture : D3D11Texture) (mipLevel layer : Z)
    (position size : Vector3i) (imageDesc : ImageDescriptor) : Run unit :=
  UpdateSubresource (to_uint mipLevel) layer
    (CD3D11_BOX
       (vx position) (vy position) (vz position)
       (int_add (vx position) (vx size))
       (int_add (vy position) (vy size))
       (int_add (vz position) (vz size)))
    imageDesc.

(** The [switch] of [WriteTexture]: "Determine update region". *)
Definition WriteTexture_region (t : TextureType) (subTextureDesc : SubTextureDescriptor)
  : Vector3i * Vector3i :=
  let position := Vector3i_default in
  let size := Vector3i_default in
  match t with
  | Texture1D =>
      let d := sub_texture1DDesc subTextureDesc in
      (mkVector3i (to_int (Sub1D.x d)) (vy position) (vz position),
       mkVector3i (to_int (Sub1D.width d)) 1 1)
  | Texture2D =>
      let d := sub_texture2DDesc subTextureDesc in
      (mkVector3i (to_int (Sub2D.x d)) (to_int (Sub2D.y d)) (vz position),
       mkVector3i (to_int (Sub2D.width d)) (to_int (Sub2D.height d)) 1)
  | Texture3D =>
      let d := sub_texture3DDesc subTextureDesc in
      (mkVector3i (to_int (Sub3D.x d)) (to_int (Sub3D.y d)) (to_int (Sub3D.z d)),
       mkVector3i (to_int (Sub3D.width d)) (to_int (Sub3D.height d))
                  (to_int (Sub3D.depth d)))
  | TextureCube =>
      let d := sub_textureCubeDesc subTextureDesc in
      (mkVector3i (to_int (SubCube.x d)) (to_int (SubCube.y d))
                  (to_int (SubCube.cubeFaceOffset d)),
       mkVector3i (to_int (SubCube.width d)) (to_int (SubCube.height d)) 1)
  | Texture1DArray =>
      let d := sub_texture1DDesc subTextureDesc in
      (mkVector3i (to_int (Sub1D.x d)) (to_int (to_uint (Sub1D.layerOffset d))) 0,
       mkVector3i (to_int (Sub1D.width d)) (to_int (to_uint (Sub1D.layers d))) 1)
  | Texture2DArray =>
      let d := sub_texture2DDesc subTextureDesc in
      (mkVector3i (to_int (Sub2D.x d)) (to_int (Sub2D.y d))
                  (to_int (to_uint (Sub2D.layerOffset d))),
       mkVector3i (to_int (Sub2D.width d)) (to_int (Sub2D.height d))
                  (to_int (to_uint (Sub2D.layers d))))
  | TextureCubeArray =>
      let d := sub_textureCubeDesc subTextureDesc in
      (mkVector3i (to_int (SubCube.x d)) (to_int (SubCube.y d))
                  (to_int (to_uint (to_uint (SubCube.layerOffset d) * 6
                                    + to_int (SubCube.cubeFaceOffset d)))),
       mkVector3i (to_int (SubCube.width d)) (to_int (SubCube.height d))
                  (to_int (to_uint (SubCube.cubeFaces d))))
  | TextureTypeOther => (position, size)
  end.

(** [D3D11RenderSystem::WriteTexture] *)
Definition WriteTexture (texture : D3D11Texture)
    (subTextureDesc : SubTextureDescriptor) (imageDesc : ImageDescriptor) : Run unit :=
  let (position, size) := WriteTexture_region (GetType texture) subTextureDesc in
  UpdateGenericTexture texture (mipLevel subTextureDesc) 0 position size imageDesc.

End RenderSystem.

(** The mip-chain length in the words of spec section 4.2:
    [floor(log2(max(width,height,depth))) + 1]. *)
Definition spec_mip_chain_length (width height depth : Z) : Z :=
  Z.log2 (Z.max width (Z.max height depth)) + 1.

(** Modelled from the spec: the length of the mip chain of a created native
    resource.  The Direct3D runtime that builds the chain is not part of the
    sources; the builders only hand it the descriptor.  Spec section 4.2:
    "requesting 0 explicit mip levels is the signal for 'derive
    automatically'" and then the "effective mip-chain length is computed as
    floor(log2(max(width,height,depth))) + 1"; section 9: the value 0 "is
    treated here as 'full chain'".  The extents are those of the native
    descriptor the resource was created from; an axis the resource does not
    have counts as 1, and a non-zero [MipLevels] is the length asked for. *)
Definition effective_MipLevels (hw : D3D11HardwareTexture) : Z :=
  match hw with
  | HwTexture1D d =>
      if MipLevels1D d =? 0
      then spec_mip_chain_length (Width1D d) 1 1
      else MipLevels1D d
  | HwTexture2D d =>
      if MipLevels2D d =? 0
      then spec_mip_chain_length (Width2D d) (Height2D d) 1
      else MipLevels2D d
  | HwTexture3D d =>
      if MipLevels3D d =? 0
      then spec_mip_chain_length (Width3D d) (Height3D d) (Depth3D d)
      else MipLevels3D d
  end.

(** The [MipLevels] and [ArraySize] members of the descriptor handed to the
    native creation call. *)
Definition native_MipLevels (c : NativeCall) : option Z :=
  match c with
  | CallCreateTexture1D d => Some (MipLevels1D d)
  | CallCreateTexture2D d => Some (MipLevels2D d)
  | CallCreateTexture3D d => Some (MipLevels3D d)
  | CallUpdateSubresource _ _ _ _ => None
  end.

Definition native_ArraySize (c : NativeCall) : option Z :=
  match c with
  | CallCreateTexture1D d => Some (ArraySize1D d)
  | CallCreateTexture2D d => Some (ArraySize2D d)
  | CallCreateTexture3D _ => None
  | CallUpdateSubresource _ _ _ _ => None
  end.

(** The same members for a whole run: those of its first native call, the
    creation call. *)
Definition requested_MipLevels {A} (r : Run A) : option Z :=
  match snd r with
  | c :: _ => native_MipLevels c
  | [] => None
  end.

Definition requested_ArraySize {A} (r : Run A) : option Z :=
  match snd r with
  | c :: _ => native_ArraySize c
  | [] => None
  end.

(** The uniform box of spec section 4.2: [(x,y,z) -> (x+w,y+h,z+d)]. *)
Definition spec_box (x y z w h d : Z) : D3D11_BOX :=
  CD3D11_BOX x y z (x + w) (y + h) (z + d).

(** A box whose origin, extent and far corner all are [int] values. *)
Definition int_range (v : Z) : Prop := INT_MIN <= v <= INT_MAX.

Definition box_in_int_range (x y z w h d : Z) : Prop :=
  int_range x /\ int_range y /\ int_range z
  /\ int_range w /\ int_range h /\ int_range d
  /\ int_range (x + w) /\ int_range (y + h) /\ int_range (z + d).

(** Inputs to run the render system on: formats mapped to themselves, a
    device that accepts every descriptor. *)
Definition same_format (f : Z) : Z := f.
Definition accept1D (_ : D3D11_TEXTURE1D_DESC) : bool := true.
Definition accept2D (_ : D3D11_TEXTURE2D_DESC) : bool := true.
Definition accept3D (_ : D3D11_TEXTURE3D_DESC) : bool := true.

(** A cube array of 2^31 + 1 cubes of 64 x 64 texels. *)
Definition wide_cube_array : TextureDescriptor :=
  mkTextureDescriptor TextureCubeArray 0 64 64 2147483649.

(** A cube array of four cubes. *)
Definition small_cube_array : TextureDescriptor :=
  mkTextureDescriptor TextureCubeArray 0 64 64 4.

(** A plain 2D texture of 256 x 256 texels. *)
Definition square_2d : TextureDescriptor :=
  mkTextureDescriptor Texture2D 0 256 256 0.

(** A default-constructed descriptor. *)
Definition blank : TextureDescriptor :=
  mkTextureDescriptor TextureTypeOther 0 0 0 0.

(** A region of a cube array whose layer offset times six leaves the range
    of 32-bit integers: cube 715827883, face 0, one face of 1 x 1 texels. *)
Definition far_cube_region : SubTextureDescriptor :=
  mkSubTextureDescriptor 0
    (Sub1D.mk 0 0 0 0) (Sub2D.mk 0 0 0 0 0 0) (Sub3D.mk 0 0 0 0 0 0)
    (SubCube.mk 0 0 715827883 1 1 1 0).

(** The region of the spec's scenario, at (16, 32): layer offset 3, one
    layer, 256 x 256 texels. *)
Definition layer3_region : SubTextureDescriptor :=
  mkSubTextureDescriptor 0
    (Sub1D.mk 0 0 0 0) (Sub2D.mk 16 32 3 256 256 1) (Sub3D.mk 0 0 0 0 0 0)
    (SubCube.mk 0 0 0 0 0 0 0).

(** What a native creation call's descriptor says of usage, bind flags, CPU
    access flags and misc flags; an update has no descriptor. *)
Definition native_desc_flags (c : NativeCall) : option (D3D11_USAGE * Z * Z * Z) :=
  match c with
  | CallCreateTexture1D d =>
      Some (Usage1D d, BindFlags1D d, CPUAccessFlags1D d, MiscFlags1D d)
  | CallCreateTexture2D d =>
      Some (Usage2D d, BindFlags2D d, CPUAccessFlags2D d, MiscFlags2D d)
  | CallCreateTexture3D d =>
      Some (Usage3D d, BindFlags3D d, CPUAccessFlags3D d, MiscFlags3D d)
  | CallUpdateSubresource _ _ _ _ => None
  end.

(** The resource dimension (1, 2 or 3) a native creation call asks for. *)
Definition native_dimension (c : NativeCall) : option Z :=
  match c with
  | CallCreateTexture1D _ => Some 1
  | CallCreateTexture2D _ => Some 2
  | CallCreateTexture3D _ => Some 3
  | CallUpdateSubresource _ _ _ _ => None
  end.

(** The cube kinds. *)
Definition is_cube_kind (t : TextureType) : bool :=
  match t with
  | TextureCube | TextureCubeArray => true
  | _ => false
  end.

(** The run of a [WriteTexture] that updates one box: it returns and has
    made one native update, of the region's MIP level and array slice 0. *)
Definition updates_box (sd : SubTextureDescriptor) (imageDesc : ImageDescriptor)
    (box : D3D11_BOX) : Run unit :=
  (Val tt, [CallUpdateSubresource (to_uint (mipLevel sd)) 0 box imageDesc]).

(** The [UINT] members [left], [top], [front], [right], [bottom], [back]
    of the [D3D11_BOX] (d3d11.h) that the [CD3D11_BOX] constructor fills
    from its six [LONG] arguments. *)
Definition box_members (b : D3D11_BOX) : list Z :=
  map to_uint [left b; top b; front b; right b; bottom b; back b].

(** [WriteTexture] on a region makes one native update, of the region's MIP
    level, on a box that is [(x,y,z) -> (x+w,y+h,z+d)] in 32-bit
    arithmetic: its members are those values modulo 2^32, and the
    constructor arguments are those values themselves whenever they are
    [int] values. *)
Definition writes_box (texture : D3D11Texture) (sd : SubTextureDescriptor)
    (imageDesc : ImageDescriptor) (x y z w h d : Z) : Prop :=
  exists box,
    WriteTexture texture sd imageDesc = updates_box sd imageDesc box
    /\ box_members box = box_members (spec_box x y z w h d)
    /\ (box_in_int_range x y z w h d -> box = spec_box x y z w h d).

(** A region of a 1D array texture: layers 2 to 4 of the texels 8 to 71. *)
Definition layers_2_to_4 : SubTextureDescriptor :=
  mkSubTextureDescriptor 1
    (Sub1D.mk 8 2 64 3) (Sub2D.mk 0 0 0 0 0 0) (Sub3D.mk 0 0 0 0 0 0)
    (SubCube.mk 0 0 0 0 0 0 0).

(** A 2D array texture of 5 layers of 128 x 64 texels. *)
Definition five_layers : TextureDescriptor :=
  mkTextureDescriptor Texture2DArray 3 128 64 5.

End D3D11Textures.

(* ===================================================================== *)
(** ** D3D12RenderSystem.cpp: device creation *)
(* ===================================================================== *)

Module D3D12.
Import Machine Cxx.

(** [D3D_FEATURE_LEVEL] (d3dcommon.h) *)
Inductive D3D_FEATURE_LEVEL : Type :=
| D3D_FEATURE_LEVEL_12_1 | D3D_FEATURE_LEVEL_12_0
| D3D_FEATURE_LEVEL_11_1 | D3D_FEATURE_LEVEL_11_0
| D3D_FEATURE_LEVEL_10_1 | D3D_FEATURE_LEVEL_10_0
| D3D_FEATURE_LEVEL_9_3 | D3D_FEATURE_LEVEL_9_2 | D3D_FEATURE_LEVEL_9_1.

(** The numeric value of a level; a higher value is a higher capability. *)
Definition level_value (l : D3D_FEATURE_LEVEL) : Z :=
  match l with
  | D3D_FEATURE_LEVEL_12_1 => 0xc100 | D3D_FEATURE_LEVEL_12_0 => 0xc000
  | D3D_FEATURE_LEVEL_11_1 => 0xb100 | D3D_FEATURE_LEVEL_11_0 => 0xb000
  | D3D_FEATURE_LEVEL_10_1 => 0xa100 | D3D_FEATURE_LEVEL_10_0 => 0xa000
  | D3D_FEATURE_LEVEL_9_3 => 0x9300 | D3D_FEATURE_LEVEL_9_2 => 0x9200
  | D3D_FEATURE_LEVEL_9_1 => 0x9100
  end.

(** [IDXGIAdapter*] and [ID3D12Device*]: [None] is [nullptr]; a null adapter
    selects the default hardware adapter. *)
Definition IDXGIAdapter_ptr : Type := option nat.
Definition ID3D12Device_ptr : Type := option nat.

(** [static std::vector<D3D_FEATURE_LEVEL> GetFeatureLevels()] *)
Definition GetFeatureLevels : list D3D_FEATURE_LEVEL :=
  [ D3D_FEATURE_LEVEL_12_1; D3D_FEATURE_LEVEL_12_0;
    D3D_FEATURE_LEVEL_11_1; D3D_FEATURE_LEVEL_11_0;
    D3D_FEATURE_LEVEL_10_1; D3D_FEATURE_LEVEL_10_0;
    D3D_FEATURE_LEVEL_9_3; D3D_FEATURE_LEVEL_9_2; D3D_FEATURE_LEVEL_9_1 ].

(** Calls into DXGI and Direct3D 12, in program order. *)
Inductive NativeCall : Type :=
| CallD3D12CreateDevice (adapter : IDXGIAdapter_ptr) (level : D3D_FEATURE_LEVEL)
| CallEnumWarpAdapter.

(** The members of [D3D12RenderSystem] that device creation writes
    ([device_] starts as [nullptr], [featureLevel_] as 9_1), with the native
    calls made so far. *)
Record D3D12RenderSystem : Type := mkD3D12RenderSystem {
  device_       : ID3D12Device_ptr;
  featureLevel_ : D3D_FEATURE_LEVEL;
  calls         : list NativeCall
}.

Definition D3D12RenderSystem_initial : D3D12RenderSystem :=
  mkD3D12RenderSystem None D3D_FEATURE_LEVEL_9_1 [].

Section Device.

(** [D3D12CreateDevice(adapter, level, IID_PPV_ARGS(&device_))]: the result
    code and the pointer it stores through its last argument. *)
Variable D3D12CreateDevice :
  IDXGIAdapter_ptr -> D3D_FEATURE_LEVEL -> HRESULT * ID3D12Device_ptr.

(** [factory_->EnumWarpAdapter(IID_PPV_ARGS(&adapter))]: the adapter pointer
    it stores; its result code is not looked at. *)
Variable EnumWarpAdapter : IDXGIAdapter_ptr.

(** Modelled from the spec: [DXThrowIfFailed] (DXCore.cpp) is missing.  Spec
    section 4.4, step 4: "If still no success: fatal initialization failure
    (DeviceCreationFailed)"; the helper raises that failure exactly when the
    result code it is given is a failure code. *)
Definition DXThrowIfFailed {A} (hr : HRESULT) (info : string) (k : Outcome A)
  : Outcome A :=
  if FAILED hr then Throw info else k.

(** [bool D3D12RenderSystem::CreateDevice(HRESULT& hr, IDXGIAdapter* adapter,
    const std::vector<D3D_FEATURE_LEVEL>& featureLevels)]: the returned flag,
    the final [hr] and the object's members. *)
Fixpoint CreateDevice_with (adapter : IDXGIAdapter_ptr)
    (featureLevels : list D3D_FEATURE_LEVEL) (hr : HRESULT)
    (self : D3D12RenderSystem) : bool * HRESULT * D3D12RenderSystem :=
  match featureLevels with
  | [] => (false, hr, self)
  | level :: rest =>
      let (hr, ppDevice) := D3D12CreateDevice adapter level in
      let self := mkD3D12RenderSystem ppDevice (featureLevel_ self)
                    (calls self ++ [CallD3D12CreateDevice adapter level]) in
      if negb (FAILED hr)
      then (true, hr, mkD3D12RenderSystem (device_ self) level (calls self))
      else CreateDevice_with adapter rest hr self
  end.

(** [void D3D12RenderSystem::CreateDevice()] *)
Definition CreateDevice (self : D3D12RenderSystem) : Outcome D3D12RenderSystem :=
  let adapter : IDXGIAdapter_ptr := None in
  let featureLevels := GetFeatureLevels in
  let hr : HRESULT := 0 in
  let '(created, hr, self) := CreateDevice_with adapter featureLevels hr self in
  if negb created then
    let adapter := EnumWarpAdapter in
    let self := mkD3D12RenderSystem (device_ self) (featureLevel_ self)
                  (calls self ++ [CallEnumWarpAdapter]) in
    let '(created, hr, self) := CreateDevice_with adapter featureLevels hr self in
    if negb created
    then DXThrowIfFailed hr "failed to create D3D12 device" (Val self)
    else Val self
  else Val self.

(** Whether the creation succeeds on an adapter at a level, and the
    attempts on an adapter at the levels of a list, in the order of the
    list. *)
Definition succeeds (adapter : IDXGIAdapter_ptr) (level : D3D_FEATURE_LEVEL) : bool :=
  negb (FAILED (fst (D3D12CreateDevice adapter level))).

Definition attempts (adapter : IDXGIAdapter_ptr) (levels : list D3D_FEATURE_LEVEL)
  : list NativeCall :=
  map (CallD3D12CreateDevice adapter) levels.

End Device.

(** Result codes of winerror.h, as signed 32-bit values. *)
Definition S_OK : HRESULT := 0.
Definition E_FAIL : HRESULT := to_int 0x80004005.

(** A machine to run device creation on: the hardware adapter creates
    devices up to the level [hardware], the software adapter up to the
    level [software]; [None] is an adapter that creates no device. *)
Definition warp_adapter : IDXGIAdapter_ptr := Some 1%nat.

Definition machine (hardware software : option D3D_FEATURE_LEVEL)
    (adapter : IDXGIAdapter_ptr) (level : D3D_FEATURE_LEVEL)
  : HRESULT * ID3D12Device_ptr :=
  match (match adapter with None => hardware | Some _ => software end) with
  | Some top =>
      if level_value level <=? level_value top
      then (S_OK, Some 7%nat)
      else (E_FAIL, None)
  | None => (E_FAIL, None)
  end.

(** [level >= other] on two feature levels compares their values. *)
Definition level_ge (level other : D3D_FEATURE_LEVEL) : bool :=
  level_value level >=? level_value other.

(** [static int GetMaxTextureDimension(D3D_FEATURE_LEVEL featureLevel)] *)
Definition GetMaxTextureDimension (featureLevel : D3D_FEATURE_LEVEL) : Z :=
  if level_ge featureLevel D3D_FEATURE_LEVEL_11_0 then 16384
  else if level_ge featureLevel D3D_FEATURE_LEVEL_10_0 then 8192
  else if level_ge featureLevel D3D_FEATURE_LEVEL_9_3 then 4096
  else 2048.

(** [static int GetMaxCubeTextureDimension(D3D_FEATURE_LEVEL featureLevel)] *)
Definition GetMaxCubeTextureDimension (featureLevel : D3D_FEATURE_LEVEL) : Z :=
  if level_ge featureLevel D3D_FEATURE_LEVEL_11_0 then 16384
  else if level_ge featureLevel D3D_FEATURE_LEVEL_10_0 then 8192
  else if level_ge featureLevel D3D_FEATURE_LEVEL_9_3 then 4096
  else 512.

(** [static unsigned int GetMaxRenderTargets(D3D_FEATURE_LEVEL featureLevel)] *)
Definition GetMaxRenderTargets (featureLevel : D3D_FEATURE_LEVEL) : Z :=
  if level_ge featureLevel D3D_FEATURE_LEVEL_10_0 then 8
  else if level_ge featureLevel D3D_FEATURE_LEVEL_9_3 then 4
  else 1.

Inductive ScreenOrigin : Type := LowerLeft | UpperLeft.
Inductive ClippingRange : Type := MinusOneToOne | ZeroToOne.

(** [RenderingCaps], the members [QueryRenderingCaps] fills in. *)
Record RenderingCaps : Type := mkRenderingCaps {
  screenOrigin                  : ScreenOrigin;
  clippingRange                 : ClippingRange;
  hasRenderTargets              : bool;
  has3DTextures                 : bool;
  hasCubeTextures               : bool;
  hasTextureArrays              : bool;
  hasCubeTextureArrays          : bool;
  hasSamplers                   : bool;
  hasConstantBuffers            : bool;
  hasStorageBuffers             : bool;
  hasUniforms                   : bool;
  hasGeometryShaders            : bool;
  hasTessellationShaders        : bool;
  hasComputeShaders             : bool;
  hasInstancing                 : bool;
  hasOffsetInstancing           : bool;
  hasViewportArrays             : bool;
  hasConservativeRasterization  : bool;
  maxNumTextureArrayLayers      : Z;
  maxNumRenderTargetAttachments : Z;
  maxConstantBufferSize         : Z;
  max1DTextureSize              : Z;
  max2DTextureSize              : Z;
  max3DTextureSize              : Z;
  maxCubeTextureSize            : Z;
  maxAnisotropy                 : Z;
  maxNumComputeShaderWorkGroups : Z * Z * Z;
  maxComputeShaderWorkGroupSize : Z * Z * Z
}.

(** [D3D12_CS_DISPATCH_MAX_THREAD_GROUPS_PER_DIMENSION] (d3d12.h) *)
Definition D3D12_CS_DISPATCH_MAX_THREAD_GROUPS_PER_DIMENSION : Z := 65535.

(** [RenderingCaps D3D12RenderSystem::QueryRenderingCaps() const] *)
Definition QueryRenderingCaps (self : D3D12RenderSystem) : RenderingCaps :=
  let level := featureLevel_ self in
  let maxThreadGroups := D3D12_CS_DISPATCH_MAX_THREAD_GROUPS_PER_DIMENSION in
  {| screenOrigin                  := UpperLeft;
     clippingRange                 := ZeroToOne;
     hasRenderTargets              := true;
     has3DTextures                 := true;
     hasCubeTextures               := true;
     hasTextureArrays              := level_ge level D3D_FEATURE_LEVEL_10_0;
     hasCubeTextureArrays          := level_ge level D3D_FEATURE_LEVEL_10_1;
     hasSamplers                   := level_ge level D3D_FEATURE_LEVEL_9_3;
     hasConstantBuffers            := true;
     hasStorageBuffers             := true;
     hasUniforms                   := false;
     hasGeometryShaders            := level_ge level D3D_FEATURE_LEVEL_10_0;
     hasTessellationShaders        := level_ge level D3D_FEATURE_LEVEL_11_0;
     hasComputeShaders             := level_ge level D3D_FEATURE_LEVEL_10_0;
     hasInstancing                 := level_ge level D3D_FEATURE_LEVEL_9_3;
     hasOffsetInstancing           := level_ge level D3D_FEATURE_LEVEL_9_3;
     hasViewportArrays             := true;
     hasConservativeRasterization  := level_ge level D3D_FEATURE_LEVEL_11_1;
     maxNumTextureArrayLayers      :=
       if level_ge level D3D_FEATURE_LEVEL_10_0 then 2048 else 256;
     maxNumRenderTargetAttachments := GetMaxRenderTargets level;
     maxConstantBufferSize         := 16384;
     max1DTextureSize              := GetMaxTextureDimension level;
     max2DTextureSize              := GetMaxTextureDimension level;
     max3DTextureSize              :=
       if level_ge level D3D_FEATURE_LEVEL_10_0 then 2048 else 256;
     maxCubeTextureSize            := GetMaxCubeTextureDimension level;
     maxAnisotropy                 :=
       if level_ge level D3D_FEATURE_LEVEL_9_2 then 16 else 2;
     maxNumComputeShaderWorkGroups :=
       (maxThreadGroups, maxThreadGroups,
        if level_ge level D3D_FEATURE_LEVEL_11_0 then maxThreadGroups else 1);
     maxComputeShaderWorkGroupSize := (1024, 1024, 1024) |}.

Inductive ShadingLanguage : Type :=
| HLSL_2_0a | HLSL_2_0b | HLSL_3_0 | HLSL_4_0 | HLSL_4_1 | HLSL_5_0.

(** [ShadingLanguage D3D12RenderSystem::QueryShadingLanguage() const] *)
Definition QueryShadingLanguage (self : D3D12RenderSystem) : ShadingLanguage :=
  let featureLevel := featureLevel_ self in
  if level_ge featureLevel D3D_FEATURE_LEVEL_11_0 then HLSL_5_0
  else if level_ge featureLevel D3D_FEATURE_LEVEL_10_1 then HLSL_4_1
  else if level_ge featureLevel D3D_FEATURE_LEVEL_10_0 then HLSL_4_0
  else if level_ge featureLevel D3D_FEATURE_LEVEL_9_3 then HLSL_3_0
  else if level_ge featureLevel D3D_FEATURE_LEVEL_9_2 then HLSL_2_0b
  else HLSL_2_0a.

(** The versions in the order of their release. *)
Definition ShadingLanguage_rank (l : ShadingLanguage) : Z :=
  match l with
  | HLSL_2_0a => 0 | HLSL_2_0b => 1 | HLSL_3_0 => 2
  | HLSL_4_0 => 3 | HLSL_4_1 => 4 | HLSL_5_0 => 5
  end.

(** One capability table offers at least what another does: every feature
    flag of the other, and limits at least as high. *)
Definition caps_at_least (more less : RenderingCaps) : Prop :=
  let has (f : RenderingCaps -> bool) := f less = true -> f more = true in
  let max (f : RenderingCaps -> Z) := f less <= f more in
  has hasRenderTargets /\ has has3DTextures /\ has hasCubeTextures
  /\ has hasTextureArrays /\ has hasCubeTextureArrays /\ has hasSamplers
  /\ has hasConstantBuffers /\ has hasStorageBuffers /\ has hasUniforms
  /\ has hasGeometryShaders /\ has hasTessellationShaders
  /\ has hasComputeShaders /\ has hasInstancing /\ has hasOffsetInstancing
  /\ has hasViewportArrays /\ has hasConservativeRasterization
  /\ max maxNumTextureArrayLayers /\ max maxNumRenderTargetAttachments
  /\ max maxConstantBufferSize /\ max max1DTextureSize /\ max max2DTextureSize
  /\ max max3DTextureSize /\ max maxCubeTextureSize /\ max maxAnisotropy
  /\ max (fun c => fst (fst (maxNumComputeShaderWorkGroups c)))
  /\ max (fun c => snd (fst (maxNumComputeShaderWorkGroups c)))
  /\ max (fun c => snd (maxNumComputeShaderWorkGroups c)).

(** *** The fence *)

(** [UINT64] *)
Definition UINT64_MAX : Z := 18446744073709551615.
Definition to_uint64 (z : Z) : Z := z mod 2 ^ 64.

(** Calls on the command queue, the fence and the fence event. *)
Inductive FenceCall : Type :=
| CallSignal (value : Z)
| CallSetEventOnCompletion (value : Z)
| CallWaitForSingleObjectEx.

Section Fence.

(** The result codes of [cmdQueue_->Signal(fence_, value)] and
    [fence_->SetEventOnCompletion(value, fenceEvent_)], which may depend on
    the number of calls made before. *)
Variable queue_Signal : nat -> Z -> HRESULT.
Variable fence_SetEventOnCompletion : nat -> Z -> HRESULT.

(** [void D3D12RenderSystem::SyncGPU(UINT64& fenceValue)]: how the call
    ends, what [fenceValue] holds afterwards and the calls made so far. *)
Definition SyncGPU (made : list FenceCall) (fenceValue : Z)
  : Outcome unit * Z * list FenceCall :=
  let hr := queue_Signal (List.length made) fenceValue in
  let made := made ++ [CallSignal fenceValue] in
  if FAILED hr
  then (Throw "failed to signal D3D12 fence into command queue", fenceValue, made)
  else
    let hr := fence_SetEventOnCompletion (List.length made) fenceValue in
    let made := made ++ [CallSetEventOnCompletion fenceValue] in
    if FAILED hr
    then (Throw "failed to set 'on completion'-event for D3D12 fence",
          fenceValue, made)
    else
      let made := made ++ [CallWaitForSingleObjectEx] in
      (Val tt, to_uint64 (fenceValue + 1), made).

(** [SyncGPU] called [n] times in a row on the same variable, stopping at
    the first call that throws. *)
Fixpoint SyncGPU_times (n : nat) (made : list FenceCall) (fenceValue : Z)
  : Outcome unit * Z * list FenceCall :=
  match n with
  | O => (Val tt, fenceValue, made)
  | S n' =>
      match SyncGPU made fenceValue with
      | (Val _, fenceValue, made) => SyncGPU_times n' made fenceValue
      | thrown => thrown
      end
  end.

End Fence.

(** The calls of [n] synchronizations in a row that all complete, from the
    fence value [v]: for each value in turn the signal, the registration of
    the completion event, and the wait. *)
Fixpoint sync_calls (v : Z) (n : nat) : list FenceCall :=
  match n with
  | O => []
  | S n' =>
      CallSignal v :: CallSetEventOnCompletion v :: CallWaitForSingleObjectEx
      :: sync_calls (v + 1) n'
  end.

End D3D12.

(* ===================================================================== *)
(** ** Win32GLContext.cpp: WGL context negotiation *)
(* ===================================================================== *)

Module Win32GL.
Import Machine.

(** [HDC], [HGLRC]: handles, 0 is the null handle. *)
Definition HDC : Type := Z.
Definition HGLRC : Type := Z.

(** The members of [RenderContextDescriptor] that the context reads and
    writes; [samples] and [interval] are [unsigned int]. *)
Record MultiSamplingDescriptor : Type := mkMultiSampling {
  enabled : bool;
  samples : Z
}.

Record ProfileOpenGLDescriptor : Type := mkProfileOpenGL {
  extProfile  : bool;
  coreProfile : bool;
  version     : Z
}.

Record VsyncDescriptor : Type := mkVsync {
  vsync_enabled : bool;
  interval      : Z
}.

Record RenderContextDescriptor : Type := mkRenderContextDescriptor {
  multiSampling : MultiSamplingDescriptor;
  profileOpenGL : ProfileOpenGLDescriptor;
  vsync         : VsyncDescriptor;
  colorDepth    : Z
}.

(** [GLPlatformContext] *)
Record GLPlatformContext : Type := mkGLPlatformContext {
  hDC            : HDC;
  hGLRC          : HGLRC;
  pixelFormat    : Z;
  pixelFormatsMS : list Z
}.

(** The WGL extension entry points, null until their loader has run. *)
Record ExtensionProcs : Type := mkExtensionProcs {
  has_wglChoosePixelFormatARB    : bool;
  has_wglCreateContextAttribsARB : bool;
  has_wglSwapIntervalEXT         : bool
}.

Inductive Stream : Type := StdOut | StdErr.

(** Calls into Win32, WGL, GL, the extension loader and the window, in
    program order. *)
Inductive Call : Type :=
| CallGetDC
| CallChoosePixelFormat (hdc : HDC)
| CallSetPixelFormat (hdc : HDC) (format : Z)
| CallwglCreateContext (hdc : HDC)
| CallwglCreateContextAttribsARB (hdc : HDC) (shared : HGLRC) (major minor : Z) (core : bool)
| CallGetLastError
| CallwglMakeCurrent (hdc : HDC) (rc : HGLRC)
| CallwglDeleteContext (rc : HGLRC)
| CallwglShareLists (rc1 rc2 : HGLRC)
| CallwglChoosePixelFormatARB (hdc : HDC) (colorDepth : Z) (sampleBuffers : bool) (samples : Z)
| CallwglSwapIntervalEXT (interval : Z)
| CallglEnableMultisample
| CallglDisableMultisample
| CallLoadPixelFormatProcs
| CallLoadCreateContextProcs
| CallLoadSwapIntervalProcs
| CallWindowRecreate.

(** What [wglChoosePixelFormatARB] hands back: its result, the count it
    stores in [numFormats] and the formats it writes. *)
Record ChosenFormats : Type := mkChosenFormats {
  result     : bool;
  numFormats : nat;
  piFormats  : list Z
}.

(** The platform: the answer of every call, which may depend on the number
    of calls made before it. *)
Record Platform : Type := mkPlatform {
  GetDC                      : nat -> HDC;
  ChoosePixelFormat          : nat -> HDC -> Z;
  SetPixelFormat             : nat -> HDC -> Z -> bool;
  wglCreateContext           : nat -> HDC -> HGLRC;
  wglCreateContextAttribsARB : nat -> HDC -> HGLRC -> Z -> Z -> bool -> HGLRC;
  GetLastError               : nat -> Z;
  wglMakeCurrent             : nat -> HDC -> HGLRC -> bool;
  wglDeleteContext           : nat -> HGLRC -> bool;
  wglShareLists              : nat -> HGLRC -> HGLRC -> bool;
  wglChoosePixelFormatARB    : nat -> HDC -> Z -> bool -> Z -> ChosenFormats;
  wglSwapIntervalEXT         : nat -> Z -> bool;
  LoadPixelFormatProcs       : nat -> bool;
  LoadCreateContextProcs     : nat -> bool;
  LoadSwapIntervalProcs      : nat -> bool
}.

(** The state [Win32GLContext] works on: the caller's descriptor it holds
    by reference ([desc_]), its own members, the process-wide extension
    pointers, what went to the log and the calls made so far. *)
Record State : Type := mkState {
  desc_             : RenderContextDescriptor;
  context_          : GLPlatformContext;
  hasSharedContext_ : bool;
  procs             : ExtensionProcs;
  log               : list (Stream * string);
  calls             : list Call
}.

(** A member function returns, throws, or is stuck: it reads a vector
    element out of range, it calls through a null function pointer, or its
    [while (true)] loop has used up the bound on iterations it was run
    with. *)
Inductive Result (A : Type) : Type :=
| Val (a : A)
| Throw (what : string)
| Stuck (why : string).
Arguments Val {A} a.
Arguments Throw {A} what.
Arguments Stuck {A} why.

Definition M (A : Type) : Type := State -> Result A * State.

Definition ret {A} (a : A) : M A := fun st => (Val a, st).
Definition throw {A} (what : string) : M A := fun st => (Throw what, st).
Definition stuck {A} (why : string) : M A := fun st => (Stuck why, st).
Definition bind {A B} (m : M A) (k : A -> M B) : M B :=
  fun st =>
    match m st with
    | (Val a, st') => k a st'
    | (Throw what, st') => (Throw what, st')
    | (Stuck why, st') => (Stuck why, st')
    end.

Notation "x <- m ;; k" := (bind m (fun x => k))
  (at level 61, m at next level, right associativity).
Notation "m ;;; k" := (bind m (fun _ => k))
  (at level 61, right associativity).

Definition gets {A} (f : State -> A) : M A := fun st => (Val (f st), st).
Definition modify (f : State -> State) : M unit := fun st => (Val tt, f st).

(** Make a call and take the platform's answer to it. *)
Definition native {A} (c : Call) (answer : nat -> A) : M A :=
  fun st =>
    (Val (answer (List.length (calls st))),
     mkState (desc_ st) (context_ st) (hasSharedContext_ st) (procs st)
             (log st) (calls st ++ [c])).

(** [Log::StdOut() << text << std::endl], [Log::StdErr() << ...] *)
Definition Log (s : Stream) (text : string) : M unit :=
  modify (fun st =>
    mkState (desc_ st) (context_ st) (hasSharedContext_ st) (procs st)
            (log st ++ [(s, text)]) (calls st)).

Definition set_desc (f : RenderContextDescriptor -> RenderContextDescriptor) : M unit :=
  modify (fun st =>
    mkState (f (desc_ st)) (context_ st) (hasSharedContext_ st) (procs st)
            (log st) (calls st)).

Definition set_context (f : GLPlatformContext -> GLPlatformContext) : M unit :=
  modify (fun st =>
    mkState (desc_ st) (f (context_ st)) (hasSharedContext_ st) (procs st)
            (log st) (calls st)).

Definition set_hasSharedContext (b : bool) : M unit :=
  modify (fun st =>
    mkState (desc_ st) (context_ st) b (procs st) (log st) (calls st)).

Definition set_procs (f : ExtensionProcs -> ExtensionProcs) : M unit :=
  modify (fun st =>
    mkState (desc_ st) (context_ st) (hasSharedContext_ st) (f (procs st))
            (log st) (calls st)).

(** Field updates of the descriptor and the platform context. *)
Definition with_multiSampling (ms : MultiSamplingDescriptor)
    (d : RenderContextDescriptor) : RenderContextDescriptor :=
  mkRenderContextDescriptor ms (profileOpenGL d) (vsync d) (colorDepth d).

Definition with_samples (n : Z) (d : RenderContextDescriptor) : RenderContextDescriptor :=
  with_multiSampling (mkMultiSampling (enabled (multiSampling d)) n) d.

Definition with_extProfile (b : bool) (d : RenderContextDescriptor)
  : RenderContextDescriptor :=
  mkRenderContextDescriptor (multiSampling d)
    (mkProfileOpenGL b (coreProfile (profileOpenGL d)) (version (profileOpenGL d)))
    (vsync d) (colorDepth d).

Definition with_hDC (h : HDC) (c : GLPlatformContext) : GLPlatformContext :=
  mkGLPlatformContext h (hGLRC c) (pixelFormat c) (pixelFormatsMS c).
Definition with_hGLRC (h : HGLRC) (c : GLPlatformContext) : GLPlatformContext :=
  mkGLPlatformContext (hDC c) h (pixelFormat c) (pixelFormatsMS c).
Definition with_pixelFormat (f : Z) (c : GLPlatformContext) : GLPlatformContext :=
  mkGLPlatformContext (hDC c) (hGLRC c) f (pixelFormatsMS c).
Definition with_pixelFormatsMS (l : list Z) (c : GLPlatformContext) : GLPlatformContext :=
  mkGLPlatformContext (hDC c) (hGLRC c) (pixelFormat c) l.

(** [std::vector<int>::resize(n)]: cut, or fill up with zeros. *)
Definition resize (n : nat) (v : list Z) : list Z :=
  firstn n v ++ repeat 0 (n - List.length v).

(** The first elements of [v] overwritten by what the callee writes; the
    callee is given room for as many elements as [v] has. *)
Definition overwrite (written v : list Z) : list Z :=
  firstn (List.length v) written ++ skipn (List.length written) v.

(** [std::to_string] of an [unsigned int]. *)
Definition to_string (n : Z) : string :=
  DecimalString.NilZero.string_of_uint (N.to_uint (Z.to_N n)).

(** Error codes of WGL_ARB_create_context. *)
Definition ERROR_INVALID_VERSION_ARB : Z := 0x2095.
Definition ERROR_INVALID_PROFILE_ARB : Z := 0x2096.

Section Context.

Variable platform : Platform.

(** [GLPlatformContext::maxNumPixelFormatsMS] and
    [OpenGLVersion::OpenGL_Latest], constants of headers this development
    does not cover. *)
Variable maxNumPixelFormatsMS : nat.
Variable OpenGL_Latest : Z.

(** [static void ErrAntiAliasingNotSupported()] *)
Definition ErrAntiAliasingNotSupported : M unit :=
  Log StdErr "multi-sample anti-aliasing is not supported".

(** [bool Win32GLContext::SetSwapInterval(int interval)] *)
Definition SetSwapInterval (interval : Z) : M bool :=
  loaded <- gets (fun st => has_wglSwapIntervalEXT (procs st)) ;;
  available <-
    (if loaded then ret true
     else
       ok <- native CallLoadSwapIntervalProcs (LoadSwapIntervalProcs platform) ;;
       set_procs (fun p =>
         mkExtensionProcs (has_wglChoosePixelFormatARB p)
           (has_wglCreateContextAttribsARB p) ok) ;;;
       ret ok) ;;
  if available
  then native (CallwglSwapIntervalEXT interval)
         (fun now => wglSwapIntervalEXT platform now interval)
  else ret false.

(** [void Win32GLContext::DeleteGLContext(HGLRC& renderContext)]; the
    result is what the reference holds afterwards. *)
Definition DeleteGLContext (renderContext : HGLRC) : M HGLRC :=
  deleted <- native (CallwglDeleteContext renderContext)
               (fun now => wglDeleteContext platform now renderContext) ;;
  if negb deleted
  then Log StdErr "failed to delete OpenGL render context" ;;; ret renderContext
  else ret 0.

(** [HGLRC Win32GLContext::CreateStdContextProfile()] *)
Definition CreateStdContextProfile : M HGLRC :=
  hdc <- gets (fun st => hDC (context_ st)) ;;
  native (CallwglCreateContext hdc) (fun now => wglCreateContext platform now hdc).

(** [static void ConvertGLVersion(const OpenGLVersion version, GLint& major,
    GLint& minor)] *)
Definition ConvertGLVersion (version : Z) : Z * Z :=
  if version =? OpenGL_Latest
  then (4, 5)
  else
    let ver := version in
    (Z.quot ver 100, Z.quot (Z.rem ver 100) 10).

(** [HGLRC Win32GLContext::CreateExtContextProfile(HGLRC sharedGLRC)].
    [wglCreateContextAttribsARB] is an extension pointer, and the function
    calls through it without a test: while the pointer is null the call
    cannot be made. *)
Definition CreateExtContextProfile (sharedGLRC : HGLRC) : M HGLRC :=
  useCoreProfile <- gets (fun st => coreProfile (profileOpenGL (desc_ st))) ;;
  ver <- gets (fun st => version (profileOpenGL (desc_ st))) ;;
  let (major, minor) := ConvertGLVersion ver in
  hdc <- gets (fun st => hDC (context_ st)) ;;
  loaded <- gets (fun st => has_wglCreateContextAttribsARB (procs st)) ;;
  renderContext <-
    (if loaded
     then
       native (CallwglCreateContextAttribsARB hdc sharedGLRC major minor useCoreProfile)
         (fun now =>
            wglCreateContextAttribsARB platform now hdc sharedGLRC major minor
              useCoreProfile)
     else stuck "wglCreateContextAttribsARB: null function pointer") ;;
  error <- native CallGetLastError (GetLastError platform) ;;
  if error =? ERROR_INVALID_VERSION_ARB
  then Log StdErr "invalid version for OpenGL profile" ;;; ret 0
  else if error =? ERROR_INVALID_PROFILE_ARB
  then Log StdErr "invalid OpenGL profile" ;;; ret 0
  else ret renderContext.

(** [HGLRC Win32GLContext::CreateGLContext(bool useExtProfile,
    Win32GLContext* sharedContext)]; [sharedContext] is the [context_] of
    the other context, or [None] for [nullptr]. *)
Definition CreateGLContext (useExtProfile : bool)
    (sharedContext : option GLPlatformContext) : M HGLRC :=
  renderContext <-
    (match sharedContext with
     | Some shared =>
         if hGLRC shared =? 0
         then
           set_hasSharedContext false ;;;
           if useExtProfile
           then CreateExtContextProfile (hGLRC shared)
           else CreateStdContextProfile
         else
           set_hasSharedContext true ;;;
           ret (hGLRC shared)
     | None =>
         set_hasSharedContext false ;;;
         if useExtProfile
         then CreateExtContextProfile 0
         else CreateStdContextProfile
     end) ;;
  if renderContext =? 0
  then ret 0
  else
    hdc <- gets (fun st => hDC (context_ st)) ;;
    current <- native (CallwglMakeCurrent hdc renderContext)
                 (fun now => wglMakeCurrent platform now hdc renderContext) ;;
    if negb current
    then
      Log StdErr "failed to active OpenGL render context (wglMakeCurrent)" ;;;
      _ <- DeleteGLContext renderContext ;;
      ret 0
    else ret renderContext.

(** The [while (true)] loop of [SelectPixelFormat], run for at most [fuel]
    iterations; [msPixelFormatIndex] and [wasStandardFormatUsed] are its
    local variables. *)
Fixpoint SelectPixelFormat_loop (fuel : nat) (wantAntiAliasFormat : bool)
    (msPixelFormatIndex : nat) (wasStandardFormatUsed : bool) : M unit :=
  match fuel with
  | O => stuck "SelectPixelFormat: iteration bound reached"
  | S fuel' =>
      msPixelFormatIndex <-
        (if wantAntiAliasFormat && (msPixelFormatIndex <? maxNumPixelFormatsMS)%nat
         then
           formats <- gets (fun st => pixelFormatsMS (context_ st)) ;;
           match nth_error formats msPixelFormatIndex with
           | Some f =>
               set_context (with_pixelFormat f) ;;;
               ret (S msPixelFormatIndex)
           | None => stuck "pixelFormatsMS: index out of range"
           end
         else ret msPixelFormatIndex) ;;
      chosen <- gets (fun st => pixelFormat (context_ st)) ;;
      wasStandardFormatUsed <-
        (if chosen =? 0
         then
           hdc <- gets (fun st => hDC (context_ st)) ;;
           f <- native (CallChoosePixelFormat hdc)
                  (fun now => ChoosePixelFormat platform now hdc) ;;
           set_context (with_pixelFormat f) ;;;
           (if wantAntiAliasFormat then ErrAntiAliasingNotSupported else ret tt) ;;;
           ret true
         else ret wasStandardFormatUsed) ;;
      chosen <- gets (fun st => pixelFormat (context_ st)) ;;
      if chosen =? 0
      then throw "failed to select pixel format"
      else
        hdc <- gets (fun st => hDC (context_ st)) ;;
        wasFormatSelected <-
          native (CallSetPixelFormat hdc chosen)
            (fun now => SetPixelFormat platform now hdc chosen) ;;
        if negb wasFormatSelected
        then
          if wasStandardFormatUsed
          then throw "failed to set pixel format"
          else SelectPixelFormat_loop fuel' wantAntiAliasFormat
                 msPixelFormatIndex wasStandardFormatUsed
        else ret tt
  end.

(** [void Win32GLContext::SelectPixelFormat()] *)
Definition SelectPixelFormat (fuel : nat) : M unit :=
  wantAntiAliasFormat <-
    gets (fun st =>
      enabled (multiSampling (desc_ st))
      && negb (match pixelFormatsMS (context_ st) with [] => true | _ => false end)) ;;
  SelectPixelFormat_loop fuel wantAntiAliasFormat 0%nat false.

(** [void Win32GLContext::SetupDeviceContextAndPixelFormat()] *)
Definition SetupDeviceContextAndPixelFormat (fuel : nat) : M unit :=
  hdc <- native CallGetDC (GetDC platform) ;;
  set_context (with_hDC hdc) ;;;
  SelectPixelFormat fuel.

(** How the [while (desc_.multiSampling.samples > 0)] loop of
    [SetupAntiAliasing] is left. *)
Inductive LoopExit : Type :=
| ConditionFalse   (* the loop condition no longer holds *)
| Break            (* [break]: suitable pixel formats were found *)
| ReturnFalse.     (* [return false] from inside the loop *)

(** That loop.  Every iteration that does not leave it lowers
    [desc_.multiSampling.samples] by one, so [fuel] is taken to be the
    sample count on entry; running out of it is reported as [Stuck]. *)
Fixpoint SetupAntiAliasing_loop (fuel : nat) : M LoopExit :=
  s <- gets (fun st => samples (multiSampling (desc_ st))) ;;
  if s >? 0
  then
    match fuel with
    | O => stuck "SetupAntiAliasing: iteration bound reached"
    | S fuel' =>
        hdc <- gets (fun st => hDC (context_ st)) ;;
        depth <- gets (fun st => colorDepth (desc_ st)) ;;
        msEnabled <- gets (fun st => enabled (multiSampling (desc_ st))) ;;
        set_context (fun c =>
          with_pixelFormatsMS (resize maxNumPixelFormatsMS (pixelFormatsMS c)) c) ;;;
        chosen <-
          native (CallwglChoosePixelFormatARB hdc depth msEnabled (to_int s))
            (fun now =>
               wglChoosePixelFormatARB platform now hdc depth msEnabled (to_int s)) ;;
        set_context (fun c =>
          with_pixelFormatsMS
            (resize (numFormats chosen)
               (overwrite (piFormats chosen) (pixelFormatsMS c))) c) ;;;
        if negb (result chosen) || (numFormats chosen <? 1)%nat
        then
          if s <=? 0
          then ret ReturnFalse
          else
            set_desc (with_samples (to_uint (s - 1))) ;;;
            SetupAntiAliasing_loop fuel'
        else ret Break
    end
  else ret ConditionFalse.

(** [bool Win32GLContext::SetupAntiAliasing()] *)
Definition SetupAntiAliasing : M bool :=
  loaded <- gets (fun st => has_wglChoosePixelFormatARB (procs st)) ;;
  available <-
    (if loaded then ret true
     else
       ok <- native CallLoadPixelFormatProcs (LoadPixelFormatProcs platform) ;;
       set_procs (fun p =>
         mkExtensionProcs ok (has_wglCreateContextAttribsARB p)
           (has_wglSwapIntervalEXT p)) ;;;
       ret ok) ;;
  if negb available
  then ret false
  else
    queriedMultiSamples <- gets (fun st => samples (multiSampling (desc_ st))) ;;
    exit <- SetupAntiAliasing_loop (Z.to_nat queriedMultiSamples) ;;
    match exit with
    | ReturnFalse => ret false
    | ConditionFalse | Break =>
        s <- gets (fun st => samples (multiSampling (desc_ st))) ;;
        (if s <? queriedMultiSamples
         then Log StdOut
                ("reduced multi-samples for anti-aliasing from "
                 ++ to_string queriedMultiSamples ++ " to " ++ to_string s)
         else ret tt) ;;;
        msEnabled <- gets (fun st => enabled (multiSampling (desc_ st))) ;;
        (if msEnabled
         then native CallglEnableMultisample (fun _ => tt)
         else native CallglDisableMultisample (fun _ => tt)) ;;;
        ret true
    end.

(** [void Win32GLContext::CopyPixelFormat(Win32GLContext& sourceContext)] *)
Definition CopyPixelFormat (sourceContext : GLPlatformContext) : M unit :=
  set_context (fun c =>
    with_pixelFormatsMS (pixelFormatsMS sourceContext)
      (with_pixelFormat (pixelFormat sourceContext) c)).

(** [void Win32GLContext::RecreateWindow()] *)
Definition RecreateWindow (fuel : nat) : M unit :=
  native CallWindowRecreate (fun _ => tt) ;;;
  SetupDeviceContextAndPixelFormat fuel.

(** [Win32GLContext::CreateContext], up to the activation of the final
    render context: pixel format, standard context, anti-aliasing, extended
    profile. *)
Definition CreateContext_negotiate (fuel : nat)
    (sharedContext : option GLPlatformContext) : M unit :=
  msEnabled <- gets (fun st => enabled (multiSampling (desc_ st))) ;;
  (match sharedContext with
   | Some shared => if msEnabled then CopyPixelFormat shared else ret tt
   | None => ret tt
   end) ;;;
  SetupDeviceContextAndPixelFormat fuel ;;;
  stdRenderContext <- CreateGLContext false sharedContext ;;
  if stdRenderContext =? 0
  then throw "failed to create standard OpenGL render context"
  else
    msEnabled <- gets (fun st => enabled (multiSampling (desc_ st))) ;;
    hasShared <- gets hasSharedContext_ ;;
    stdRenderContext <-
      (if msEnabled && negb hasShared
       then
         antiAliased <- SetupAntiAliasing ;;
         if antiAliased
         then
           _ <- DeleteGLContext stdRenderContext ;;
           RecreateWindow fuel ;;;
           stdRenderContext <- CreateGLContext false sharedContext ;;
           (if stdRenderContext =? 0
            then Log StdErr "failed to create multi-sample anti-aliasing"
            else ret tt) ;;;
           ret stdRenderContext
         else
           ErrAntiAliasingNotSupported ;;;
           set_desc (with_multiSampling (mkMultiSampling false 0)) ;;;
           ret stdRenderContext
       else ret stdRenderContext) ;;
    set_context (with_hGLRC stdRenderContext) ;;;
    ext <- gets (fun st => extProfile (profileOpenGL (desc_ st))) ;;
    hasShared <- gets hasSharedContext_ ;;
    (if ext && negb hasShared
     then
       loaded <- gets (fun st => has_wglCreateContextAttribsARB (procs st)) ;;
       available <-
         (if loaded then ret true
          else
            ok <- native CallLoadCreateContextProcs (LoadCreateContextProcs platform) ;;
            set_procs (fun p =>
              mkExtensionProcs (has_wglChoosePixelFormatARB p) ok
                (has_wglSwapIntervalEXT p)) ;;;
            ret ok) ;;
       if available
       then
         extRenderContext <- CreateGLContext true sharedContext ;;
         if negb (extRenderContext =? 0)
         then
           set_context (with_hGLRC extRenderContext) ;;;
           _ <- DeleteGLContext stdRenderContext ;;
           ret tt
         else
           Log StdErr "failed to create extended OpenGL profile" ;;;
           set_desc (with_extProfile false)
       else
         Log StdErr "failed to select OpenGL profile" ;;;
         set_desc (with_extProfile false)
     else ret tt) ;;;
    rc <- gets (fun st => hGLRC (context_ st)) ;;
    if rc =? 0
    then throw "failed to create OpenGL render context"
    else
      hdc <- gets (fun st => hDC (context_ st)) ;;
      current <- native (CallwglMakeCurrent hdc rc)
                   (fun now => wglMakeCurrent platform now hdc rc) ;;
      if negb current
      then throw "failed to activate OpenGL render context"
      else ret tt.

(** The condition under which [CreateContext] shares resources:
    [sharedContext && !hasSharedContext_ && !desc_.profileOpenGL.extProfile]. *)
Definition sharing_wanted (sharedContext : option GLPlatformContext) (st : State)
  : bool :=
  match sharedContext with Some _ => true | None => false end
  && negb (hasSharedContext_ st)
  && negb (extProfile (profileOpenGL (desc_ st))).

(** [Win32GLContext::CreateContext], the step "Share resources with previous
    render context". *)
Definition CreateContext_share (sharedContext : option GLPlatformContext) : M unit :=
  wanted <- gets (sharing_wanted sharedContext) ;;
  match sharedContext with
  | Some shared =>
      if wanted
      then
        rc <- gets (fun st => hGLRC (context_ st)) ;;
        shared_ok <- native (CallwglShareLists (hGLRC shared) rc)
                       (fun now => wglShareLists platform now (hGLRC shared) rc) ;;
        if negb shared_ok
        then throw "failed to share resources from OpenGL render context"
        else ret tt
      else ret tt
  | None => ret tt
  end.

(** [Win32GLContext::CreateContext], the step "Setup v-sync interval". *)
Definition CreateContext_vsync : M unit :=
  vs <- gets (fun st => vsync (desc_ st)) ;;
  _ <- SetSwapInterval (if vsync_enabled vs then to_int (interval vs) else 0) ;;
  ret tt.

(** [void Win32GLContext::CreateContext(Win32GLContext* sharedContext)] *)
Definition CreateContext (fuel : nat) (sharedContext : option GLPlatformContext)
  : M unit :=
  CreateContext_negotiate fuel sharedContext ;;;
  CreateContext_share sharedContext ;;;
  CreateContext_vsync.

End Context.

(** The state a [Win32GLContext] is constructed in, for a descriptor and
    the extension pointers of the process. *)
Definition Win32GLContext_initial (desc : RenderContextDescriptor)
    (p : ExtensionProcs) : State :=
  mkState desc (mkGLPlatformContext 0 0 0 []) false p [] [].

(** How often [wglShareLists] occurs among calls. *)
Definition is_wglShareLists (c : Call) : bool :=
  match c with CallwglShareLists _ _ => true | _ => false end.

Definition share_calls (cs : list Call) : nat :=
  List.length (filter is_wglShareLists cs).

(** A member function that never calls [wglShareLists], however it ends. *)
Definition never_shares {A} (m : M A) : Prop :=
  forall st, share_calls (calls (snd (m st))) = share_calls (calls st).

(** The state after one more call. *)
Definition after_call (c : Call) (st : State) : State :=
  mkState (desc_ st) (context_ st) (hasSharedContext_ st) (procs st)
    (log st) (calls st ++ [c]).

(** A platform on which every call succeeds, render contexts get fresh
    handles, and [wglChoosePixelFormatARB] finds one format for the sample
    counts in [supported] and none for the others. *)
Definition plain_platform (supported : Z -> bool) : Platform :=
  mkPlatform
    (fun _ => 1)
    (fun _ _ => 7)
    (fun _ _ _ => true)
    (fun now _ => 100 + Z.of_nat now)
    (fun now _ _ _ _ _ => 200 + Z.of_nat now)
    (fun _ => 0)
    (fun _ _ _ => true)
    (fun _ _ => true)
    (fun _ _ _ => true)
    (fun _ _ _ _ s =>
       if supported s
       then mkChosenFormats true 1 [40 + s]
       else mkChosenFormats false 0 [])
    (fun _ _ => true)
    (fun _ => true) (fun _ => true) (fun _ => true).

(** A context about to be created for a descriptor that asks for 8-sample
    anti-aliasing and no extended profile, with no extension loaded yet. *)
Definition eight_samples : State :=
  Win32GLContext_initial
    (mkRenderContextDescriptor (mkMultiSampling true 8)
       (mkProfileOpenGL false false 0) (mkVsync false 0) 32)
    (mkExtensionProcs false false false).

(** A member function [m], started in a state that satisfies [P], ends in a
    value and a state that satisfy [Q] whenever it returns. *)
Definition ensures {A} (P : State -> Prop) (m : M A) (Q : A -> State -> Prop)
  : Prop :=
  forall st, P st -> forall a st', m st = (Val a, st') -> Q a st'.

(** A member function that never makes a call of the kind [p], however it
    ends. *)
Definition never_calls (p : Call -> bool) {A} (m : M A) : Prop :=
  forall st, filter p (calls (snd (m st))) = filter p (calls st).

(** The calls that create a render context. *)
Definition is_context_creation (c : Call) : bool :=
  match c with
  | CallwglCreateContext _ => true
  | CallwglCreateContextAttribsARB _ _ _ _ _ => true
  | _ => false
  end.

(** The calls that set the pixel format of the window. *)
Definition is_SetPixelFormat (c : Call) : bool :=
  match c with CallSetPixelFormat _ _ => true | _ => false end.

(** The render context of a state is live and has just been made current:
    the last call is the [wglMakeCurrent] of it, and the platform answered
    TRUE. *)
Definition current_context (platform : Platform) (st : State) : Prop :=
  hGLRC (context_ st) <> 0
  /\ exists before,
       calls st
       = before ++ [CallwglMakeCurrent (hDC (context_ st)) (hGLRC (context_ st))]
       /\ wglMakeCurrent platform (List.length before)
            (hDC (context_ st)) (hGLRC (context_ st)) = true.

(** The pixel format of a state is not zero and has just been set: the
    last call is the [SetPixelFormat] of it on the device context, and the
    platform answered TRUE. *)
Definition selected_format (platform : Platform) (st : State) : Prop :=
  pixelFormat (context_ st) <> 0
  /\ exists before,
       calls st
       = before
         ++ [CallSetPixelFormat (hDC (context_ st)) (pixelFormat (context_ st))]
       /\ SetPixelFormat platform (List.length before)
            (hDC (context_ st)) (pixelFormat (context_ st)) = true.

(** The calls [CreateContext] makes once the render context is current:
    sharing and the swap interval. *)
Definition is_after_activation (c : Call) : bool :=
  match c with
  | CallwglShareLists _ _ => true
  | CallLoadSwapIntervalProcs => true
  | CallwglSwapIntervalEXT _ => true
  | _ => false
  end.

(** A context about to be created for a descriptor that asks for OpenGL 3.3
    core, without anti-aliasing, with the swap interval 1. *)
Definition core_33 : State :=
  Win32GLContext_initial
    (mkRenderContextDescriptor (mkMultiSampling false 0)
       (mkProfileOpenGL true true 330) (mkVsync true 1) 32)
    (mkExtensionProcs false false false).

(** A platform like [plain_platform] with every sample count supported,
    on which the window accepts the pixel formats in [accepts] only. *)
Definition picky_platform (accepts : Z -> bool) : Platform :=
  mkPlatform
    (fun _ => 1)
    (fun _ _ => 7)
    (fun _ _ f => accepts f)
    (fun now _ => 100 + Z.of_nat now)
    (fun now _ _ _ _ _ => 200 + Z.of_nat now)
    (fun _ => 0)
    (fun _ _ _ => true)
    (fun _ _ => true)
    (fun _ _ _ => true)
    (fun _ _ _ _ s => mkChosenFormats true 1 [40 + s])
    (fun _ _ => true)
    (fun _ => true) (fun _ => true) (fun _ => true).

(** A context for 4-sample anti-aliasing on the device context 1, with the
    anti-aliasing formats [formats] chosen and no pixel format set yet. *)
Definition with_formats (formats : list Z) : State :=
  mkState
    (mkRenderContextDescriptor (mkMultiSampling true 4)
       (mkProfileOpenGL false false 0) (mkVsync false 0) 32)
    (mkGLPlatformContext 1 0 0 formats)
    false (mkExtensionProcs true false false) [] [].

(** A member function that throws no exception but those in [allowed]. *)
Definition throws_only (allowed : list string) {A} (m : M A) : Prop :=
  forall st what st', m st = (Throw what, st') -> In what allowed.

(** The exceptions of [CreateContext]. *)
Definition CreateContext_errors : list string :=
  [ "failed to select pixel format";
    "failed to set pixel format";
    "failed to create standard OpenGL render context";
    "failed to create OpenGL render context";
    "failed to activate OpenGL render context";
    "failed to share resources from OpenGL render context" ]%string.

(** The same context once the entry point [wglCreateContextAttribsARB] has
    been loaded. *)
Definition core_33_loaded : State :=
  Win32GLContext_initial
    (mkRenderContextDescriptor (mkMultiSampling false 0)
       (mkProfileOpenGL true true 330) (mkVsync true 1) 32)
    (mkExtensionProcs false true false).

(** The platform context of a context that is alive: render context 55. *)
Definition live_context : GLPlatformContext :=
  mkGLPlatformContext 1 55 7 [].

End Win32GL.

(* ===================================================================== *)
(** ** Win32Module.cpp: names of the renderer modules *)
(* ===================================================================== *)

Module Win32Module.

Local Open Scope string_scope.

(** [std::string Module::GetModuleFilename(std::string moduleName)];
    [LLGL_DEBUG] says whether the preprocessor symbol of that name is
    defined. *)
Definition GetModuleFilename (LLGL_DEBUG : bool) (moduleName : string) : string :=
  let moduleName := if LLGL_DEBUG then moduleName ++ "D" else moduleName in
  "LLGL_" ++ moduleName ++ ".dll".

End Win32Module.

(* ===================================================================== *)
(** * Properties *)
(* ===================================================================== *)

Module MachineFacts.
Import Machine.

Lemma to_uint_range z : 0 <= to_uint z <= UINT_MAX.
Proof.
  unfold to_uint, UINT_MAX.
  pose proof (Z.mod_pos_bound z (2 ^ 32) ltac:(lia)). lia.
Qed.

Lemma to_uint_small z : 0 <= z <= UINT_MAX -> to_uint z = z.
Proof. unfold to_uint, UINT_MAX. intros H. apply Z.mod_small. lia. Qed.

Lemma to_int_range z : INT_MIN <= to_int z <= INT_MAX.
Proof.
  unfold to_int, INT_MIN, INT_MAX.
  pose proof (Z.mod_pos_bound (z + 2 ^ 31) (2 ^ 32) ltac:(lia)). lia.
Qed.

Lemma to_int_small z : INT_MIN <= z <= INT_MAX -> to_int z = z.
Proof.
  unfold to_int, INT_MIN, INT_MAX. intros H.
  rewrite Z.mod_small by lia. lia.
Qed.

Lemma to_uint_idem z : to_uint (to_uint z) = to_uint z.
Proof. apply to_uint_small, to_uint_range. Qed.

(** Converting an [unsigned] value to [int] only depends on the value
    modulo 2^32. *)
Lemma to_int_to_uint z : to_int (to_uint z) = to_int z.
Proof.
  unfold to_int, to_uint.
  rewrite Z.add_mod_idemp_l by lia. reflexivity.
Qed.

(** The same for the operands of an unsigned multiplication and sum. *)
Lemma to_uint_mul_add a k b : to_uint (to_uint a * k + b) = to_uint (a * k + b).
Proof.
  unfold to_uint.
  rewrite <- Z.add_mod_idemp_l by lia.
  rewrite Z.mul_mod_idemp_l by lia.
  rewrite Z.add_mod_idemp_l by lia. reflexivity.
Qed.

Lemma to_int_idem z : to_int (to_int z) = to_int z.
Proof. apply to_int_small, to_int_range. Qed.

(** Converting an [int] to [unsigned] only depends on the value modulo
    2^32. *)
Lemma to_uint_to_int z : to_uint (to_int z) = to_uint z.
Proof.
  unfold to_int, to_uint.
  rewrite Zminus_mod_idemp_l.
  replace (z + 2 ^ 31 - 2 ^ 31) with z by lia. reflexivity.
Qed.

(** Equal bit patterns stay equal under addition and multiplication, and
    give the same [int]. *)
Lemma to_uint_add_congr a a' b b' :
  to_uint a = to_uint a' -> to_uint b = to_uint b' ->
  to_uint (a + b) = to_uint (a' + b').
Proof.
  unfold to_uint. intros Ha Hb.
  rewrite (Z.add_mod a b), (Z.add_mod a' b'), Ha, Hb by lia. reflexivity.
Qed.

Lemma to_uint_mul_congr a a' k :
  to_uint a = to_uint a' -> to_uint (a * k) = to_uint (a' * k).
Proof.
  unfold to_uint. intros Ha.
  rewrite (Z.mul_mod a k), (Z.mul_mod a' k), Ha by lia. reflexivity.
Qed.

Lemma to_int_congr a b : to_uint a = to_uint b -> to_int a = to_int b.
Proof. intros H. rewrite <- (to_int_to_uint a), <- (to_int_to_uint b), H. reflexivity. Qed.

Lemma int_add_exact a b :
  INT_MIN <= a + b <= INT_MAX -> int_add a b = a + b.
Proof. apply to_int_small. Qed.

(** Testing a single-bit mask is testing that bit, for negative (two's
    complement) flag words as well. *)
Lemma has_flag_bit flags k :
  0 <= k -> has_flag flags (Z.shiftl 1 k) = Z.testbit flags k.
Proof.
  intros Hk. unfold has_flag.
  destruct (Z.testbit flags k) eqn:Hb.
  - destruct (Z.eqb_spec (Z.land flags (Z.shiftl 1 k)) 0) as [E|E]; [|reflexivity].
    exfalso.
    assert (Ht : Z.testbit (Z.land flags (Z.shiftl 1 k)) k = true).
    { rewrite Z.land_spec, Hb, Z.shiftl_spec by lia.
      rewrite Z.sub_diag. reflexivity. }
    rewrite E, Z.bits_0 in Ht. discriminate.
  - destruct (Z.eqb_spec (Z.land flags (Z.shiftl 1 k)) 0) as [E|E]; [reflexivity|].
    exfalso. apply E. apply Z.bits_inj'. intros n Hn.
    rewrite Z.land_spec, Z.bits_0.
    destruct (Z.eq_dec n k) as [->|Hne].
    + rewrite Hb. reflexivity.
    + rewrite Z.shiftl_spec by lia.
      destruct (Z.ltb_spec n k).
      * rewrite (Z.testbit_neg_r 1 (n - k)) by lia. apply andb_false_r.
      * replace (Z.testbit 1 (n - k)) with false; [apply andb_false_r|].
        symmetry. change 1 with (2 ^ 0).
        apply Z.pow2_bits_false. lia.
Qed.

(** The bits of a single-bit mask. *)
Lemma testbit_shiftl_1 k n :
  0 <= k -> 0 <= n -> Z.testbit (Z.shiftl 1 k) n = (n =? k).
Proof.
  intros Hk Hn. rewrite Z.shiftl_1_l.
  destruct (Z.eqb_spec n k) as [->|Hne].
  - apply Z.pow2_bits_true; lia.
  - apply Z.pow2_bits_false; lia.
Qed.

End MachineFacts.

(* ===================================================================== *)
(** ** Flag translation (D3D11ResourceFlags.cpp) *)
(* ===================================================================== *)

Module ResourceFlagsFacts.
Import Machine D3D11 D3D11ResourceFlags MachineFacts.

Section Flags.

Variable bindBit : BindFlag -> nat.
Variable cpuAccessBit : CPUAccessFlag -> nat.
Variable BufferDescriptor : Type.
Variable buffer_cpuAccessFlags : BufferDescriptor -> Z.
Variable TextureType : Type.
Variable TextureDescriptor : Type.
Variable texture_type : TextureDescriptor -> TextureType.
Variable texture_bindFlags : TextureDescriptor -> Z.
Variable texture_cpuAccessFlags : TextureDescriptor -> Z.
Variable IsMipMappedTexture : TextureDescriptor -> bool.
Variable IsCubeTexture : TextureType -> bool.

Lemma has_BindFlags flags b :
  has_flag flags (BindFlags bindBit b) = bind_flag_set bindBit flags b.
Proof. unfold BindFlags, bind_flag_set. apply has_flag_bit. lia. Qed.

Lemma has_CPUAccessFlags flags f :
  has_flag flags (CPUAccessFlags cpuAccessBit f)
  = cpu_access_requested cpuAccessBit flags f.
Proof. unfold CPUAccessFlags, cpu_access_requested. apply has_flag_bit. lia. Qed.

(** The bits of a word with exactly two neutral flags set. *)
Lemma bind_flag_set_pair a c b :
  bind_flag_set bindBit (Z.lor (BindFlags bindBit a) (BindFlags bindBit c)) b
  = (bindBit b =? bindBit a)%nat || (bindBit b =? bindBit c)%nat.
Proof.
  unfold bind_flag_set, BindFlags.
  rewrite Z.lor_spec, !testbit_shiftl_1 by lia.
  f_equal.
  - destruct (Nat.eqb_spec (bindBit b) (bindBit a)) as [E|E];
      [rewrite E; apply Z.eqb_refl | apply Z.eqb_neq; lia].
  - destruct (Nat.eqb_spec (bindBit b) (bindBit c)) as [E|E];
      [rewrite E; apply Z.eqb_refl | apply Z.eqb_neq; lia].
Qed.

(** The translation is the union of the native bits of the neutral bits
    that are set. *)
Lemma DXGetBufferBindFlags_union flags :
  DXGetBufferBindFlags bindBit flags
  = union (map snd (filter (fun e => bind_flag_set bindBit flags (fst e))
                           buffer_bind_table)).
Proof.
  unfold DXGetBufferBindFlags. rewrite !has_BindFlags.
  unfold buffer_bind_table, union. cbn [filter fst].
  destruct (bind_flag_set bindBit flags VertexBuffer),
           (bind_flag_set bindBit flags IndexBuffer),
           (bind_flag_set bindBit flags ConstantBuffer),
           (bind_flag_set bindBit flags StreamOutputBuffer),
           (bind_flag_set bindBit flags SampleBuffer),
           (bind_flag_set bindBit flags RWStorageBuffer);
    reflexivity.
Qed.

(** C5.  For every neutral bind-flag word, [DXGetBufferBindFlags] yields the
    union of the native bits of the six buffer flags that are set in it:
    the native bit of a buffer flag is in the result exactly when the flag
    is set, every bit of the result is the native bit of a flag that is
    set, the six native bits are single bits and pairwise different; and
    when the neutral enumerators are pairwise different bits, the word
    [VertexBuffer | ConstantBuffer] yields
    [D3D11_BIND_VERTEX_BUFFER | D3D11_BIND_CONSTANT_BUFFER] and nothing
    else. *)
Theorem DXGetBufferBindFlags_exact
    (bindBit_inj : forall a b, bindBit a = bindBit b -> a = b) :
  (forall flags b native,
     In (b, native) buffer_bind_table ->
     has_flag (DXGetBufferBindFlags bindBit flags) native
     = bind_flag_set bindBit flags b)
  /\ (forall flags n,
        Z.testbit (DXGetBufferBindFlags bindBit flags) n = true ->
        exists b native,
          In (b, native) buffer_bind_table
          /\ bind_flag_set bindBit flags b = true
          /\ native = Z.shiftl 1 n)
  /\ (forall b native, In (b, native) buffer_bind_table ->
        exists k, 0 <= k /\ native = Z.shiftl 1 k)
  /\ (forall b b' native,
        In (b, native) buffer_bind_table ->
        In (b', native) buffer_bind_table -> b = b')
  /\ DXGetBufferBindFlags bindBit
       (Z.lor (BindFlags bindBit VertexBuffer) (BindFlags bindBit ConstantBuffer))
     = Z.lor D3D11_BIND_VERTEX_BUFFER D3D11_BIND_CONSTANT_BUFFER.
Proof.
  split; [|split; [|split; [|split]]].
  - intros flags b native Hin.
    rewrite DXGetBufferBindFlags_union.
    unfold buffer_bind_table, union in *. cbn [filter fst].
    cbn [In] in Hin.
    destruct Hin as [E|[E|[E|[E|[E|[E|[]]]]]]]; inversion E; subst; clear E;
      destruct (bind_flag_set bindBit flags VertexBuffer),
               (bind_flag_set bindBit flags IndexBuffer),
               (bind_flag_set bindBit flags ConstantBuffer),
               (bind_flag_set bindBit flags StreamOutputBuffer),
               (bind_flag_set bindBit flags SampleBuffer),
               (bind_flag_set bindBit flags RWStorageBuffer);
      reflexivity.
  - intros flags n Hbit.
    assert (Hn : 0 <= n).
    { destruct (Z.ltb_spec n 0); [|assumption].
      rewrite Z.testbit_neg_r in Hbit by assumption. discriminate. }
    rewrite DXGetBufferBindFlags_union in Hbit.
    unfold buffer_bind_table, union in Hbit. cbn [filter fst] in Hbit.
    assert (Hcases :
      forall (P : Prop),
        (forall b native, In (b, native) buffer_bind_table ->
           bind_flag_set bindBit flags b = true ->
           Z.testbit native n = true -> P) -> P).
    { intros P HP.
      destruct (bind_flag_set bindBit flags VertexBuffer) eqn:E1;
      destruct (bind_flag_set bindBit flags IndexBuffer) eqn:E2;
      destruct (bind_flag_set bindBit flags ConstantBuffer) eqn:E3;
      destruct (bind_flag_set bindBit flags StreamOutputBuffer) eqn:E4;
      destruct (bind_flag_set bindBit flags SampleBuffer) eqn:E5;
      destruct (bind_flag_set bindBit flags RWStorageBuffer) eqn:E6;
      cbn [map snd fold_right] in Hbit;
      rewrite ?Z.lor_spec, ?Z.bits_0 in Hbit;
      repeat match type of Hbit with
             | (_ || _)%bool = true => apply orb_true_iff in Hbit; destruct Hbit as [Hbit|Hbit]
             | false = true => discriminate Hbit
             end;
      match type of Hbit with
      | Z.testbit ?c n = true =>
          match goal with
          | Hb : bind_flag_set bindBit flags ?b = true |- _ =>
              apply (HP b c); [unfold buffer_bind_table; cbn [In]; tauto | exact Hb | exact Hbit]
          end
      end. }
    apply Hcases. intros b native Hin Hset Hnat.
    exists b, native. split; [exact Hin|]. split; [exact Hset|].
    unfold buffer_bind_table in Hin. cbn [In] in Hin.
    assert (Hpow : exists k, 0 <= k /\ native = Z.shiftl 1 k).
    { destruct Hin as [E|[E|[E|[E|[E|[E|[]]]]]]]; inversion E; subst;
        [exists 0 | exists 1 | exists 2 | exists 4 | exists 3 | exists 7];
        split; try lia; reflexivity. }
    destruct Hpow as (k & Hk & ->).
    rewrite testbit_shiftl_1 in Hnat by assumption.
    apply Z.eqb_eq in Hnat. subst. reflexivity.
  - intros b native Hin. unfold buffer_bind_table in Hin. cbn [In] in Hin.
    destruct Hin as [E|[E|[E|[E|[E|[E|[]]]]]]]; inversion E; subst;
      [exists 0 | exists 1 | exists 2 | exists 4 | exists 3 | exists 7];
      split; try lia; reflexivity.
  - intros b b' native Hin Hin'. unfold buffer_bind_table in *. cbn [In] in *.
    destruct Hin as [E|[E|[E|[E|[E|[E|[]]]]]]]; inversion E; subst; clear E;
      destruct Hin' as [E|[E|[E|[E|[E|[E|[]]]]]]]; inversion E; subst;
      try reflexivity; discriminate.
  - rewrite DXGetBufferBindFlags_union.
    unfold buffer_bind_table. cbn [filter fst].
    rewrite !bind_flag_set_pair, !Nat.eqb_refl.
    assert (Hne : forall a b, a <> b -> (bindBit a =? bindBit b)%nat = false).
    { intros a b Hab. apply Nat.eqb_neq. intros E. apply Hab, bindBit_inj, E. }
    rewrite !Hne by discriminate.
    reflexivity.
Qed.

(** C4.  For every buffer descriptor and every texture descriptor, the usage
    selection returns the staging mode when CPU-read access is requested,
    whether or not CPU-write access is requested too; otherwise the dynamic
    mode when CPU-write access is requested; otherwise the default mode. *)
Theorem usage_read_takes_precedence :
  (forall desc : BufferDescriptor,
     DXGetCPUAccessBufferUsage cpuAccessBit BufferDescriptor buffer_cpuAccessFlags desc
     = if cpu_access_requested cpuAccessBit (buffer_cpuAccessFlags desc) Read
       then D3D11_USAGE_STAGING
       else if cpu_access_requested cpuAccessBit (buffer_cpuAccessFlags desc) Write
       then D3D11_USAGE_DYNAMIC
       else D3D11_USAGE_DEFAULT)
  /\ (forall desc : TextureDescriptor,
        DXGetTextureUsage cpuAccessBit TextureDescriptor texture_cpuAccessFlags desc
        = if cpu_access_requested cpuAccessBit (texture_cpuAccessFlags desc) Read
          then D3D11_USAGE_STAGING
          else if cpu_access_requested cpuAccessBit (texture_cpuAccessFlags desc) Write
          then D3D11_USAGE_DYNAMIC
          else D3D11_USAGE_DEFAULT).
Proof.
  split; intros desc.
  - unfold DXGetCPUAccessBufferUsage. rewrite !has_CPUAccessFlags. reflexivity.
  - unfold DXGetTextureUsage. rewrite !has_CPUAccessFlags. reflexivity.
Qed.

(** C6.  For every texture descriptor, the native mip-generation misc flag
    is in the result of [DXGetTextureMiscFlags] exactly when the texture is
    mip-mapped and its bind flags do not include the depth-stencil
    attachment flag; the function is total, so a mip-mapped depth-stencil
    texture gets flags without that bit and no error. *)
Theorem generate_mips_iff_mipmapped_and_not_depth_stencil (desc : TextureDescriptor) :
  has_flag
    (DXGetTextureMiscFlags bindBit TextureType TextureDescriptor texture_type
       texture_bindFlags IsMipMappedTexture IsCubeTexture desc)
    D3D11_RESOURCE_MISC_GENERATE_MIPS
  = IsMipMappedTexture desc
    && negb (bind_flag_set bindBit (texture_bindFlags desc) DepthStencilAttachment).
Proof.
  unfold DXGetTextureMiscFlags. rewrite has_BindFlags.
  destruct (IsMipMappedTexture desc),
           (bind_flag_set bindBit (texture_bindFlags desc) DepthStencilAttachment),
           (IsCubeTexture (texture_type desc));
    reflexivity.
Qed.

End Flags.

Lemma sample_bindBit_inj a b : sample_bindBit a = sample_bindBit b -> a = b.
Proof. destruct a, b; cbn; intros E; try reflexivity; discriminate E. Qed.

Lemma DXGetBufferBindFlags_exact_witness :
  DXGetBufferBindFlags sample_bindBit 5 = 5.
Proof.
  exact (proj2 (proj2 (proj2 (proj2
    (DXGetBufferBindFlags_exact sample_bindBit sample_bindBit_inj))))).
Defined.

End ResourceFlagsFacts.

(* ===================================================================== *)
(** ** Texture creation, query and update (D3D11RenderSystem_Textures.cpp) *)
(* ===================================================================== *)

Module TexturesFacts.
Import Machine Cxx D3D11 D3D11Textures MachineFacts.

#[local] Arguments to_uint : simpl never.
#[local] Arguments to_int : simpl never.

Section RenderSystem.

Variable Map : TextureFormat -> DXGI_FORMAT.
Variable Unmap : DXGI_FORMAT -> TextureFormat.
Variable device_CreateTexture1D : D3D11_TEXTURE1D_DESC -> bool.
Variable device_CreateTexture2D : D3D11_TEXTURE2D_DESC -> bool.
Variable device_CreateTexture3D : D3D11_TEXTURE3D_DESC -> bool.

#[local] Abbreviation CreateTexture' :=
  (CreateTexture Map device_CreateTexture1D device_CreateTexture2D
     device_CreateTexture3D).

(** The first native call of a builder is the creation call, whatever the
    device answers and whether or not image data is uploaded. *)
Lemma BuildGenericTexture1D_first_call tex d img cpu misc :
  exists texDesc rest,
    snd (BuildGenericTexture1D Map device_CreateTexture1D tex d img cpu misc)
    = CallCreateTexture1D texDesc :: rest
    /\ MipLevels1D texDesc = 0
    /\ ArraySize1D texDesc = texture1DDesc_layers d.
Proof.
  unfold BuildGenericTexture1D, CreateTexture1D, UpdateSubresource.
  destruct (device_CreateTexture1D _); destruct img; cbn;
    eexists; eexists; (split; [reflexivity | split; reflexivity]).
Qed.

Lemma BuildGenericTexture2D_first_call tex d img cpu misc :
  exists texDesc rest,
    snd (BuildGenericTexture2D Map device_CreateTexture2D tex d img cpu misc)
    = CallCreateTexture2D texDesc :: rest
    /\ MipLevels2D texDesc = 0
    /\ ArraySize2D texDesc = texture2DDesc_layers d.
Proof.
  unfold BuildGenericTexture2D, CreateTexture2D, UpdateSubresource.
  destruct (device_CreateTexture2D _); destruct img; cbn;
    eexists; eexists; (split; [reflexivity | split; reflexivity]).
Qed.

Lemma BuildGenericTexture3D_first_call tex d img cpu misc :
  exists texDesc rest,
    snd (BuildGenericTexture3D Map device_CreateTexture3D tex d img cpu misc)
    = CallCreateTexture3D texDesc :: rest
    /\ MipLevels3D texDesc = 0.
Proof.
  unfold BuildGenericTexture3D, CreateTexture3D, UpdateSubresource.
  destruct (device_CreateTexture3D _); destruct img; cbn;
    eexists; eexists; (split; reflexivity).
Qed.

(** The layer switch keeps the texture type. *)
Lemma CreateTexture_layers_type d : type (CreateTexture_layers d) = type d.
Proof. unfold CreateTexture_layers. destruct (type d) eqn:E; cbn; congruence. Qed.

(** The layer count after the layer switch, read through the view the
    builder of each kind uses. *)
Lemma CreateTexture_layers_1D d :
  texture1DDesc_layers (CreateTexture_layers d)
  = match type d with
    | Texture1D => 1
    | _ => texture1DDesc_layers d
    end.
Proof.
  unfold CreateTexture_layers, texture1DDesc_layers.
  destruct (type d); cbn; rewrite ?to_uint_idem; try reflexivity.
Qed.

Lemma CreateTexture_layers_2D d :
  texture2DDesc_layers (CreateTexture_layers d)
  = match type d with
    | Texture2D => 1
    | TextureCube => 6
    | TextureCubeArray => (6 * textureCubeDesc_layers d) mod 2 ^ 32
    | _ => texture2DDesc_layers d
    end.
Proof.
  unfold CreateTexture_layers, texture2DDesc_layers, textureCubeDesc_layers.
  destruct (type d);
    unfold set_texture1DDesc_layers, set_texture2DDesc_layers,
           set_textureCubeDesc_layers, set_word1, set_word2;
    cbn [word2]; rewrite ?to_uint_idem; try reflexivity.
  unfold to_uint at 1. rewrite (Z.mul_comm 6). reflexivity.
Qed.

(** C1 (as amended).  For every texture descriptor passed to
    [CreateTexture], the array size of the native creation call is the layer
    count normalized per kind: 1 for a plain 1D or 2D texture; 6 for a cube
    texture, whatever layer count the caller supplied; for a cube array
    with caller layer count N, the 32-bit product 6 N mod 2^32, which is
    exactly 6 N whenever 6 N is an [unsigned int]; and the caller's layer
    count, unchanged, for the 1D and 2D array kinds.  A 3D texture has no
    array size, and an invalid kind makes no native call. *)
Theorem CreateTexture_layer_count (desc : TextureDescriptor)
    (imageDesc : option ImageDescriptor) :
  requested_ArraySize (CreateTexture' desc imageDesc)
  = match type desc with
    | Texture1D | Texture2D => Some 1
    | TextureCube => Some 6
    | TextureCubeArray => Some ((6 * textureCubeDesc_layers desc) mod 2 ^ 32)
    | Texture1DArray => Some (texture1DDesc_layers desc)
    | Texture2DArray => Some (texture2DDesc_layers desc)
    | Texture3D | TextureTypeOther => None
    end
  /\ (type desc = TextureCubeArray ->
      6 * textureCubeDesc_layers desc <= UINT_MAX ->
      requested_ArraySize (CreateTexture' desc imageDesc)
      = Some (6 * textureCubeDesc_layers desc)).
Proof.
  assert (Hcount :
    requested_ArraySize (CreateTexture' desc imageDesc)
    = match type desc with
      | Texture1D | Texture2D => Some 1
      | TextureCube => Some 6
      | TextureCubeArray => Some ((6 * textureCubeDesc_layers desc) mod 2 ^ 32)
      | Texture1DArray => Some (texture1DDesc_layers desc)
      | Texture2DArray => Some (texture2DDesc_layers desc)
      | Texture3D | TextureTypeOther => None
      end).
  { unfold CreateTexture, requested_ArraySize.
    rewrite CreateTexture_layers_type.
    destruct (type desc) eqn:Ety.
    - destruct (BuildGenericTexture1D_first_call
                  (SetType Texture1D (mkD3D11Texture TextureTypeOther None))
                  (CreateTexture_layers desc) imageDesc 0
                  D3D11_RESOURCE_MISC_GENERATE_MIPS) as (t & rest & -> & _ & Ha).
      cbn. rewrite Ha, CreateTexture_layers_1D, Ety. reflexivity.
    - destruct (BuildGenericTexture2D_first_call
                  (SetType Texture2D (mkD3D11Texture TextureTypeOther None))
                  (CreateTexture_layers desc) imageDesc 0
                  D3D11_RESOURCE_MISC_GENERATE_MIPS) as (t & rest & -> & _ & Ha).
      cbn. rewrite Ha, CreateTexture_layers_2D, Ety. reflexivity.
    - destruct (BuildGenericTexture3D_first_call
                  (SetType Texture3D (mkD3D11Texture TextureTypeOther None))
                  (CreateTexture_layers desc) imageDesc 0
                  D3D11_RESOURCE_MISC_GENERATE_MIPS) as (t & rest & -> & _).
      reflexivity.
    - destruct (BuildGenericTexture2D_first_call
                  (SetType TextureCube (mkD3D11Texture TextureTypeOther None))
                  (CreateTexture_layers desc) imageDesc 0
                  (Z.lor D3D11_RESOURCE_MISC_GENERATE_MIPS D3D11_RESOURCE_MISC_TEXTURECUBE))
        as (t & rest & -> & _ & Ha).
      cbn. rewrite Ha, CreateTexture_layers_2D, Ety. reflexivity.
    - destruct (BuildGenericTexture1D_first_call
                  (SetType Texture1DArray (mkD3D11Texture TextureTypeOther None))
                  (CreateTexture_layers desc) imageDesc 0
                  D3D11_RESOURCE_MISC_GENERATE_MIPS) as (t & rest & -> & _ & Ha).
      cbn. rewrite Ha, CreateTexture_layers_1D, Ety. reflexivity.
    - destruct (BuildGenericTexture2D_first_call
                  (SetType Texture2DArray (mkD3D11Texture TextureTypeOther None))
                  (CreateTexture_layers desc) imageDesc 0
                  D3D11_RESOURCE_MISC_GENERATE_MIPS) as (t & rest & -> & _ & Ha).
      cbn. rewrite Ha, CreateTexture_layers_2D, Ety. reflexivity.
    - destruct (BuildGenericTexture2D_first_call
                  (SetType TextureCubeArray (mkD3D11Texture TextureTypeOther None))
                  (CreateTexture_layers desc) imageDesc 0
                  (Z.lor D3D11_RESOURCE_MISC_GENERATE_MIPS D3D11_RESOURCE_MISC_TEXTURECUBE))
        as (t & rest & -> & _ & Ha).
      cbn. rewrite Ha, CreateTexture_layers_2D, Ety. reflexivity.
    - reflexivity. }
  split; [exact Hcount|].
  intros Ety Hsmall. rewrite Hcount, Ety.
  f_equal. apply Z.mod_small.
  pose proof (to_uint_range (word2 desc)).
  unfold textureCubeDesc_layers, UINT_MAX in *. lia.
Qed.

(** For every texture descriptor of a valid kind, the descriptor handed to
    the native creation call has [MipLevels = 0]: the builders neither read
    an explicit mip-level count nor compute a chain length, they leave the
    mip chain to the native runtime. *)
Lemma CreateTexture_requests_zero_mip_levels (desc : TextureDescriptor)
    (imageDesc : option ImageDescriptor) :
  requested_MipLevels (CreateTexture' desc imageDesc)
  = match type desc with
    | TextureTypeOther => None
    | _ => Some 0
    end.
Proof.
  unfold CreateTexture, requested_MipLevels.
  rewrite CreateTexture_layers_type.
  destruct (type desc) eqn:Ety;
    try reflexivity;
    match goal with
    | |- context [BuildGenericTexture1D _ _ ?t ?d ?i ?c ?m] =>
        destruct (BuildGenericTexture1D_first_call t d i c m)
          as (td & rest & -> & Hm & _)
    | |- context [BuildGenericTexture2D _ _ ?t ?d ?i ?c ?m] =>
        destruct (BuildGenericTexture2D_first_call t d i c m)
          as (td & rest & -> & Hm & _)
    | |- context [BuildGenericTexture3D _ _ ?t ?d ?i ?c ?m] =>
        destruct (BuildGenericTexture3D_first_call t d i c m)
          as (td & rest & -> & Hm)
    end;
    cbn; rewrite Hm; reflexivity.
Qed.

(** [QueryTextureDescriptor] on a cube or cube-array texture backed by a 2D
    resource: the layer count is the native array size divided by 6. *)
Lemma QueryTextureDescriptor_cube_layers texDesc t native :
  t = TextureCube \/ t = TextureCubeArray ->
  0 <= ArraySize2D native <= UINT_MAX ->
  exists queried,
    QueryTextureDescriptor Unmap texDesc
      (mkD3D11Texture t (Some (HwTexture2D native))) = Some queried
    /\ type queried = t
    /\ textureCubeDesc_layers queried = ArraySize2D native / 6.
Proof.
  intros Ht Hrange.
  assert (Hdiv : 0 <= ArraySize2D native / 6 <= UINT_MAX).
  { unfold UINT_MAX in *. split.
    - apply Z.div_pos; lia.
    - apply Z.le_trans with (ArraySize2D native); [|lia].
      apply Z.div_le_upper_bound; lia. }
  unfold QueryTextureDescriptor. cbn [GetHardwareTexture GetType].
  destruct Ht as [-> | ->]; cbn [type set_type set_format set_texture2DDesc_width
    set_texture2DDesc_height set_texture2DDesc_layers set_word0 set_word1 set_word2];
    eexists; (split; [reflexivity|]); (split; [reflexivity|]);
    unfold textureCubeDesc_layers, set_textureCubeDesc_layers, set_word2;
    unfold set_texture2DDesc_layers, set_word2; cbn [word2];
    rewrite !(to_uint_small (ArraySize2D native)) by assumption;
    rewrite !(to_uint_small (ArraySize2D native / 6)) by assumption; reflexivity.
Qed.

(** C10 (as amended).  Querying the descriptor of a created cube-array
    texture undoes the layer normalization of its creation whenever the
    normalized count fits the native array size: [QueryTextureDescriptor]
    divides the native array size by 6, so for a cube array created from a
    caller layer count N with 6 N <= 4294967295 the queried layer count is
    N again. *)
Theorem query_cube_array_round_trip (desc texDesc : TextureDescriptor)
    (imageDesc : option ImageDescriptor) (texture : D3D11Texture)
    (calls : list NativeCall) :
  type desc = TextureCubeArray ->
  6 * textureCubeDesc_layers desc <= UINT_MAX ->
  CreateTexture' desc imageDesc = (Val texture, calls) ->
  exists native queried,
    GetHardwareTexture texture = Some (HwTexture2D native)
    /\ QueryTextureDescriptor Unmap texDesc texture = Some queried
    /\ type queried = TextureCubeArray
    /\ textureCubeDesc_layers queried = ArraySize2D native / 6
    /\ textureCubeDesc_layers queried = textureCubeDesc_layers desc.
Proof.
  intros Ety Hsmall Hcreate.
  assert (HN : 0 <= textureCubeDesc_layers desc)
    by (unfold textureCubeDesc_layers; apply to_uint_range).
  unfold CreateTexture in Hcreate.
  rewrite CreateTexture_layers_type, Ety in Hcreate.
  unfold BuildGenericTexture2D, CreateTexture2D, UpdateSubresource in Hcreate.
  rewrite CreateTexture_layers_2D, Ety in Hcreate.
  rewrite (Z.mod_small (6 * textureCubeDesc_layers desc)) in Hcreate
    by (unfold UINT_MAX in Hsmall; lia).
  destruct (device_CreateTexture2D _); [|destruct imageDesc; discriminate Hcreate].
  match type of Hcreate with
  | context [HwTexture2D ?d] => set (native := d) in *
  end.
  assert (Htex : texture = mkD3D11Texture TextureCubeArray (Some (HwTexture2D native))).
  { destruct imageDesc; cbn in Hcreate; rewrite ?Ety in Hcreate;
      inversion Hcreate; reflexivity. }
  destruct (QueryTextureDescriptor_cube_layers texDesc TextureCubeArray native)
    as (queried & Hq & Hty & Hlayers).
  - right; reflexivity.
  - subst native. cbn [ArraySize2D]. lia.
  - exists native, queried. subst texture.
    repeat split; try assumption.
    rewrite Hlayers. subst native. cbn [ArraySize2D].
    rewrite Z.mul_comm. apply Z.div_mul. lia.
Qed.

(** The update of [WriteTexture] for a region: one native call, on the box
    [UpdateGenericTexture] builds from the position and size. *)
Lemma WriteTexture_unfold texture sd imageDesc :
  WriteTexture texture sd imageDesc
  = (Val tt,
     [CallUpdateSubresource (to_uint (mipLevel sd)) 0
        (let (position, size) := WriteTexture_region (GetType texture) sd in
         CD3D11_BOX (vx position) (vy position) (vz position)
           (int_add (vx position) (vx size))
           (int_add (vy position) (vy size))
           (int_add (vz position) (vz size)))
        imageDesc]).
Proof.
  unfold WriteTexture, UpdateGenericTexture, UpdateSubresource, call.
  destruct (WriteTexture_region (GetType texture) sd). reflexivity.
Qed.

(** The box of [WriteTexture] for a region whose position and size, as the
    code computes them, have the bit patterns of [(x,y,z)] and [(w,h,d)]. *)
Lemma WriteTexture_region_box texture sd imageDesc position size x y z w h d :
  WriteTexture_region (GetType texture) sd = (position, size) ->
  map to_uint [vx position; vy position; vz position] = map to_uint [x; y; z] ->
  map to_uint [vx size; vy size; vz size] = map to_uint [w; h; d] ->
  writes_box texture sd imageDesc x y z w h d.
Proof.
  intros Hregion Hposition Hsize.
  injection Hposition as Hx Hy Hz. injection Hsize as Hw Hh Hd.
  assert (Hints : vx position = to_int (vx position)
                  /\ vy position = to_int (vy position)
                  /\ vz position = to_int (vz position)
                  /\ vx size = to_int (vx size)
                  /\ vy size = to_int (vy size)
                  /\ vz size = to_int (vz size)).
  { destruct (GetType texture); cbn [WriteTexture_region] in Hregion;
      injection Hregion as <- <-; cbn [vx vy vz Vector3i_default];
      rewrite ?to_int_idem; repeat split; reflexivity. }
  destruct Hints as (Ix & Iy & Iz & Iw & Ih & Id).
  exists (CD3D11_BOX (vx position) (vy position) (vz position)
            (int_add (vx position) (vx size))
            (int_add (vy position) (vy size))
            (int_add (vz position) (vz size))).
  split; [|split].
  - rewrite WriteTexture_unfold, Hregion. reflexivity.
  - unfold box_members, spec_box, int_add.
    cbn [left top front right bottom back map].
    rewrite !to_uint_to_int, Hx, Hy, Hz.
    rewrite (to_uint_add_congr _ x _ w Hx Hw), (to_uint_add_congr _ y _ h Hy Hh),
      (to_uint_add_congr _ z _ d Hz Hd).
    reflexivity.
  - intros (Rx & Ry & Rz & Rw & Rh & Rd & Rxw & Ryh & Rzd).
    unfold int_range in *.
    apply to_int_congr in Hx, Hy, Hz, Hw, Hh, Hd.
    rewrite <- Ix, (to_int_small x) in Hx by assumption.
    rewrite <- Iy, (to_int_small y) in Hy by assumption.
    rewrite <- Iz, (to_int_small z) in Hz by assumption.
    rewrite <- Iw, (to_int_small w) in Hw by assumption.
    rewrite <- Ih, (to_int_small h) in Hh by assumption.
    rewrite <- Id, (to_int_small d) in Hd by assumption.
    rewrite Hx, Hy, Hz, Hw, Hh, Hd.
    unfold spec_box. rewrite !int_add_exact by assumption. reflexivity.
Qed.

(** Bit patterns that agree, component by component. *)
Ltac same_bits :=
  cbn [map vx vy vz Vector3i_default];
  repeat (f_equal;
          repeat first
            [ reflexivity
            | rewrite to_uint_to_int
            | rewrite to_uint_idem
            | apply to_uint_add_congr
            | apply to_uint_mul_congr ]).



End RenderSystem.

(** C1, counterexample.  For the cube array of 2^31 + 1 cubes the native
    creation call gets an array size of 6, not 6 (2^31 + 1). *)
Lemma cube_array_layer_count_wraps :
  requested_ArraySize
    (CreateTexture same_format accept1D accept2D accept3D wide_cube_array None)
  = Some 6
  /\ requested_ArraySize
       (CreateTexture same_format accept1D accept2D accept3D wide_cube_array None)
     <> Some (6 * textureCubeDesc_layers wide_cube_array).
Proof. split; [vm_compute; reflexivity | vm_compute; discriminate]. Qed.

(** C10, counterexample.  The cube array of 2^31 + 1 cubes is created with
    a native array size of 6, and its queried layer count is 1. *)
Lemma query_cube_array_wraps :
  exists texture calls queried,
    CreateTexture same_format accept1D accept2D accept3D wide_cube_array None
    = (Val texture, calls)
    /\ QueryTextureDescriptor same_format blank texture = Some queried
    /\ textureCubeDesc_layers queried = 1
    /\ textureCubeDesc_layers queried <> textureCubeDesc_layers wide_cube_array.
Proof.
  eexists. eexists. eexists.
  split; [vm_compute; reflexivity|].
  split; [vm_compute; reflexivity|].
  split; [vm_compute; reflexivity | vm_compute; discriminate].
Qed.

Lemma CreateTexture_layer_count_witness :
  requested_ArraySize
    (CreateTexture same_format accept1D accept2D accept3D small_cube_array None)
  = Some (6 * textureCubeDesc_layers small_cube_array).
Proof.
  apply (proj2 (CreateTexture_layer_count same_format accept1D accept2D accept3D
                  small_cube_array None)).
  - reflexivity.
  - vm_compute. discriminate.
Defined.

Lemma query_cube_array_round_trip_witness :
  exists native queried,
    GetHardwareTexture
      (mkD3D11Texture TextureCubeArray
         (Some (HwTexture2D
            (mkTexture2DDesc 64 64 0 24 0 1 0 D3D11_USAGE_DEFAULT 40 0 5))))
    = Some (HwTexture2D native)
    /\ QueryTextureDescriptor same_format blank
         (mkD3D11Texture TextureCubeArray
            (Some (HwTexture2D
               (mkTexture2DDesc 64 64 0 24 0 1 0 D3D11_USAGE_DEFAULT 40 0 5))))
       = Some queried
    /\ type queried = TextureCubeArray
    /\ textureCubeDesc_layers queried = ArraySize2D native / 6
    /\ textureCubeDesc_layers queried = textureCubeDesc_layers small_cube_array.
Proof.
  apply (query_cube_array_round_trip same_format same_format accept1D accept2D
           accept3D small_cube_array blank None _
           [CallCreateTexture2D
              (mkTexture2DDesc 64 64 0 24 0 1 0 D3D11_USAGE_DEFAULT 40 0 5)]).
  - reflexivity.
  - vm_compute. discriminate.
  - vm_compute. reflexivity.
Defined.



End TexturesFacts.

(* ===================================================================== *)
(** ** Device creation (D3D12RenderSystem.cpp) *)
(* ===================================================================== *)

Module D3D12Facts.
Import Machine Cxx D3D12.

(** The candidate levels are listed from the highest capability down. *)
Lemma GetFeatureLevels_descending :
  forall before l after l',
    GetFeatureLevels = before ++ l :: after -> In l' after ->
    level_value l' < level_value l.
Proof.
  intros before l after l' Heq Hin.
  assert (Hall : forall n m x y,
            nth_error GetFeatureLevels n = Some x ->
            nth_error GetFeatureLevels m = Some y ->
            (n < m)%nat -> level_value y < level_value x).
  { intros n m x y Hn Hm Hlt.
    do 9 (destruct n as [|n]; [cbn in Hn; inversion Hn; subst; clear Hn;
      do 9 (destruct m as [|m]; [try lia; cbn in Hm; inversion Hm; subst; cbn; lia|]);
      destruct m; discriminate Hm |]).
    destruct n; discriminate Hn. }
  apply In_nth_error in Hin. destruct Hin as (k & Hk).
  apply (Hall (List.length before) (List.length before + S k)%nat).
  - rewrite Heq, nth_error_app2 by lia. rewrite Nat.sub_diag. reflexivity.
  - rewrite Heq, nth_error_app2 by lia.
    replace (List.length before + S k - List.length before)%nat with (S k) by lia.
    exact Hk.
  - lia.
Qed.

Section Device.

Variable D3D12CreateDevice :
  IDXGIAdapter_ptr -> D3D_FEATURE_LEVEL -> HRESULT * ID3D12Device_ptr.
Variable EnumWarpAdapter : IDXGIAdapter_ptr.

#[local] Abbreviation succeeds' := (succeeds D3D12CreateDevice).
#[local] Abbreviation CreateDevice_with' := (CreateDevice_with D3D12CreateDevice).

(** The loop over the levels on one adapter.  When some level succeeds, the
    loop tries the levels before the first such level, which fail, then that
    level, records it and returns true without trying the rest.  When none
    succeeds, it tries them all, records no level and returns false with a
    failure code, unless the list is empty. *)
Lemma CreateDevice_with_spec adapter levels hr self :
  match find (succeeds' adapter) levels with
  | Some level =>
      exists failed rest,
        levels = failed ++ level :: rest
        /\ forallb (fun l => negb (succeeds' adapter l)) failed = true
        /\ CreateDevice_with' adapter levels hr self
           = (true, fst (D3D12CreateDevice adapter level),
              mkD3D12RenderSystem (snd (D3D12CreateDevice adapter level)) level
                (calls self ++ attempts adapter (failed ++ [level])))
  | None =>
      exists hr' device',
        CreateDevice_with' adapter levels hr self
        = (false, hr',
           mkD3D12RenderSystem device' (featureLevel_ self)
             (calls self ++ attempts adapter levels))
        /\ (levels <> [] -> FAILED hr' = true)
        /\ (levels = [] -> hr' = hr /\ device' = device_ self)
  end.
Proof.
  revert hr self. induction levels as [|level levels IH]; intros hr self.
  - cbn. exists hr, (device_ self). rewrite app_nil_r.
    destruct self; cbn. repeat split; congruence.
  - cbn [find CreateDevice_with]. unfold succeeds at 1.
    destruct (D3D12CreateDevice adapter level) as [hr1 dev1] eqn:Ecall.
    cbn [fst]. destruct (FAILED hr1) eqn:Efail; cbn [negb].
    + specialize (IH hr1
        (mkD3D12RenderSystem dev1 (featureLevel_ self)
           (calls self ++ [CallD3D12CreateDevice adapter level]))).
      destruct (find (succeeds' adapter) levels) as [found|].
      * destruct IH as (failed & rest & Hsplit & Hfailed & Hrun).
        exists (level :: failed), rest. split; [rewrite Hsplit; reflexivity|].
        split.
        { cbn [forallb]. unfold succeeds at 1. rewrite Ecall. cbn [fst].
          rewrite Efail. exact Hfailed. }
        rewrite Hrun. cbn [calls]. rewrite <- app_assoc. reflexivity.
      * destruct IH as (hr' & device' & Hrun & Hne & Hnil).
        exists hr', device'. split.
        { rewrite Hrun. cbn [calls featureLevel_]. rewrite <- app_assoc. reflexivity. }
        split; [|discriminate].
        intros _. destruct levels as [|l ls].
        { destruct (Hnil eq_refl) as [-> _]. exact Efail. }
        { apply Hne. discriminate. }
    + exists [], levels. split; [reflexivity|]. split; [reflexivity|].
      rewrite Ecall. reflexivity.
Qed.

(** C3.  Device creation tries the levels of [GetFeatureLevels], highest
    capability first, on the hardware adapter, and records the first level
    that succeeds without trying a lower one or the software adapter.  Only
    when every level fails on hardware does it obtain the software adapter
    and try the same list on it, in the same order, again recording the
    first level that succeeds.  When every level fails on both adapters, the
    creation throws and returns no device. *)
Theorem CreateDevice_fallback (self : D3D12RenderSystem) :
  match find (succeeds' None) GetFeatureLevels with
  | Some level =>
      exists failed rest,
        GetFeatureLevels = failed ++ level :: rest
        /\ forallb (fun l => negb (succeeds' None l)) failed = true
        /\ CreateDevice D3D12CreateDevice EnumWarpAdapter self
           = Val (mkD3D12RenderSystem (snd (D3D12CreateDevice None level)) level
                    (calls self ++ attempts None (failed ++ [level])))
  | None =>
      match find (succeeds' EnumWarpAdapter) GetFeatureLevels with
      | Some level =>
          exists failed rest,
            GetFeatureLevels = failed ++ level :: rest
            /\ forallb (fun l => negb (succeeds' EnumWarpAdapter l)) failed = true
            /\ CreateDevice D3D12CreateDevice EnumWarpAdapter self
               = Val (mkD3D12RenderSystem
                        (snd (D3D12CreateDevice EnumWarpAdapter level)) level
                        (calls self ++ attempts None GetFeatureLevels
                         ++ [CallEnumWarpAdapter]
                         ++ attempts EnumWarpAdapter (failed ++ [level])))
      | None =>
          CreateDevice D3D12CreateDevice EnumWarpAdapter self
          = Throw "failed to create D3D12 device"
      end
  end.
Proof.
  unfold CreateDevice.
  pose proof (CreateDevice_with_spec None GetFeatureLevels 0 self) as Hhw.
  destruct (find (succeeds' None) GetFeatureLevels) as [level|].
  - destruct Hhw as (failed & rest & Hsplit & Hfailed & ->).
    exists failed, rest. repeat split; assumption.
  - destruct Hhw as (hr1 & dev1 & -> & _ & _). cbn [negb calls device_ featureLevel_].
    pose proof (CreateDevice_with_spec EnumWarpAdapter GetFeatureLevels hr1
      (mkD3D12RenderSystem dev1 (featureLevel_ self)
         ((calls self ++ attempts None GetFeatureLevels) ++ [CallEnumWarpAdapter])))
      as Hsw.
    destruct (find (succeeds' EnumWarpAdapter) GetFeatureLevels) as [level|].
    + destruct Hsw as (failed & rest & Hsplit & Hfailed & ->).
      exists failed, rest. split; [assumption|]. split; [assumption|].
      cbn [negb calls]. rewrite <- !app_assoc. reflexivity.
    + destruct Hsw as (hr2 & dev2 & -> & Hfail & _). cbn [negb].
      unfold DXThrowIfFailed. rewrite Hfail by discriminate. reflexivity.
Qed.

End Device.

(** Hardware that supports level 11_0: four attempts, none on software. *)
Example hardware_at_11_0 :
  CreateDevice (machine (Some D3D_FEATURE_LEVEL_11_0) None) warp_adapter
    D3D12RenderSystem_initial
  = Val (mkD3D12RenderSystem (Some 7%nat) D3D_FEATURE_LEVEL_11_0
           (attempts None
              [D3D_FEATURE_LEVEL_12_1; D3D_FEATURE_LEVEL_12_0;
               D3D_FEATURE_LEVEL_11_1; D3D_FEATURE_LEVEL_11_0])).
Proof. vm_compute. reflexivity. Qed.

(** No hardware support, software at 10_1: nine attempts on hardware, then
    the software adapter, five attempts on it. *)
Example software_at_10_1 :
  CreateDevice (machine None (Some D3D_FEATURE_LEVEL_10_1)) warp_adapter
    D3D12RenderSystem_initial
  = Val (mkD3D12RenderSystem (Some 7%nat) D3D_FEATURE_LEVEL_10_1
           (attempts None GetFeatureLevels
            ++ [CallEnumWarpAdapter]
            ++ attempts warp_adapter
                 [D3D_FEATURE_LEVEL_12_1; D3D_FEATURE_LEVEL_12_0;
                  D3D_FEATURE_LEVEL_11_1; D3D_FEATURE_LEVEL_11_0;
                  D3D_FEATURE_LEVEL_10_1])).
Proof. vm_compute. reflexivity. Qed.

(** No support on either adapter: the creation throws. *)
Example no_device_at_all :
  CreateDevice (machine None None) warp_adapter D3D12RenderSystem_initial
  = Throw "failed to create D3D12 device".
Proof. vm_compute. reflexivity. Qed.

End D3D12Facts.

(* ===================================================================== *)
(** ** Context negotiation (Win32GLContext.cpp) *)
(* ===================================================================== *)

Module Win32GLFacts.
Import Machine Win32GL.

Lemma share_calls_app cs cs' :
  share_calls (cs ++ cs') = (share_calls cs + share_calls cs')%nat.
Proof. unfold share_calls. rewrite filter_app, length_app. reflexivity. Qed.

(** *** Which steps call [wglShareLists] *)

Lemma never_shares_ret {A} (a : A) : never_shares (ret a).
Proof. intros st. reflexivity. Qed.

Lemma never_shares_throw {A} what : never_shares (@throw A what).
Proof. intros st. reflexivity. Qed.

Lemma never_shares_stuck {A} why : never_shares (@stuck A why).
Proof. intros st. reflexivity. Qed.

Lemma never_shares_gets {A} (f : State -> A) : never_shares (gets f).
Proof. intros st. reflexivity. Qed.

Lemma never_shares_bind {A B} (m : M A) (k : A -> M B) :
  never_shares m -> (forall a, never_shares (k a)) -> never_shares (bind m k).
Proof.
  intros Hm Hk st. unfold bind. specialize (Hm st).
  destruct (m st) as [[a|what|why] st1]; cbn [snd] in *.
  - rewrite (Hk a st1). exact Hm.
  - exact Hm.
  - exact Hm.
Qed.

Lemma never_shares_native {A} (c : Call) (answer : nat -> A) :
  is_wglShareLists c = false -> never_shares (native c answer).
Proof.
  intros Hc st. unfold native. cbn [snd calls].
  rewrite share_calls_app. unfold share_calls at 2. cbn [filter].
  rewrite Hc. cbn. lia.
Qed.

Lemma never_shares_Log s text : never_shares (Log s text).
Proof. intros st. reflexivity. Qed.

Lemma never_shares_set_desc f : never_shares (set_desc f).
Proof. intros st. reflexivity. Qed.

Lemma never_shares_set_context f : never_shares (set_context f).
Proof. intros st. reflexivity. Qed.

Lemma never_shares_set_hasSharedContext b : never_shares (set_hasSharedContext b).
Proof. intros st. reflexivity. Qed.

Lemma never_shares_set_procs f : never_shares (set_procs f).
Proof. intros st. reflexivity. Qed.

Create HintDb never_shares.
#[local] Hint Resolve never_shares_ret never_shares_throw never_shares_stuck
  never_shares_gets never_shares_Log never_shares_set_desc
  never_shares_set_context never_shares_set_hasSharedContext
  never_shares_set_procs : never_shares.

(** Walk through a member function: binds, branches, and the steps above. *)
Ltac never_shares_step :=
  first
    [ solve [auto with never_shares]
    | apply never_shares_native; reflexivity
    | apply never_shares_bind; [|intros ?]
    | match goal with
      | |- never_shares (if ?b then _ else _) => destruct b
      | |- never_shares (match ?x with _ => _ end) => destruct x
      end ].

Ltac never_shares_walk := repeat never_shares_step.

Section Context.

Variable platform : Platform.
Variable maxNumPixelFormatsMS : nat.
Variable OpenGL_Latest : Z.

Lemma never_shares_ErrAntiAliasingNotSupported :
  never_shares ErrAntiAliasingNotSupported.
Proof. apply never_shares_Log. Qed.

Lemma never_shares_SetSwapInterval interval :
  never_shares (SetSwapInterval platform interval).
Proof. unfold SetSwapInterval. never_shares_walk. Qed.

Lemma never_shares_DeleteGLContext rc :
  never_shares (DeleteGLContext platform rc).
Proof. unfold DeleteGLContext. never_shares_walk. Qed.

Lemma never_shares_CreateStdContextProfile :
  never_shares (CreateStdContextProfile platform).
Proof. unfold CreateStdContextProfile. never_shares_walk. Qed.

Lemma never_shares_CreateExtContextProfile rc :
  never_shares (CreateExtContextProfile platform OpenGL_Latest rc).
Proof. unfold CreateExtContextProfile. never_shares_walk. Qed.

#[local] Hint Resolve never_shares_ErrAntiAliasingNotSupported
  never_shares_SetSwapInterval never_shares_DeleteGLContext
  never_shares_CreateStdContextProfile never_shares_CreateExtContextProfile
  : never_shares.

Lemma never_shares_CreateGLContext ext shared :
  never_shares (CreateGLContext platform OpenGL_Latest ext shared).
Proof. unfold CreateGLContext. never_shares_walk. Qed.

Lemma never_shares_SelectPixelFormat_loop fuel want idx std :
  never_shares (SelectPixelFormat_loop platform maxNumPixelFormatsMS fuel want idx std).
Proof.
  revert idx std. induction fuel as [|fuel IH]; intros idx std;
    cbn [SelectPixelFormat_loop].
  - apply never_shares_stuck.
  - never_shares_walk; apply IH.
Qed.

Lemma never_shares_SetupAntiAliasing_loop fuel :
  never_shares (SetupAntiAliasing_loop platform maxNumPixelFormatsMS fuel).
Proof.
  induction fuel as [|fuel IH]; cbn [SetupAntiAliasing_loop].
  - never_shares_walk.
  - never_shares_walk; apply IH.
Qed.

#[local] Hint Resolve never_shares_CreateGLContext
  never_shares_SelectPixelFormat_loop never_shares_SetupAntiAliasing_loop
  : never_shares.

Lemma never_shares_SetupDeviceContextAndPixelFormat fuel :
  never_shares (SetupDeviceContextAndPixelFormat platform maxNumPixelFormatsMS fuel).
Proof.
  unfold SetupDeviceContextAndPixelFormat, SelectPixelFormat. never_shares_walk.
Qed.

Lemma never_shares_SetupAntiAliasing :
  never_shares (SetupAntiAliasing platform maxNumPixelFormatsMS).
Proof. unfold SetupAntiAliasing. never_shares_walk. Qed.

#[local] Hint Resolve never_shares_SetupDeviceContextAndPixelFormat
  never_shares_SetupAntiAliasing : never_shares.

Lemma never_shares_RecreateWindow fuel :
  never_shares (RecreateWindow platform maxNumPixelFormatsMS fuel).
Proof. unfold RecreateWindow. never_shares_walk. Qed.

#[local] Hint Resolve never_shares_RecreateWindow : never_shares.

Lemma never_shares_CopyPixelFormat source : never_shares (CopyPixelFormat source).
Proof. apply never_shares_set_context. Qed.

#[local] Hint Resolve never_shares_CopyPixelFormat : never_shares.

(** Negotiation, up to the activation of the final context, never calls
    [wglShareLists]. *)
Lemma never_shares_CreateContext_negotiate fuel shared :
  never_shares
    (CreateContext_negotiate platform maxNumPixelFormatsMS OpenGL_Latest fuel shared).
Proof. unfold CreateContext_negotiate. never_shares_walk. Qed.

(** Setting the swap interval always returns, and only adds calls other
    than [wglShareLists]. *)
Lemma CreateContext_vsync_returns st :
  exists st' later,
    CreateContext_vsync platform st = (Val tt, st')
    /\ calls st' = calls st ++ later
    /\ share_calls later = 0%nat.
Proof.
  unfold CreateContext_vsync, SetSwapInterval, bind, gets, native, set_procs,
    modify, ret.
  destruct (has_wglSwapIntervalEXT (procs st)).
  - eexists. eexists. split; [reflexivity|]. cbn [calls]. split; reflexivity.
  - cbn [calls procs].
    destruct (LoadSwapIntervalProcs platform (List.length (calls st))).
    + eexists. eexists. split; [reflexivity|]. cbn [calls].
      rewrite <- app_assoc. split; reflexivity.
    + eexists. eexists. split; [reflexivity|]. cbn [calls]. split; reflexivity.
Qed.

#[local] Abbreviation CreateContext' :=
  (CreateContext platform maxNumPixelFormatsMS OpenGL_Latest).
#[local] Abbreviation CreateContext_negotiate' :=
  (CreateContext_negotiate platform maxNumPixelFormatsMS OpenGL_Latest).

Lemma bind_run {A B} (m : M A) (k : A -> M B) st :
  bind m k st
  = match m st with
    | (Val a, st') => k a st'
    | (Throw what, st') => (Throw what, st')
    | (Stuck why, st') => (Stuck why, st')
    end.
Proof. reflexivity. Qed.

(** The sharing step, run. *)
Lemma CreateContext_share_run (sharedContext : option GLPlatformContext) (st : State) :
  CreateContext_share platform sharedContext st
  = match sharedContext, hasSharedContext_ st,
          extProfile (profileOpenGL (desc_ st)) with
    | Some shared, false, false =>
        (if wglShareLists platform (List.length (calls st))
              (hGLRC shared) (hGLRC (context_ st))
         then Val tt
         else Throw "failed to share resources from OpenGL render context",
         after_call (CallwglShareLists (hGLRC shared) (hGLRC (context_ st))) st)
    | _, _, _ => (Val tt, st)
    end.
Proof.
  unfold CreateContext_share, sharing_wanted, bind, gets, native, throw, ret,
    after_call.
  destruct st as [desc context hasShared extensions logged made].
  cbn [desc_ context_ hasSharedContext_ procs log calls].
  destruct sharedContext as [shared|]; [|reflexivity].
  destruct hasShared; [reflexivity|].
  destruct (extProfile (profileOpenGL desc)); [reflexivity|].
  cbn [negb andb desc_ context_ hasSharedContext_ procs log calls].
  destruct (wglShareLists platform (List.length made)
              (hGLRC shared) (hGLRC context)); reflexivity.
Qed.

(** [CreateContext] after a negotiation that has completed: the sharing
    step, then the swap interval. *)
Lemma share_then_vsync (sharedContext : option GLPlatformContext) (negotiated : State) :
  match sharedContext, hasSharedContext_ negotiated,
        extProfile (profileOpenGL (desc_ negotiated)) with
  | Some shared, false, false =>
      (exists later,
         calls (snd ((CreateContext_share platform sharedContext ;;;
                      CreateContext_vsync platform) negotiated))
         = calls negotiated
           ++ CallwglShareLists (hGLRC shared) (hGLRC (context_ negotiated))
           :: later
         /\ share_calls later = 0%nat)
      /\ fst ((CreateContext_share platform sharedContext ;;;
               CreateContext_vsync platform) negotiated)
         = if wglShareLists platform (List.length (calls negotiated))
                (hGLRC shared) (hGLRC (context_ negotiated))
           then Val tt
           else Throw "failed to share resources from OpenGL render context"
  | _, _, _ =>
      (exists later,
         calls (snd ((CreateContext_share platform sharedContext ;;;
                      CreateContext_vsync platform) negotiated))
         = calls negotiated ++ later
         /\ share_calls later = 0%nat)
      /\ fst ((CreateContext_share platform sharedContext ;;;
               CreateContext_vsync platform) negotiated) = Val tt
  end.
Proof.
  rewrite bind_run, CreateContext_share_run.
  assert (Hskip :
    (exists later,
       calls (snd (CreateContext_vsync platform negotiated))
       = calls negotiated ++ later /\ share_calls later = 0%nat)
    /\ fst (CreateContext_vsync platform negotiated) = Val tt).
  { destruct (CreateContext_vsync_returns negotiated) as (st' & later & -> & Hc & Hs).
    cbn [fst snd]. split; [exists later; split; assumption | reflexivity]. }
  destruct sharedContext as [shared|]; [|exact Hskip].
  destruct (hasSharedContext_ negotiated); [exact Hskip|].
  destruct (extProfile (profileOpenGL (desc_ negotiated))); [exact Hskip|].
  destruct (wglShareLists platform (List.length (calls negotiated))
              (hGLRC shared) (hGLRC (context_ negotiated))).
  - match goal with
    | |- context [CreateContext_vsync platform ?s] =>
        destruct (CreateContext_vsync_returns s) as (st' & later & -> & Hc & Hs)
    end.
    cbn [fst snd after_call calls] in *. split; [|reflexivity].
    exists later. rewrite Hc, <- app_assoc. split; [reflexivity | exact Hs].
  - cbn [fst snd after_call calls]. split; [|reflexivity].
    exists []. split; reflexivity.
Qed.

(** C8.  During context creation, [wglShareLists] is called, once, exactly
    when negotiation has completed, a prior context was supplied, the new
    context has its own hardware context ([hasSharedContext_] is false) and
    the extended profile is not in use; it is called on the prior context's
    render context and the new one.  If that call fails, context creation
    ends with the exception "failed to share resources from OpenGL render
    context"; it does not go on without sharing.  In every other case no
    sharing call is made at all. *)
Theorem CreateContext_sharing (fuel : nat)
    (sharedContext : option GLPlatformContext) (st : State) :
  match CreateContext_negotiate' fuel sharedContext st with
  | (Val _, negotiated) =>
      match sharedContext, hasSharedContext_ negotiated,
            extProfile (profileOpenGL (desc_ negotiated)) with
      | Some shared, false, false =>
          share_calls (calls (snd (CreateContext' fuel sharedContext st)))
          = S (share_calls (calls st))
          /\ (exists later,
                calls (snd (CreateContext' fuel sharedContext st))
                = calls negotiated
                  ++ CallwglShareLists (hGLRC shared) (hGLRC (context_ negotiated))
                  :: later)
          /\ fst (CreateContext' fuel sharedContext st)
             = if wglShareLists platform (List.length (calls negotiated))
                    (hGLRC shared) (hGLRC (context_ negotiated))
               then Val tt
               else Throw "failed to share resources from OpenGL render context"
      | _, _, _ =>
          share_calls (calls (snd (CreateContext' fuel sharedContext st)))
          = share_calls (calls st)
          /\ fst (CreateContext' fuel sharedContext st) = Val tt
      end
  | (Throw what, failed) =>
      CreateContext' fuel sharedContext st = (Throw what, failed)
      /\ share_calls (calls failed) = share_calls (calls st)
  | (Stuck why, failed) =>
      CreateContext' fuel sharedContext st = (Stuck why, failed)
      /\ share_calls (calls failed) = share_calls (calls st)
  end.
Proof.
  pose proof (never_shares_CreateContext_negotiate fuel sharedContext st) as Hneg.
  assert (Hrun :
    CreateContext' fuel sharedContext st
    = match CreateContext_negotiate' fuel sharedContext st with
      | (Val _, negotiated) =>
          (CreateContext_share platform sharedContext ;;;
           CreateContext_vsync platform) negotiated
      | (Throw what, failed) => (Throw what, failed)
      | (Stuck why, failed) => (Stuck why, failed)
      end).
  { unfold CreateContext. unfold bind at 1.
    destruct (CreateContext_negotiate' fuel sharedContext st) as [[[]|what|why] st1];
      reflexivity. }
  rewrite Hrun. clear Hrun.
  destruct (CreateContext_negotiate' fuel sharedContext st)
    as [[[]|what|why] negotiated]; cbn [snd] in Hneg.
  2, 3: split; [reflexivity | exact Hneg].
  pose proof (share_then_vsync sharedContext negotiated) as Hshare.
  destruct sharedContext as [shared|];
    [destruct (hasSharedContext_ negotiated);
     [|destruct (extProfile (profileOpenGL (desc_ negotiated)))]|].
  - destruct Hshare as ((later & -> & Hs) & ->).
    rewrite share_calls_app, Hs, Hneg. split; [lia | reflexivity].
  - destruct Hshare as ((later & -> & Hs) & ->).
    rewrite share_calls_app, Hs, Hneg. split; [lia | reflexivity].
  - destruct Hshare as ((later & -> & Hs) & ->).
    split; [|split; [exists later; reflexivity | reflexivity]].
    rewrite share_calls_app, Hneg.
    change (CallwglShareLists (hGLRC shared) (hGLRC (context_ negotiated)) :: later)
      with ([CallwglShareLists (hGLRC shared) (hGLRC (context_ negotiated))] ++ later).
    rewrite share_calls_app, Hs. cbn. lia.
  - destruct Hshare as ((later & -> & Hs) & ->).
    rewrite share_calls_app, Hs, Hneg. split; [lia | reflexivity].
Qed.

(** *** The sample-count loop of [SetupAntiAliasing] *)

(** Run with the sample count as its bound, the loop is left by its
    condition or by [break], never by its [return false]: inside the loop
    the count is positive, so the test [samples <= 0] that guards the
    [return false] is false.  The enabled flag is not touched, and a loop
    left by its condition leaves a count of zero. *)
Lemma SetupAntiAliasing_loop_leaves fuel st :
  (Z.to_nat (samples (multiSampling (desc_ st))) <= fuel)%nat ->
  samples (multiSampling (desc_ st)) <= UINT_MAX ->
  exists exit st',
    SetupAntiAliasing_loop platform maxNumPixelFormatsMS fuel st = (Val exit, st')
    /\ exit <> ReturnFalse
    /\ enabled (multiSampling (desc_ st')) = enabled (multiSampling (desc_ st))
    /\ samples (multiSampling (desc_ st')) <= samples (multiSampling (desc_ st))
    /\ (exit = ConditionFalse -> samples (multiSampling (desc_ st')) <= 0)
    /\ procs st' = procs st
    /\ log st' = log st.
Proof.
  revert st. induction fuel as [|fuel IH]; intros st Hfuel Hmax.
  - cbn [SetupAntiAliasing_loop]. unfold bind, gets, ret.
    destruct (Z.gtb_spec (samples (multiSampling (desc_ st))) 0) as [Hpos|Hle];
      [lia|].
    exists ConditionFalse, st. repeat split; try discriminate; try lia.
  - cbn [SetupAntiAliasing_loop]. rewrite bind_run. unfold gets at 1.
    destruct (Z.gtb_spec (samples (multiSampling (desc_ st))) 0) as [Hpos|Hle].
    + unfold bind, gets, set_context, set_desc, modify, native, ret.
      cbn [desc_ context_ hasSharedContext_ procs log calls].
      match goal with
      | |- context [wglChoosePixelFormatARB platform ?now ?h ?d ?e ?s] =>
          destruct (wglChoosePixelFormatARB platform now h d e s)
            as [res num formats]
      end.
      cbn [result numFormats piFormats].
      destruct (negb res || (num <? 1)%nat).
      * destruct (Z.leb_spec (samples (multiSampling (desc_ st))) 0) as [Hle|_];
          [lia|].
        match goal with
        | |- context [SetupAntiAliasing_loop _ _ fuel ?s] =>
            destruct (IH s) as (exit & st' & Hrun & Hexit & Hen & Hs & Hzero & Hp & Hl)
        end.
        { cbn [desc_ multiSampling samples with_samples with_multiSampling].
          unfold to_uint, UINT_MAX in *. rewrite Z.mod_small by lia. lia. }
        { cbn [desc_ multiSampling samples with_samples with_multiSampling].
          unfold to_uint, UINT_MAX in *. rewrite Z.mod_small by lia. lia. }
        exists exit, st'. rewrite Hrun.
        cbn [desc_ multiSampling samples enabled with_samples with_multiSampling
             procs log] in *.
        unfold to_uint, UINT_MAX in *. rewrite Z.mod_small in Hs by lia.
        repeat split; try assumption; lia.
      * eexists Break, _. split; [reflexivity|].
        cbn [desc_ procs log]. repeat split; try discriminate; lia.
    + unfold ret. exists ConditionFalse, st.
      repeat split; try discriminate; lia.
Qed.

(** Once the entry point [wglChoosePixelFormatARB] is there, or can be
    loaded, [SetupAntiAliasing] returns true, whatever the platform answers
    to the format queries, and leaves the enabled flag as it was. *)
Lemma SetupAntiAliasing_returns_true st :
  has_wglChoosePixelFormatARB (procs st)
  || LoadPixelFormatProcs platform (List.length (calls st)) = true ->
  0 <= samples (multiSampling (desc_ st)) <= UINT_MAX ->
  exists st',
    SetupAntiAliasing platform maxNumPixelFormatsMS st = (Val true, st')
    /\ enabled (multiSampling (desc_ st')) = enabled (multiSampling (desc_ st)).
Proof.
  intros Havail Hrange.
  unfold SetupAntiAliasing. rewrite bind_run. unfold gets at 1.
  rewrite bind_run.
  assert (Hentry : exists st1,
            (if has_wglChoosePixelFormatARB (procs st) then ret true
             else
               ok <- native CallLoadPixelFormatProcs (LoadPixelFormatProcs platform) ;;
               set_procs (fun p =>
                 mkExtensionProcs ok (has_wglCreateContextAttribsARB p)
                   (has_wglSwapIntervalEXT p)) ;;;
               ret ok) st = (Val true, st1)
            /\ desc_ st1 = desc_ st).
  { destruct (has_wglChoosePixelFormatARB (procs st)).
    - exists st. split; reflexivity.
    - cbn [orb] in Havail.
      unfold bind, native, set_procs, modify, ret. rewrite Havail.
      eexists. split; reflexivity. }
  destruct Hentry as (st1 & -> & Hdesc). cbn [negb].
  rewrite bind_run. unfold gets at 1. rewrite bind_run.
  destruct (SetupAntiAliasing_loop_leaves
              (Z.to_nat (samples (multiSampling (desc_ st1)))) st1)
    as (exit & st2 & -> & Hexit & Hen & Hs & _).
  { lia. }
  { rewrite Hdesc. lia. }
  rewrite <- Hdesc, <- Hen.
  assert (Htail : forall (pre : M unit),
            (forall s, exists s', pre s = (Val tt, s') /\ desc_ s' = desc_ s) ->
            exists st',
              ((pre ;;;
                msEnabled <- gets (fun st => enabled (multiSampling (desc_ st))) ;;
                (if msEnabled
                 then native CallglEnableMultisample (fun _ => tt)
                 else native CallglDisableMultisample (fun _ => tt)) ;;;
                ret true) st2) = (Val true, st')
              /\ enabled (multiSampling (desc_ st'))
                 = enabled (multiSampling (desc_ st2))).
  { intros pre Hpre. rewrite bind_run.
    destruct (Hpre st2) as (s' & -> & Hd).
    unfold bind, gets, native, ret.
    destruct (enabled (multiSampling (desc_ s'))); eexists;
      (split; [reflexivity | cbn [desc_]; rewrite Hd; reflexivity]). }
  destruct exit; [| |congruence]; rewrite bind_run; unfold gets at 1.
  - apply Htail. intros s.
    destruct (_ <? _); [eexists; split; reflexivity | exists s; split; reflexivity].
  - apply Htail. intros s.
    destruct (_ <? _); [eexists; split; reflexivity | exists s; split; reflexivity].
Qed.

End Context.

(** *** Runs on a concrete platform *)

(** The scenario of spec section 8: 8 samples requested, at most 4
    supported.  Creation completes with 4 samples, anti-aliasing enabled,
    and one diagnostic. *)
Example eight_samples_reduced_to_four :
  exists st,
    CreateContext (plain_platform (fun s => s <=? 4)) 8 0 4 None eight_samples
    = (Val tt, st)
    /\ multiSampling (desc_ st) = mkMultiSampling true 4
    /\ log st = [(StdOut, "reduced multi-samples for anti-aliasing from 8 to 4"%string)].
Proof. eexists. split; [vm_compute; reflexivity|]. split; reflexivity. Qed.

(** C2, the code at the failing input.  8 samples are requested and no
    sample count is supported.  The count is stepped down to zero, and
    context creation completes; but [SetupAntiAliasing] has reported
    success, so the context and the window are recreated, the enabled flag
    stays set with a sample count of 0, and the only diagnostic is the one
    about the reduced count: the branch of [CreateContext] that prints
    "multi-sample anti-aliasing is not supported" and clears the flag is not
    taken. *)
Theorem zero_samples_leaves_antialiasing_enabled :
  exists st,
    CreateContext (plain_platform (fun _ => false)) 8 0 4 None eight_samples
    = (Val tt, st)
    /\ multiSampling (desc_ st) = mkMultiSampling true 0
    /\ log st = [(StdOut, "reduced multi-samples for anti-aliasing from 8 to 0"%string)]
    /\ In CallWindowRecreate (calls st)
    /\ fst (SetupAntiAliasing (plain_platform (fun _ => false)) 8 eight_samples)
       = Val true.
Proof.
  eexists. split; [vm_compute; reflexivity|].
  split; [reflexivity|]. split; [reflexivity|].
  split; [cbn; tauto | vm_compute; reflexivity].
Qed.

End Win32GLFacts.

(* ===================================================================== *)
(** ** More on flag translation (D3D11ResourceFlags.cpp) *)
(* ===================================================================== *)

Module ResourceFlagsMore.
Import Machine D3D11 D3D11ResourceFlags MachineFacts.

(** Testing a mask of two flags is testing either. *)
Lemma has_flag_lor flags a b :
  has_flag flags (Z.lor a b) = has_flag flags a || has_flag flags b.
Proof.
  unfold has_flag. rewrite Z.land_lor_distr_r.
  destruct (Z.eqb_spec (Z.land flags a) 0) as [Ea|Ea];
    destruct (Z.eqb_spec (Z.land flags b) 0) as [Eb|Eb]; cbn [negb orb].
  - rewrite Ea, Eb. reflexivity.
  - destruct (Z.eqb_spec (Z.lor (Z.land flags a) (Z.land flags b)) 0) as [E|E];
      [apply Z.lor_eq_0_iff in E; tauto | reflexivity].
  - destruct (Z.eqb_spec (Z.lor (Z.land flags a) (Z.land flags b)) 0) as [E|E];
      [apply Z.lor_eq_0_iff in E; tauto | reflexivity].
  - destruct (Z.eqb_spec (Z.lor (Z.land flags a) (Z.land flags b)) 0) as [E|E];
      [apply Z.lor_eq_0_iff in E; tauto | reflexivity].
Qed.

Section Flags.

Variable bindBit : BindFlag -> nat.
Variable cpuAccessBit : CPUAccessFlag -> nat.
Variable dynamicUsageBit : nat.
Variable BufferDescriptor : Type.
Variable buffer_cpuAccessFlags : BufferDescriptor -> Z.
Variable buffer_bindFlags : BufferDescriptor -> Z.
Variable buffer_miscFlags : BufferDescriptor -> Z.
Variable StorageBufferType : Type.
Variable buffer_storageType : BufferDescriptor -> StorageBufferType.
Variable IsStructuredBuffer : StorageBufferType -> bool.
Variable IsByteAddressBuffer : StorageBufferType -> bool.
Variable TextureType : Type.
Variable TextureDescriptor : Type.
Variable texture_type : TextureDescriptor -> TextureType.
Variable texture_bindFlags : TextureDescriptor -> Z.
Variable texture_cpuAccessFlags : TextureDescriptor -> Z.
Variable IsMipMappedTexture : TextureDescriptor -> bool.
Variable IsCubeTexture : TextureType -> bool.

#[local] Abbreviation set_in flags b := (bind_flag_set bindBit flags b).
#[local] Abbreviation TextureBindFlags :=
  (DXGetTextureBindFlags bindBit TextureDescriptor texture_bindFlags
     IsMipMappedTexture).
#[local] Abbreviation TextureMiscFlags :=
  (DXGetTextureMiscFlags bindBit TextureType TextureDescriptor texture_type
     texture_bindFlags IsMipMappedTexture IsCubeTexture).

Lemma has_bind flags b :
  has_flag flags (BindFlags bindBit b) = set_in flags b.
Proof. unfold BindFlags, bind_flag_set. apply has_flag_bit. lia. Qed.

(** X1.  The native bind flags of a texture, bit by bit: depth-stencil is
    set exactly when the depth-stencil attachment is requested and then the
    render-target bit is not set, whatever else is requested; render-target
    is set otherwise when the texture is mip-mapped or a color attachment;
    shader-resource when it is mip-mapped or sampled; unordered-access when
    it is read-write storage.  No other bit is set. *)
Theorem texture_bind_flags_bits (desc : TextureDescriptor) :
  has_flag (TextureBindFlags desc) D3D11_BIND_DEPTH_STENCIL
  = set_in (texture_bindFlags desc) DepthStencilAttachment
  /\ has_flag (TextureBindFlags desc) D3D11_BIND_RENDER_TARGET
     = negb (set_in (texture_bindFlags desc) DepthStencilAttachment)
       && (IsMipMappedTexture desc
           || set_in (texture_bindFlags desc) ColorAttachment)
  /\ has_flag (TextureBindFlags desc) D3D11_BIND_SHADER_RESOURCE
     = IsMipMappedTexture desc || set_in (texture_bindFlags desc) SampleBuffer
  /\ has_flag (TextureBindFlags desc) D3D11_BIND_UNORDERED_ACCESS
     = set_in (texture_bindFlags desc) RWStorageBuffer
  /\ has_flag (TextureBindFlags desc) D3D11_BIND_DEPTH_STENCIL
     && has_flag (TextureBindFlags desc) D3D11_BIND_RENDER_TARGET = false
  /\ Z.land (TextureBindFlags desc)
       (Z.lnot (Z.lor (Z.lor D3D11_BIND_DEPTH_STENCIL D3D11_BIND_RENDER_TARGET)
                  (Z.lor D3D11_BIND_SHADER_RESOURCE D3D11_BIND_UNORDERED_ACCESS)))
     = 0.
Proof.
  unfold DXGetTextureBindFlags. rewrite !has_bind.
  destruct (IsMipMappedTexture desc),
           (set_in (texture_bindFlags desc) DepthStencilAttachment),
           (set_in (texture_bindFlags desc) ColorAttachment),
           (set_in (texture_bindFlags desc) SampleBuffer),
           (set_in (texture_bindFlags desc) RWStorageBuffer);
    repeat split; reflexivity.
Qed.

(** X2.  Whenever the misc flags of a texture ask for mip generation, its
    bind flags make it both a render target and a shader resource, which is
    what generating mips needs. *)
Theorem generate_mips_needs_render_target_and_shader_resource
    (desc : TextureDescriptor) :
  has_flag (TextureMiscFlags desc) D3D11_RESOURCE_MISC_GENERATE_MIPS = true ->
  has_flag (TextureBindFlags desc) D3D11_BIND_RENDER_TARGET = true
  /\ has_flag (TextureBindFlags desc) D3D11_BIND_SHADER_RESOURCE = true
  /\ has_flag (TextureBindFlags desc) D3D11_BIND_DEPTH_STENCIL = false.
Proof.
  unfold DXGetTextureMiscFlags, DXGetTextureBindFlags. rewrite !has_bind.
  destruct (IsMipMappedTexture desc),
           (set_in (texture_bindFlags desc) DepthStencilAttachment),
           (set_in (texture_bindFlags desc) ColorAttachment),
           (set_in (texture_bindFlags desc) SampleBuffer),
           (set_in (texture_bindFlags desc) RWStorageBuffer),
           (IsCubeTexture (texture_type desc));
    cbn; intros H; try discriminate H; repeat split; reflexivity.
Qed.

(** X3.  The usage of a buffer is the default or the dynamic one, never
    staging or immutable; it is dynamic exactly when dynamic usage is
    requested and the buffer is not read-write storage, and then the CPU
    access derived from the same misc flags allows writing. *)
Theorem buffer_usage_dynamic_is_writable (desc : BufferDescriptor) :
  match DXGetBufferUsage bindBit BufferDescriptor dynamicUsageBit
          buffer_bindFlags buffer_miscFlags desc with
  | D3D11_USAGE_DYNAMIC =>
      Z.testbit (buffer_miscFlags desc) (Z.of_nat dynamicUsageBit) = true
      /\ set_in (buffer_bindFlags desc) RWStorageBuffer = false
      /\ DXGetCPUAccessFlagsForMiscFlags dynamicUsageBit (buffer_miscFlags desc)
         = D3D11_CPU_ACCESS_WRITE
  | D3D11_USAGE_DEFAULT =>
      Z.testbit (buffer_miscFlags desc) (Z.of_nat dynamicUsageBit) = false
      \/ set_in (buffer_bindFlags desc) RWStorageBuffer = true
  | D3D11_USAGE_IMMUTABLE | D3D11_USAGE_STAGING => False
  end.
Proof.
  unfold DXGetBufferUsage, DXGetCPUAccessFlagsForMiscFlags, MiscFlags_DynamicUsage.
  rewrite has_bind, !has_flag_bit by lia.
  destruct (set_in (buffer_bindFlags desc) RWStorageBuffer),
           (Z.testbit (buffer_miscFlags desc) (Z.of_nat dynamicUsageBit));
    cbn; auto.
Qed.

(** X4.  The usage chosen from the CPU access flags agrees with the native
    CPU access flags translated from the same word: staging exactly when
    the native flags allow reading, dynamic exactly when they allow writing
    only, default exactly when they allow nothing. *)
Theorem cpu_access_usage_agrees_with_flags :
  (forall desc : BufferDescriptor,
     match DXGetCPUAccessBufferUsage cpuAccessBit BufferDescriptor
             buffer_cpuAccessFlags desc with
     | D3D11_USAGE_STAGING =>
         has_flag (DXGetCPUAccessFlags cpuAccessBit (buffer_cpuAccessFlags desc))
           D3D11_CPU_ACCESS_READ = true
     | D3D11_USAGE_DYNAMIC =>
         DXGetCPUAccessFlags cpuAccessBit (buffer_cpuAccessFlags desc)
         = D3D11_CPU_ACCESS_WRITE
     | D3D11_USAGE_DEFAULT =>
         DXGetCPUAccessFlags cpuAccessBit (buffer_cpuAccessFlags desc) = 0
     | D3D11_USAGE_IMMUTABLE => False
     end)
  /\ (forall desc : TextureDescriptor,
        match DXGetTextureUsage cpuAccessBit TextureDescriptor
                texture_cpuAccessFlags desc with
        | D3D11_USAGE_STAGING =>
            has_flag (DXGetCPUAccessFlags cpuAccessBit (texture_cpuAccessFlags desc))
              D3D11_CPU_ACCESS_READ = true
        | D3D11_USAGE_DYNAMIC =>
            DXGetCPUAccessFlags cpuAccessBit (texture_cpuAccessFlags desc)
            = D3D11_CPU_ACCESS_WRITE
        | D3D11_USAGE_DEFAULT =>
            DXGetCPUAccessFlags cpuAccessBit (texture_cpuAccessFlags desc) = 0
        | D3D11_USAGE_IMMUTABLE => False
        end).
Proof.
  split; intros desc.
  - unfold DXGetCPUAccessBufferUsage, DXGetCPUAccessFlags.
    destruct (has_flag (buffer_cpuAccessFlags desc) (CPUAccessFlags cpuAccessBit Read)),
             (has_flag (buffer_cpuAccessFlags desc) (CPUAccessFlags cpuAccessBit Write));
      reflexivity.
  - unfold DXGetTextureUsage, DXGetCPUAccessFlags.
    destruct (has_flag (texture_cpuAccessFlags desc) (CPUAccessFlags cpuAccessBit Read)),
             (has_flag (texture_cpuAccessFlags desc) (CPUAccessFlags cpuAccessBit Write));
      reflexivity.
Qed.

#[local] Abbreviation BufferMiscFlags :=
  (DXGetBufferMiscFlags bindBit BufferDescriptor buffer_bindFlags
     StorageBufferType buffer_storageType IsStructuredBuffer
     IsByteAddressBuffer).

(** X5.  The misc flags of a buffer: the structured and the raw-view flag
    are never set together, and either needs the buffer to be sampled or
    read-write storage; structured wins when the storage type is both; the
    indirect-arguments flag is set exactly for an indirect buffer. *)
Theorem buffer_misc_flags_bits (desc : BufferDescriptor) :
  has_flag (BufferMiscFlags desc) D3D11_RESOURCE_MISC_BUFFER_STRUCTURED
  = (set_in (buffer_bindFlags desc) SampleBuffer
     || set_in (buffer_bindFlags desc) RWStorageBuffer)
    && IsStructuredBuffer (buffer_storageType desc)
  /\ has_flag (BufferMiscFlags desc) D3D11_RESOURCE_MISC_BUFFER_ALLOW_RAW_VIEWS
     = (set_in (buffer_bindFlags desc) SampleBuffer
        || set_in (buffer_bindFlags desc) RWStorageBuffer)
       && negb (IsStructuredBuffer (buffer_storageType desc))
       && IsByteAddressBuffer (buffer_storageType desc)
  /\ has_flag (BufferMiscFlags desc) D3D11_RESOURCE_MISC_DRAWINDIRECT_ARGS
     = set_in (buffer_bindFlags desc) IndirectBuffer
  /\ has_flag (BufferMiscFlags desc) D3D11_RESOURCE_MISC_BUFFER_STRUCTURED
     && has_flag (BufferMiscFlags desc) D3D11_RESOURCE_MISC_BUFFER_ALLOW_RAW_VIEWS
     = false.
Proof.
  unfold DXGetBufferMiscFlags. rewrite has_flag_lor, !has_bind.
  destruct (set_in (buffer_bindFlags desc) IndirectBuffer),
           (set_in (buffer_bindFlags desc) SampleBuffer),
           (set_in (buffer_bindFlags desc) RWStorageBuffer),
           (IsStructuredBuffer (buffer_storageType desc)),
           (IsByteAddressBuffer (buffer_storageType desc));
    repeat split; reflexivity.
Qed.

End Flags.

Lemma generate_mips_needs_render_target_and_shader_resource_witness :
  has_flag
    (DXGetTextureBindFlags sample_bindBit bool (fun _ => 0) (fun m => m) true)
    D3D11_BIND_RENDER_TARGET = true
  /\ has_flag
       (DXGetTextureBindFlags sample_bindBit bool (fun _ => 0) (fun m => m) true)
       D3D11_BIND_SHADER_RESOURCE = true
  /\ has_flag
       (DXGetTextureBindFlags sample_bindBit bool (fun _ => 0) (fun m => m) true)
       D3D11_BIND_DEPTH_STENCIL = false.
Proof.
  apply (generate_mips_needs_render_target_and_shader_resource sample_bindBit
           unit bool (fun _ => tt) (fun _ => 0) (fun m => m) (fun _ => false) true).
  reflexivity.
Defined.

End ResourceFlagsMore.

(* ===================================================================== *)
(** ** Capabilities, the selected level and the fence (D3D12RenderSystem.cpp) *)
(* ===================================================================== *)

Module D3D12More.
Import Machine Cxx D3D12.

Lemma In_GetFeatureLevels l : In l GetFeatureLevels.
Proof. destruct l; cbn; tauto. Qed.

(** X6.  A device of a higher feature level has every capability of a
    device of a lower one: each feature flag that is set stays set, no
    limit gets smaller, and the shading language is not older. *)
Theorem capabilities_grow_with_level (lower higher : D3D12RenderSystem) :
  level_value (featureLevel_ lower) <= level_value (featureLevel_ higher) ->
  caps_at_least (QueryRenderingCaps higher) (QueryRenderingCaps lower)
  /\ ShadingLanguage_rank (QueryShadingLanguage lower)
     <= ShadingLanguage_rank (QueryShadingLanguage higher).
Proof.
  unfold caps_at_least, QueryRenderingCaps, QueryShadingLanguage.
  destruct (featureLevel_ lower), (featureLevel_ higher); cbn; intros H;
    try (exfalso; lia);
    repeat split; try (intros; assumption); try lia; try discriminate.
Qed.

Lemma capabilities_grow_with_level_witness :
  caps_at_least
    (QueryRenderingCaps (mkD3D12RenderSystem None D3D_FEATURE_LEVEL_11_0 []))
    (QueryRenderingCaps (mkD3D12RenderSystem None D3D_FEATURE_LEVEL_9_3 []))
  /\ ShadingLanguage_rank
       (QueryShadingLanguage (mkD3D12RenderSystem None D3D_FEATURE_LEVEL_9_3 []))
     <= ShadingLanguage_rank
          (QueryShadingLanguage (mkD3D12RenderSystem None D3D_FEATURE_LEVEL_11_0 [])).
Proof.
  apply (capabilities_grow_with_level
           (mkD3D12RenderSystem None D3D_FEATURE_LEVEL_9_3 [])
           (mkD3D12RenderSystem None D3D_FEATURE_LEVEL_11_0 [])).
  cbn. lia.
Defined.

(** X7.  The capability table of every level is consistent in itself: cube
    textures are never larger than 2D textures, cube texture arrays come
    with texture arrays, tessellation with geometry and compute shaders,
    conservative rasterization with tessellation; and the shading language
    is HLSL 5.0 exactly when tessellation shaders are there, and at least
    HLSL 4.0 exactly when geometry shaders are. *)
Theorem capabilities_consistent (self : D3D12RenderSystem) :
  maxCubeTextureSize (QueryRenderingCaps self)
  <= max2DTextureSize (QueryRenderingCaps self)
  /\ max1DTextureSize (QueryRenderingCaps self)
     = max2DTextureSize (QueryRenderingCaps self)
  /\ implb (hasCubeTextureArrays (QueryRenderingCaps self))
           (hasTextureArrays (QueryRenderingCaps self)) = true
  /\ implb (hasTessellationShaders (QueryRenderingCaps self))
           (hasGeometryShaders (QueryRenderingCaps self)
            && hasComputeShaders (QueryRenderingCaps self)) = true
  /\ implb (hasConservativeRasterization (QueryRenderingCaps self))
           (hasTessellationShaders (QueryRenderingCaps self)) = true
  /\ implb (hasTextureArrays (QueryRenderingCaps self))
           (hasSamplers (QueryRenderingCaps self)
            && hasInstancing (QueryRenderingCaps self)) = true
  /\ (ShadingLanguage_rank (QueryShadingLanguage self) =? 5)
     = hasTessellationShaders (QueryRenderingCaps self)
  /\ (3 <=? ShadingLanguage_rank (QueryShadingLanguage self))
     = hasGeometryShaders (QueryRenderingCaps self)
  /\ (2 <=? ShadingLanguage_rank (QueryShadingLanguage self))
     = hasSamplers (QueryRenderingCaps self).
Proof.
  unfold QueryRenderingCaps, QueryShadingLanguage.
  destruct (featureLevel_ self); cbn; repeat split; try lia; reflexivity.
Qed.

Section Device.

Variable D3D12CreateDevice :
  IDXGIAdapter_ptr -> D3D_FEATURE_LEVEL -> HRESULT * ID3D12Device_ptr.
Variable EnumWarpAdapter : IDXGIAdapter_ptr.

#[local] Abbreviation succeeds' := (succeeds D3D12CreateDevice).

(** The first level of the list that succeeds is the highest that does. *)
Lemma first_success_is_highest adapter level failed rest :
  GetFeatureLevels = failed ++ level :: rest ->
  forallb (fun l => negb (succeeds' adapter l)) failed = true ->
  forall l, level_value level < level_value l -> succeeds' adapter l = false.
Proof.
  intros Hsplit Hfailed l Hhigher.
  pose proof (In_GetFeatureLevels l) as Hin.
  rewrite Hsplit in Hin. apply in_app_or in Hin.
  destruct Hin as [Hin|[->|Hin]].
  - rewrite forallb_forall in Hfailed. specialize (Hfailed l Hin).
    apply negb_true_iff in Hfailed. exact Hfailed.
  - lia.
  - pose proof (D3D12Facts.GetFeatureLevels_descending failed level rest l Hsplit Hin).
    lia.
Qed.

(** X8.  A device that has been created is the one the successful call
    stored, at the highest level its adapter supports: the recorded level
    succeeds on that adapter and every higher level fails on it.  The
    adapter is the hardware adapter, or the software adapter when no level
    at all succeeds on hardware. *)
Theorem created_device_has_highest_level (self created : D3D12RenderSystem) :
  CreateDevice D3D12CreateDevice EnumWarpAdapter self = Val created ->
  exists adapter,
    (adapter = None
     \/ (adapter = EnumWarpAdapter /\ forall l, succeeds' None l = false))
    /\ succeeds' adapter (featureLevel_ created) = true
    /\ (forall l, level_value (featureLevel_ created) < level_value l ->
                  succeeds' adapter l = false)
    /\ device_ created = snd (D3D12CreateDevice adapter (featureLevel_ created)).
Proof.
  unfold CreateDevice.
  pose proof (D3D12Facts.CreateDevice_with_spec D3D12CreateDevice
                None GetFeatureLevels 0 self) as Hhw.
  destruct (find (succeeds' None) GetFeatureLevels) as [level|] eqn:Efind.
  - destruct Hhw as (failed & rest & Hsplit & Hfailed & ->).
    cbn [negb]. intros Hval. inversion Hval; subst created; clear Hval.
    exists None. cbn [featureLevel_ device_].
    split; [left; reflexivity|].
    split; [apply (find_some _ _ Efind)|].
    split; [exact (first_success_is_highest None level failed rest Hsplit Hfailed)
           | reflexivity].
  - destruct Hhw as (hr1 & dev1 & -> & _ & _).
    cbn [negb calls device_ featureLevel_].
    pose proof (D3D12Facts.CreateDevice_with_spec D3D12CreateDevice
                  EnumWarpAdapter GetFeatureLevels hr1
                  (mkD3D12RenderSystem dev1 (featureLevel_ self)
                     ((calls self ++ attempts None GetFeatureLevels)
                      ++ [CallEnumWarpAdapter]))) as Hsw.
    destruct (find (succeeds' EnumWarpAdapter) GetFeatureLevels)
      as [level|] eqn:Efind2.
    + destruct Hsw as (failed & rest & Hsplit & Hfailed & ->).
      cbn [negb]. intros Hval. inversion Hval; subst created; clear Hval.
      exists EnumWarpAdapter. cbn [featureLevel_ device_].
      split.
      { right. split; [reflexivity|]. intros l.
        pose proof (find_none _ _ Efind l (In_GetFeatureLevels l)) as Hnone.
        exact Hnone. }
      split; [apply (find_some _ _ Efind2)|].
      split; [exact (first_success_is_highest EnumWarpAdapter level failed rest
                       Hsplit Hfailed)
             | reflexivity].
    + destruct Hsw as (hr2 & dev2 & -> & Hfail & _). cbn [negb].
      unfold DXThrowIfFailed. rewrite Hfail by discriminate.
      intros Hval. discriminate Hval.
Qed.

End Device.

Lemma created_device_has_highest_level_witness :
  exists adapter,
    (adapter = None
     \/ (adapter = warp_adapter
         /\ forall l, succeeds (machine None (Some D3D_FEATURE_LEVEL_10_1)) None l
                      = false))
    /\ succeeds (machine None (Some D3D_FEATURE_LEVEL_10_1)) adapter
         D3D_FEATURE_LEVEL_10_1 = true
    /\ (forall l, level_value D3D_FEATURE_LEVEL_10_1 < level_value l ->
                  succeeds (machine None (Some D3D_FEATURE_LEVEL_10_1)) adapter l
                  = false)
    /\ Some 7%nat
       = snd (machine None (Some D3D_FEATURE_LEVEL_10_1) adapter
                D3D_FEATURE_LEVEL_10_1).
Proof.
  apply (created_device_has_highest_level
           (machine None (Some D3D_FEATURE_LEVEL_10_1)) warp_adapter
           D3D12RenderSystem_initial
           (mkD3D12RenderSystem (Some 7%nat) D3D_FEATURE_LEVEL_10_1
              (attempts None GetFeatureLevels
               ++ [CallEnumWarpAdapter]
               ++ attempts warp_adapter
                    [D3D_FEATURE_LEVEL_12_1; D3D_FEATURE_LEVEL_12_0;
                     D3D_FEATURE_LEVEL_11_1; D3D_FEATURE_LEVEL_11_0;
                     D3D_FEATURE_LEVEL_10_1]))).
  vm_compute. reflexivity.
Defined.

(** *** The fence *)

Section Fence.

Variable queue_Signal : nat -> Z -> HRESULT.
Variable fence_SetEventOnCompletion : nat -> Z -> HRESULT.

#[local] Abbreviation SyncGPU' :=
  (SyncGPU queue_Signal fence_SetEventOnCompletion).
#[local] Abbreviation SyncGPU_times' :=
  (SyncGPU_times queue_Signal fence_SetEventOnCompletion).

(** One synchronization, by the answers of the two calls. *)
Lemma SyncGPU_once made v :
  0 <= v < UINT64_MAX ->
  SyncGPU' made v
  = if FAILED (queue_Signal (List.length made) v)
    then (Throw "failed to signal D3D12 fence into command queue", v,
          made ++ [CallSignal v])
    else if FAILED (fence_SetEventOnCompletion (S (List.length made)) v)
    then (Throw "failed to set 'on completion'-event for D3D12 fence", v,
          made ++ [CallSignal v; CallSetEventOnCompletion v])
    else (Val tt, v + 1, made ++ sync_calls v 1).
Proof.
  intros Hv. unfold SyncGPU.
  rewrite length_app. cbn [List.length]. rewrite Nat.add_1_r.
  destruct (FAILED (queue_Signal (List.length made) v)); [reflexivity|].
  destruct (FAILED (fence_SetEventOnCompletion (S (List.length made)) v)).
  - rewrite <- app_assoc. reflexivity.
  - rewrite <- !app_assoc. cbn [app sync_calls].
    unfold to_uint64, UINT64_MAX in *. rewrite Z.mod_small by lia. reflexivity.
Qed.

Lemma sync_calls_S v n :
  sync_calls v (S n) = sync_calls v 1 ++ sync_calls (v + 1) n.
Proof. reflexivity. Qed.

Lemma sync_calls_length v n : List.length (sync_calls v n) = (3 * n)%nat.
Proof.
  revert v. induction n as [|n IH]; intros v; [reflexivity|].
  cbn [sync_calls List.length]. rewrite IH. lia.
Qed.

(** X9.  Synchronizing [n] times in a row from the fence value [v], short
    of the end of the 64-bit range.  When all calls return, the calls made
    are, for each of the values [v, v+1, ..., v+n-1] in this order, the
    signal of that value, the registration of the completion event for that
    same value, and the wait; the fence value is [v+n].  When a call throws,
    after [k] calls that returned, the calls made are these complete rounds
    for [v, ..., v+k-1] and then either the signal of [v+k] alone, which
    failed, or the signal of [v+k], which succeeded, and the registration
    for [v+k], which failed; there is no wait for [v+k], and the fence value
    is still [v+k]. *)
Theorem SyncGPU_counts_up (n : nat) (made : list FenceCall) (v : Z) :
  0 <= v -> v + Z.of_nat n <= UINT64_MAX ->
  match SyncGPU_times' n made v with
  | (Val _, fenceValue, calls) =>
      fenceValue = v + Z.of_nat n
      /\ calls = made ++ sync_calls v n
  | (Throw what, fenceValue, calls) =>
      exists k,
        (k < n)%nat
        /\ fenceValue = v + Z.of_nat k
        /\ ((what = "failed to signal D3D12 fence into command queue"%string
             /\ FAILED (queue_Signal (List.length made + 3 * k) (v + Z.of_nat k))
                = true
             /\ calls
                = made ++ sync_calls v k ++ [CallSignal (v + Z.of_nat k)])
            \/ (what = "failed to set 'on completion'-event for D3D12 fence"%string
                /\ FAILED (queue_Signal (List.length made + 3 * k)
                             (v + Z.of_nat k))
                   = false
                /\ FAILED (fence_SetEventOnCompletion
                             (S (List.length made + 3 * k)) (v + Z.of_nat k))
                   = true
                /\ calls
                   = made ++ sync_calls v k
                     ++ [CallSignal (v + Z.of_nat k);
                         CallSetEventOnCompletion (v + Z.of_nat k)]))
  end.
Proof.
  revert made v. induction n as [|n IH]; intros made v Hv Hmax.
  - cbn. rewrite app_nil_r, Z.add_0_r. split; reflexivity.
  - cbn [SyncGPU_times].
    rewrite SyncGPU_once by (unfold UINT64_MAX in *; lia).
    destruct (FAILED (queue_Signal (List.length made) v)) eqn:Esignal.
    { exists 0%nat. rewrite Nat.mul_0_r, Nat.add_0_r, Z.add_0_r.
      split; [lia|]. split; [reflexivity|]. left.
      split; [reflexivity|]. split; [exact Esignal | reflexivity]. }
    destruct (FAILED (fence_SetEventOnCompletion (S (List.length made)) v))
      eqn:Eevent.
    { exists 0%nat. rewrite Nat.mul_0_r, Nat.add_0_r, Z.add_0_r.
      split; [lia|]. split; [reflexivity|]. right.
      split; [reflexivity|]. split; [exact Esignal|].
      split; [exact Eevent | reflexivity]. }
    specialize (IH (made ++ sync_calls v 1) (v + 1)).
    destruct (SyncGPU_times' n (made ++ sync_calls v 1) (v + 1))
      as [[[[]|what] fenceValue] calls].
    + destruct IH as (-> & ->); [lia|lia|].
      split; [lia|]. rewrite (sync_calls_S v n), app_assoc. reflexivity.
    + destruct IH as (k & Hk & -> & Hcalls); [lia|lia|].
      exists (S k). split; [lia|]. split; [lia|].
      rewrite length_app, sync_calls_length in Hcalls.
      replace (List.length made + 3 * 1 + 3 * k)%nat
        with (List.length made + 3 * S k)%nat in Hcalls by lia.
      replace (v + 1 + Z.of_nat k) with (v + Z.of_nat (S k)) in Hcalls by lia.
      rewrite (sync_calls_S v k), <- !app_assoc.
      rewrite <- !app_assoc in Hcalls.
      destruct Hcalls as [(-> & Hs & ->) | (-> & Hs & He & ->)].
      * left. split; [reflexivity|]. split; [exact Hs | reflexivity].
      * right. split; [reflexivity|]. split; [exact Hs|].
        split; [exact He | reflexivity].
Qed.

End Fence.

Lemma SyncGPU_counts_up_witness :
  SyncGPU_times (fun _ _ => S_OK) (fun _ _ => S_OK) 2 [] 5
  = (Val tt, 7,
     [CallSignal 5; CallSetEventOnCompletion 5; CallWaitForSingleObjectEx;
      CallSignal 6; CallSetEventOnCompletion 6; CallWaitForSingleObjectEx]).
Proof.
  pose proof (SyncGPU_counts_up (fun _ _ => S_OK) (fun _ _ => S_OK) 2 [] 5)
    as Hsync.
  destruct (SyncGPU_times (fun _ _ => S_OK) (fun _ _ => S_OK) 2 [] 5)
    as [[[[]|what] fenceValue] calls] eqn:Erun.
  - destruct Hsync as (-> & ->); [lia | vm_compute; discriminate | reflexivity].
  - vm_compute in Erun. discriminate Erun.
Defined.

End D3D12More.

(* ===================================================================== *)
(** ** More on textures (D3D11RenderSystem_Textures.cpp) *)
(* ===================================================================== *)

Module TexturesMore.
Import Machine Cxx D3D11 D3D11Textures MachineFacts.

#[local] Arguments to_uint : simpl never.
#[local] Arguments to_int : simpl never.

Create Rewrite HintDb convert.
#[local] Hint Rewrite to_int_to_uint to_uint_to_int to_uint_idem to_int_idem
  : convert.

Section RenderSystem.

Variable Map : TextureFormat -> DXGI_FORMAT.
Variable Unmap : DXGI_FORMAT -> TextureFormat.
Variable device_CreateTexture1D : D3D11_TEXTURE1D_DESC -> bool.
Variable device_CreateTexture2D : D3D11_TEXTURE2D_DESC -> bool.
Variable device_CreateTexture3D : D3D11_TEXTURE3D_DESC -> bool.

#[local] Abbreviation CreateTexture' :=
  (CreateTexture Map device_CreateTexture1D device_CreateTexture2D
     device_CreateTexture3D).

(** A creation that succeeds, spelled out: the texture and the calls. *)
Lemma CreateTexture_succeeds desc imageDesc texture calls :
  CreateTexture' desc imageDesc = (Val texture, calls) ->
  exists creation hw,
    texture = mkD3D11Texture (type desc) (Some hw)
    /\ calls
       = creation
         :: match imageDesc with
            | Some image =>
                [CallUpdateSubresource 0 0
                   (match type desc with
                    | Texture1D | Texture1DArray =>
                        CD3D11_BOX 0 0 0
                          (texture1DDesc_width (CreateTexture_layers desc))
                          (to_int (texture1DDesc_layers (CreateTexture_layers desc)))
                          1
                    | Texture3D =>
                        CD3D11_BOX 0 0 0
                          (texture3DDesc_width (CreateTexture_layers desc))
                          (texture3DDesc_height (CreateTexture_layers desc))
                          (texture3DDesc_depth (CreateTexture_layers desc))
                    | _ =>
                        CD3D11_BOX 0 0 0
                          (texture2DDesc_width (CreateTexture_layers desc))
                          (texture2DDesc_height (CreateTexture_layers desc))
                          (to_int (texture2DDesc_layers (CreateTexture_layers desc)))
                    end)
                   image]
            | None => []
            end
    /\ match type desc with
       | Texture1D | Texture1DArray =>
           exists d, creation = CallCreateTexture1D d /\ hw = HwTexture1D d
             /\ Width1D d = to_uint (texture1DDesc_width (CreateTexture_layers desc))
             /\ ArraySize1D d = texture1DDesc_layers (CreateTexture_layers desc)
             /\ Format1D d = Map (format desc)
             /\ MiscFlags1D d = D3D11_RESOURCE_MISC_GENERATE_MIPS
             /\ MipLevels1D d = 0
       | Texture3D =>
           exists d, creation = CallCreateTexture3D d /\ hw = HwTexture3D d
             /\ Width3D d = to_uint (texture3DDesc_width (CreateTexture_layers desc))
             /\ Height3D d = to_uint (texture3DDesc_height (CreateTexture_layers desc))
             /\ Depth3D d = to_uint (texture3DDesc_depth (CreateTexture_layers desc))
             /\ Format3D d = Map (format desc)
             /\ MiscFlags3D d = D3D11_RESOURCE_MISC_GENERATE_MIPS
             /\ MipLevels3D d = 0
       | TextureTypeOther => False
       | _ =>
           exists d, creation = CallCreateTexture2D d /\ hw = HwTexture2D d
             /\ Width2D d = to_uint (texture2DDesc_width (CreateTexture_layers desc))
             /\ Height2D d = to_uint (texture2DDesc_height (CreateTexture_layers desc))
             /\ ArraySize2D d = texture2DDesc_layers (CreateTexture_layers desc)
             /\ Format2D d = Map (format desc)
             /\ MiscFlags2D d
                = (if is_cube_kind (type desc)
                   then Z.lor D3D11_RESOURCE_MISC_GENERATE_MIPS
                              D3D11_RESOURCE_MISC_TEXTURECUBE
                   else D3D11_RESOURCE_MISC_GENERATE_MIPS)
             /\ MipLevels2D d = 0
       end.
Proof.
  unfold CreateTexture.
  rewrite TexturesFacts.CreateTexture_layers_type.
  assert (Hfmt : format (CreateTexture_layers desc) = format desc).
  { unfold CreateTexture_layers. destruct (type desc); reflexivity. }
  destruct (type desc) eqn:Ety;
    unfold BuildGenericTexture1D, BuildGenericTexture2D, BuildGenericTexture3D,
      CreateTexture1D, CreateTexture2D, CreateTexture3D, UpdateSubresource;
    try (destruct (device_CreateTexture1D _));
    try (destruct (device_CreateTexture2D _));
    try (destruct (device_CreateTexture3D _));
    destruct imageDesc; cbn; intros H; inversion H; subst; clear H;
    eexists; eexists;
    (split; [reflexivity|]); (split; [reflexivity|]);
    eexists; rewrite <- Hfmt; repeat split.
Qed.

(** X10.  Querying a texture that [CreateTexture] has just made gives the
    request back: the kind, the format (mapped to the native format and
    back), the extents, and the layer count of an array; one layer for a
    plain 1D, 2D or cube texture, the native array size divided by six for
    a cube array. *)
Theorem query_after_create_returns_request desc imageDesc texDesc texture calls :
  CreateTexture' desc imageDesc = (Val texture, calls) ->
  exists queried,
    QueryTextureDescriptor Unmap texDesc texture = Some queried
    /\ type queried = type desc
    /\ format queried = Unmap (Map (format desc))
    /\ match type desc with
       | Texture1D =>
           texture1DDesc_width queried = texture1DDesc_width desc
           /\ texture1DDesc_layers queried = 1
       | Texture1DArray =>
           texture1DDesc_width queried = texture1DDesc_width desc
           /\ texture1DDesc_layers queried = texture1DDesc_layers desc
       | Texture2D =>
           texture2DDesc_width queried = texture2DDesc_width desc
           /\ texture2DDesc_height queried = texture2DDesc_height desc
           /\ texture2DDesc_layers queried = 1
       | Texture2DArray =>
           texture2DDesc_width queried = texture2DDesc_width desc
           /\ texture2DDesc_height queried = texture2DDesc_height desc
           /\ texture2DDesc_layers queried = texture2DDesc_layers desc
       | Texture3D =>
           texture3DDesc_width queried = texture3DDesc_width desc
           /\ texture3DDesc_height queried = texture3DDesc_height desc
           /\ texture3DDesc_depth queried = texture3DDesc_depth desc
       | TextureCube =>
           textureCubeDesc_width queried = textureCubeDesc_width desc
           /\ textureCubeDesc_height queried = textureCubeDesc_height desc
           /\ textureCubeDesc_layers queried = 1
       | TextureCubeArray =>
           textureCubeDesc_width queried = textureCubeDesc_width desc
           /\ textureCubeDesc_height queried = textureCubeDesc_height desc
           /\ textureCubeDesc_layers queried
              = to_uint (textureCubeDesc_layers desc * 6) / 6
       | TextureTypeOther => False
       end.
Proof.
  intros Hcreate.
  destruct (CreateTexture_succeeds _ _ _ _ Hcreate)
    as (creation & hw & -> & _ & Hkind).
  clear Hcreate.
  destruct desc as [ty f w0 w1 w2]. cbn [type format] in *.
  destruct ty; try contradiction;
    destruct Hkind as (d & _ & -> & Hd);
    unfold QueryTextureDescriptor; cbn [GetHardwareTexture GetType];
    eexists; (split; [reflexivity|]).
  all: unfold CreateTexture_layers in Hd; cbn [type] in Hd.
  all: unfold set_texture1DDesc_layers, set_texture2DDesc_layers,
         set_textureCubeDesc_layers, set_word1, set_word2,
         texture1DDesc_width, texture1DDesc_layers,
         texture2DDesc_width, texture2DDesc_height, texture2DDesc_layers,
         texture3DDesc_width, texture3DDesc_height, texture3DDesc_depth,
         textureCubeDesc_width, textureCubeDesc_height, textureCubeDesc_layers
       in *.
  all: cbn [type format word0 word1 word2] in Hd.
  all: cbn.
  all: repeat match goal with H : _ /\ _ |- _ => destruct H as [? ?] end.
  all: repeat match goal with H : _ = _ |- _ => rewrite H; clear H end.
  all: autorewrite with convert.
  all: change (to_uint 1) with 1; change (to_uint 6) with 6;
       change (6 / 6) with 1; change (to_uint 1) with 1.
  all: repeat split.
  pose proof (to_uint_range (to_uint w2 * 6)) as Hr.
  apply to_uint_small. unfold UINT_MAX in *. split.
  - apply Z.div_pos; lia.
  - apply Z.le_trans with (to_uint (to_uint w2 * 6)); [|lia].
    apply Z.div_le_upper_bound; lia.
Qed.

(** X11.  A successful [CreateTexture] makes the creation call and then,
    only if image data was given, one update of MIP level 0 whose box
    starts at the origin and spans the whole texture: width x 1 x 1 for a
    1D texture, the layers of a 1D array along y, width x height x layers
    for the 2D kinds with one layer for a plain 2D texture, six for a cube
    and six per cube (as an unsigned 32-bit product) for a cube array, and
    width x height x depth for a 3D texture. *)
Theorem CreateTexture_uploads_whole_texture desc imageDesc texture calls :
  CreateTexture' desc imageDesc = (Val texture, calls) ->
  exists creation,
    native_desc_flags creation <> None
    /\ calls
       = creation
         :: match imageDesc with
            | None => []
            | Some image =>
                [CallUpdateSubresource 0 0
                   (match type desc with
                    | Texture1D =>
                        CD3D11_BOX 0 0 0 (texture1DDesc_width desc) 1 1
                    | Texture1DArray =>
                        CD3D11_BOX 0 0 0 (texture1DDesc_width desc)
                          (to_int (texture1DDesc_layers desc)) 1
                    | Texture2D =>
                        CD3D11_BOX 0 0 0 (texture2DDesc_width desc)
                          (texture2DDesc_height desc) 1
                    | Texture2DArray =>
                        CD3D11_BOX 0 0 0 (texture2DDesc_width desc)
                          (texture2DDesc_height desc)
                          (to_int (texture2DDesc_layers desc))
                    | Texture3D =>
                        CD3D11_BOX 0 0 0 (texture3DDesc_width desc)
                          (texture3DDesc_height desc) (texture3DDesc_depth desc)
                    | TextureCube =>
                        CD3D11_BOX 0 0 0 (textureCubeDesc_width desc)
                          (textureCubeDesc_height desc) 6
                    | TextureCubeArray =>
                        CD3D11_BOX 0 0 0 (textureCubeDesc_width desc)
                          (textureCubeDesc_height desc)
                          (to_int (textureCubeDesc_layers desc * 6))
                    | TextureTypeOther => CD3D11_BOX 0 0 0 0 0 0
                    end)
                   image]
            end.
Proof.
  intros Hcreate.
  destruct (CreateTexture_succeeds _ _ _ _ Hcreate)
    as (creation & hw & _ & -> & Hkind).
  clear Hcreate. exists creation.
  destruct desc as [ty f w0 w1 w2]. cbn [type] in *.
  split.
  - destruct ty; try contradiction;
      destruct Hkind as (d & -> & _); discriminate.
  - f_equal. destruct imageDesc as [image|]; [|reflexivity].
    f_equal. f_equal.
    destruct ty; try contradiction;
      unfold CreateTexture_layers; cbn [type];
      unfold set_texture1DDesc_layers, set_texture2DDesc_layers,
        set_textureCubeDesc_layers, set_word1, set_word2,
        texture1DDesc_width, texture1DDesc_layers,
        texture2DDesc_width, texture2DDesc_height, texture2DDesc_layers,
        texture3DDesc_width, texture3DDesc_height, texture3DDesc_depth,
        textureCubeDesc_width, textureCubeDesc_height, textureCubeDesc_layers;
      cbn [type format word0 word1 word2];
      autorewrite with convert; reflexivity.
Qed.

(** X12.  Every creation call [CreateTexture] makes, accepted by the device
    or not, asks for default usage without CPU access, binds the texture
    as shader resource and as render target, and sets the
    generate-mips flag, which Direct3D 11 only accepts together with these
    two bind flags; the texture-cube flag is set for the cube kinds and no
    other.  The call creates a 1D resource for the 1D kinds, a 3D resource
    for a 3D texture and a 2D resource for the 2D and the cube kinds. *)
Theorem CreateTexture_native_descriptor desc imageDesc c usage bindFlags cpuAccess miscFlags :
  In c (snd (CreateTexture' desc imageDesc)) ->
  native_desc_flags c = Some (usage, bindFlags, cpuAccess, miscFlags) ->
  usage = D3D11_USAGE_DEFAULT
  /\ cpuAccess = 0
  /\ has_flag bindFlags D3D11_BIND_SHADER_RESOURCE = true
  /\ has_flag bindFlags D3D11_BIND_RENDER_TARGET = true
  /\ has_flag miscFlags D3D11_RESOURCE_MISC_GENERATE_MIPS = true
  /\ has_flag miscFlags D3D11_RESOURCE_MISC_TEXTURECUBE = is_cube_kind (type desc)
  /\ native_dimension c
     = match type desc with
       | Texture1D | Texture1DArray => Some 1
       | Texture3D => Some 3
       | _ => Some 2
       end.
Proof.
  unfold CreateTexture.
  rewrite TexturesFacts.CreateTexture_layers_type.
  destruct (type desc) eqn:Ety;
    unfold BuildGenericTexture1D, BuildGenericTexture2D, BuildGenericTexture3D,
      CreateTexture1D, CreateTexture2D, CreateTexture3D, UpdateSubresource;
    try (destruct (device_CreateTexture1D _));
    try (destruct (device_CreateTexture2D _));
    try (destruct (device_CreateTexture3D _));
    destruct imageDesc; cbn [bind call ret throw snd fst app In];
    intros Hin Hflags;
    repeat match goal with
           | H : _ \/ _ |- _ => destruct H as [H|H]
           | H : False |- _ => contradiction
           end;
    subst c; cbn in Hflags; try discriminate;
    inversion Hflags; subst; clear Hflags;
    repeat split; reflexivity.
Qed.

(** X13.  [CreateTexture] makes no native call exactly when the texture
    kind is none of the seven kinds, and then it leaves by the
    invalid-argument exception. *)
Theorem invalid_kind_creates_nothing desc imageDesc :
  (snd (CreateTexture Map device_CreateTexture1D device_CreateTexture2D
          device_CreateTexture3D desc imageDesc) = []
   <-> type desc = TextureTypeOther)
  /\ (type desc = TextureTypeOther ->
      fst (CreateTexture Map device_CreateTexture1D device_CreateTexture2D
             device_CreateTexture3D desc imageDesc)
      = Throw "failed to create texture with invalid texture type").
Proof.
  unfold CreateTexture.
  rewrite TexturesFacts.CreateTexture_layers_type.
  destruct (type desc) eqn:Ety;
    unfold BuildGenericTexture1D, BuildGenericTexture2D, BuildGenericTexture3D,
      CreateTexture1D, CreateTexture2D, CreateTexture3D, UpdateSubresource;
    try (destruct (device_CreateTexture1D _));
    try (destruct (device_CreateTexture2D _));
    try (destruct (device_CreateTexture3D _));
    destruct imageDesc; cbn [bind call ret throw snd fst app];
    (split; [split|]); intros; try discriminate; reflexivity.
Qed.

(** C9.  Every texture that [CreateTexture] creates has the full mip chain:
    the builders hand [MipLevels = 0] to the native creation call for every
    descriptor, together with the extents of the request, so the effective
    length of the chain is [floor(log2(max(width,height,depth))) + 1] of the
    requested extents, an axis the kind does not have counting as 1.  The
    extents of the request are not negative. *)
Theorem CreateTexture_full_mip_chain desc imageDesc texture calls :
  CreateTexture' desc imageDesc = (Val texture, calls) ->
  match type desc with
  | Texture1D | Texture1DArray => 0 <= texture1DDesc_width desc
  | Texture2D | Texture2DArray =>
      0 <= texture2DDesc_width desc /\ 0 <= texture2DDesc_height desc
  | TextureCube | TextureCubeArray =>
      0 <= textureCubeDesc_width desc /\ 0 <= textureCubeDesc_height desc
  | Texture3D =>
      0 <= texture3DDesc_width desc /\ 0 <= texture3DDesc_height desc
      /\ 0 <= texture3DDesc_depth desc
  | TextureTypeOther => True
  end ->
  exists hw,
    GetHardwareTexture texture = Some hw
    /\ requested_MipLevels (CreateTexture' desc imageDesc) = Some 0
    /\ effective_MipLevels hw
       = match type desc with
         | Texture1D | Texture1DArray =>
             spec_mip_chain_length (texture1DDesc_width desc) 1 1
         | Texture2D | Texture2DArray =>
             spec_mip_chain_length (texture2DDesc_width desc)
               (texture2DDesc_height desc) 1
         | TextureCube | TextureCubeArray =>
             spec_mip_chain_length (textureCubeDesc_width desc)
               (textureCubeDesc_height desc) 1
         | Texture3D =>
             spec_mip_chain_length (texture3DDesc_width desc)
               (texture3DDesc_height desc) (texture3DDesc_depth desc)
         | TextureTypeOther => 0
         end.
Proof.
  intros Hcreate Hextents.
  destruct (CreateTexture_succeeds _ _ _ _ Hcreate)
    as (creation & hw & -> & _ & Hkind).
  exists hw. split; [reflexivity|].
  split.
  { rewrite TexturesFacts.CreateTexture_requests_zero_mip_levels.
    destruct (type desc); try reflexivity. contradiction. }
  clear Hcreate.
  assert (Hsmall : forall w, 0 <= to_int w -> to_uint (to_int w) = to_int w).
  { intros w Hw. apply to_uint_small.
    pose proof (to_int_range w). unfold INT_MAX, UINT_MAX in *. lia. }
  destruct desc as [ty f w0 w1 w2]. cbn [type] in *.
  destruct ty; try contradiction;
    destruct Hkind as (d & _ & -> & Hd);
    unfold CreateTexture_layers in Hd; cbn [type] in Hd;
    unfold set_texture1DDesc_layers, set_texture2DDesc_layers,
      set_textureCubeDesc_layers, set_word1, set_word2,
      texture1DDesc_width, texture1DDesc_layers,
      texture2DDesc_width, texture2DDesc_height, texture2DDesc_layers,
      texture3DDesc_width, texture3DDesc_height, texture3DDesc_depth,
      textureCubeDesc_width, textureCubeDesc_height, textureCubeDesc_layers
    in *;
    cbn [type format word0 word1 word2] in *;
    repeat match goal with H : _ /\ _ |- _ => destruct H as [? ?] end;
    cbn [effective_MipLevels];
    repeat match goal with H : _ = _ |- _ => rewrite H; clear H end;
    cbn [Z.eqb]; rewrite ?Hsmall by assumption; reflexivity.
Qed.

End RenderSystem.

(** X14.  The box [WriteTexture] hands to the native update, for the kinds
    that are not 2D or cube arrays and coordinates that are [int] values:
    a 1D region is one texel high and deep; the layers of a 1D array lie
    along y; a 2D region is one texel deep; a 3D region is taken as given;
    a cube region is the one face at z = [cubeFaceOffset]; for no kind at
    all the box is empty at the origin. *)
Theorem WriteTexture_box_by_kind (texture : D3D11Texture)
    (sd : SubTextureDescriptor) (imageDesc : ImageDescriptor) :
  (forall x w,
     GetType texture = Texture1D ->
     sub_texture1DDesc sd = Sub1D.mk x (Sub1D.layerOffset (sub_texture1DDesc sd))
                              w (Sub1D.layers (sub_texture1DDesc sd)) ->
     box_in_int_range x 0 0 w 1 1 ->
     WriteTexture texture sd imageDesc
     = updates_box sd imageDesc (spec_box x 0 0 w 1 1))
  /\ (forall x layerOffset w layers,
     GetType texture = Texture1DArray ->
     sub_texture1DDesc sd = Sub1D.mk x layerOffset w layers ->
     box_in_int_range x layerOffset 0 w layers 1 ->
     WriteTexture texture sd imageDesc
     = updates_box sd imageDesc (spec_box x layerOffset 0 w layers 1))
  /\ (forall x y w h,
     GetType texture = Texture2D ->
     sub_texture2DDesc sd = Sub2D.mk x y (Sub2D.layerOffset (sub_texture2DDesc sd))
                              w h (Sub2D.layers (sub_texture2DDesc sd)) ->
     box_in_int_range x y 0 w h 1 ->
     WriteTexture texture sd imageDesc
     = updates_box sd imageDesc (spec_box x y 0 w h 1))
  /\ (forall x y z w h d,
     GetType texture = Texture3D ->
     sub_texture3DDesc sd = Sub3D.mk x y z w h d ->
     box_in_int_range x y z w h d ->
     WriteTexture texture sd imageDesc
     = updates_box sd imageDesc (spec_box x y z w h d))
  /\ (forall x y w h face,
     GetType texture = TextureCube ->
     sub_textureCubeDesc sd
     = SubCube.mk x y (SubCube.layerOffset (sub_textureCubeDesc sd)) w h
         (SubCube.cubeFaces (sub_textureCubeDesc sd)) face ->
     box_in_int_range x y face w h 1 ->
     WriteTexture texture sd imageDesc
     = updates_box sd imageDesc (spec_box x y face w h 1))
  /\ (GetType texture = TextureTypeOther ->
      WriteTexture texture sd imageDesc
      = updates_box sd imageDesc (CD3D11_BOX 0 0 0 0 0 0)).
Proof.
  unfold updates_box. rewrite TexturesFacts.WriteTexture_unfold.
  repeat split.
  all: intros; repeat match goal with H : GetType _ = _ |- _ => rewrite H end.
  all: cbn [WriteTexture_region vx vy vz Vector3i_default].
  all: repeat match goal with
              | H : sub_texture1DDesc _ = _ |- _ => rewrite H; clear H
              | H : sub_texture2DDesc _ = _ |- _ => rewrite H; clear H
              | H : sub_texture3DDesc _ = _ |- _ => rewrite H; clear H
              | H : sub_textureCubeDesc _ = _ |- _ => rewrite H; clear H
              end.
  all: cbn [Sub1D.x Sub1D.layerOffset Sub1D.width Sub1D.layers
            Sub2D.x Sub2D.y Sub2D.width Sub2D.height
            Sub3D.x Sub3D.y Sub3D.z Sub3D.width Sub3D.height Sub3D.depth
            SubCube.x SubCube.y SubCube.width SubCube.height
            SubCube.cubeFaceOffset].
  all: try reflexivity.
  all: match goal with
       | H : box_in_int_range _ _ _ _ _ _ |- _ =>
           destruct H as (Hx & Hy & Hz & Hw & Hh & Hd & Hxw & Hyh & Hzd)
       end.
  all: unfold int_range, spec_box in *.
  all: rewrite ?to_int_to_uint, ?to_int_small by assumption.
  all: rewrite ?int_add_exact by assumption.
  all: reflexivity.
Qed.

Lemma CreateTexture_full_mip_chain_witness :
  exists texture hw,
    fst (CreateTexture same_format accept1D accept2D accept3D square_2d None)
    = Val texture
    /\ GetHardwareTexture texture = Some hw
    /\ effective_MipLevels hw = 9.
Proof.
  eexists. 
  destruct (CreateTexture_full_mip_chain same_format accept1D accept2D accept3D
              square_2d None _ _ eq_refl)
    as (hw & Hhw & _ & Hchain).
  - cbn. unfold texture2DDesc_width, texture2DDesc_height. cbn. split; discriminate.
  - exists hw. split; [reflexivity|]. split; [exact Hhw | exact Hchain].
Defined.

Lemma query_after_create_returns_request_witness :
  exists texture,
    fst (CreateTexture same_format accept1D accept2D accept3D five_layers None)
    = Val texture
    /\ exists queried,
         QueryTextureDescriptor same_format blank texture = Some queried
         /\ texture2DDesc_width queried = 128
         /\ texture2DDesc_height queried = 64
         /\ texture2DDesc_layers queried = 5.
Proof.
  eexists. split; [reflexivity|].
  destruct (query_after_create_returns_request same_format same_format
              accept1D accept2D accept3D five_layers None blank _ _ eq_refl)
    as (queried & Hq & _ & _ & Hw & Hh & Hl).
  exists queried. repeat split; assumption.
Defined.

Lemma CreateTexture_uploads_whole_texture_witness :
  exists creation,
    snd (CreateTexture same_format accept1D accept2D accept3D five_layers (Some 7))
    = [creation; CallUpdateSubresource 0 0 (CD3D11_BOX 0 0 0 128 64 5) 7].
Proof.
  destruct (CreateTexture_uploads_whole_texture same_format
              accept1D accept2D accept3D five_layers (Some 7) _ _ eq_refl)
    as (creation & _ & Hcalls).
  exists creation. exact Hcalls.
Defined.

Lemma CreateTexture_native_descriptor_witness :
  has_flag (Z.lor D3D11_RESOURCE_MISC_GENERATE_MIPS D3D11_RESOURCE_MISC_TEXTURECUBE)
    D3D11_RESOURCE_MISC_TEXTURECUBE
  = is_cube_kind (type small_cube_array).
Proof.
  refine (proj1 (proj2 (proj2 (proj2 (proj2 (proj2
    (CreateTexture_native_descriptor same_format accept1D accept2D accept3D
       small_cube_array None _ _ _ _ _ (or_introl eq_refl) eq_refl))))))).
Defined.

Lemma WriteTexture_box_by_kind_witness :
  WriteTexture (mkD3D11Texture Texture1DArray None) layers_2_to_4 0
  = updates_box layers_2_to_4 0 (CD3D11_BOX 8 2 0 72 5 1).
Proof.
  apply (proj1 (proj2
    (WriteTexture_box_by_kind (mkD3D11Texture Texture1DArray None)
       layers_2_to_4 0)) 8 2 64 3).
  - reflexivity.
  - reflexivity.
  - unfold box_in_int_range, int_range, INT_MIN, INT_MAX. lia.
Defined.

End TexturesMore.

(* ===================================================================== *)
(** ** More on the WGL context (Win32GLContext.cpp) *)
(* ===================================================================== *)

Module Win32GLMore.
Import Machine Win32GL.

(** *** Reasoning about what holds when a member function returns *)

Lemma ensures_bind {A B} (P : State -> Prop) (m : M A) (k : A -> M B)
    (R : A -> State -> Prop) (Q : B -> State -> Prop) :
  ensures P m R -> (forall a, ensures (R a) (k a) Q) -> ensures P (bind m k) Q.
Proof.
  intros Hm Hk st HP b st'. unfold bind.
  destruct (m st) as [[a|what|why] st1] eqn:Em; try discriminate.
  intros Hrun. exact (Hk a st1 (Hm st HP a st1 Em) b st' Hrun).
Qed.

Lemma ensures_weaken {A} (P P' : State -> Prop) (m : M A)
    (Q Q' : A -> State -> Prop) :
  ensures P' m Q' ->
  (forall st, P st -> P' st) -> (forall a st, Q' a st -> Q a st) ->
  ensures P m Q.
Proof. intros Hm HP HQ st H a st' Hrun. exact (HQ _ _ (Hm st (HP st H) a st' Hrun)). Qed.

Lemma ensures_throw {A} P what (Q : A -> State -> Prop) : ensures P (throw what) Q.
Proof. intros st _ a st' H. discriminate. Qed.

Lemma ensures_stuck {A} P why (Q : A -> State -> Prop) : ensures P (stuck why) Q.
Proof. intros st _ a st' H. discriminate. Qed.

Lemma ensures_ret {A} (P : State -> Prop) (a : A) :
  ensures P (ret a) (fun r st => r = a /\ P st).
Proof. intros st HP r st' H. inversion H; subst. split; [reflexivity|assumption]. Qed.

Lemma ensures_gets {A} (P : State -> Prop) (f : State -> A) :
  ensures P (gets f) (fun r st => r = f st /\ P st).
Proof. intros st HP r st' H. inversion H; subst. split; [reflexivity|assumption]. Qed.

(** A step that always returns and leaves what [P] speaks of alone. *)
Lemma ensures_any {A} (P : State -> Prop) (m : M A) :
  (forall st, P st -> P (snd (m st))) -> ensures P m (fun _ st => P st).
Proof. intros H st HP a st' Hrun. specialize (H st HP). rewrite Hrun in H. exact H. Qed.

(** Run the steps of the monad that are at the head of the goal. *)
Ltac run_steps :=
  repeat progress
    (unfold bind, gets, native, Log, modify, ret, throw, stuck,
       set_desc, set_context, set_hasSharedContext, set_procs;
     cbn [desc_ context_ hasSharedContext_ procs log calls]).

(** *** Which steps make calls of a kind *)

Section NeverCalls.

Variable p : Call -> bool.

Lemma never_calls_ret {A} (a : A) : never_calls p (ret a).
Proof. intros st. reflexivity. Qed.

Lemma never_calls_throw {A} what : never_calls p (@throw A what).
Proof. intros st. reflexivity. Qed.

Lemma never_calls_stuck {A} why : never_calls p (@stuck A why).
Proof. intros st. reflexivity. Qed.

Lemma never_calls_gets {A} (f : State -> A) : never_calls p (gets f).
Proof. intros st. reflexivity. Qed.

Lemma never_calls_modify (f : State -> State) :
  (forall st, calls (f st) = calls st) -> never_calls p (modify f).
Proof. intros Hf st. cbn. rewrite Hf. reflexivity. Qed.

Lemma never_calls_bind {A B} (m : M A) (k : A -> M B) :
  never_calls p m -> (forall a, never_calls p (k a)) -> never_calls p (bind m k).
Proof.
  intros Hm Hk st. unfold bind. specialize (Hm st).
  destruct (m st) as [[a|what|why] st1]; cbn [snd] in *.
  - rewrite (Hk a st1). exact Hm.
  - exact Hm.
  - exact Hm.
Qed.

Lemma never_calls_native {A} (c : Call) (answer : nat -> A) :
  p c = false -> never_calls p (native c answer).
Proof.
  intros Hc st. unfold native. cbn [snd calls].
  rewrite filter_app. cbn [filter]. rewrite Hc. apply app_nil_r.
Qed.

End NeverCalls.

Ltac run_steps_in H :=
  repeat progress
    (unfold bind, gets, native, Log, modify, ret, throw, stuck,
       set_desc, set_context, set_hasSharedContext, set_procs in H;
     cbn [desc_ context_ hasSharedContext_ procs log calls] in H).

(** *** Which exceptions a step throws *)

Section ThrowsOnly.

Variable allowed : list string.

Lemma throws_only_ret {A} (a : A) : throws_only allowed (ret a).
Proof. intros st what st' H. discriminate H. Qed.

Lemma throws_only_stuck {A} why : throws_only allowed (@stuck A why).
Proof. intros st what st' H. discriminate H. Qed.

Lemma throws_only_gets {A} (f : State -> A) : throws_only allowed (gets f).
Proof. intros st what st' H. discriminate H. Qed.

Lemma throws_only_modify (f : State -> State) : throws_only allowed (modify f).
Proof. intros st what st' H. discriminate H. Qed.

Lemma throws_only_native {A} (c : Call) (answer : nat -> A) :
  throws_only allowed (native c answer).
Proof. intros st what st' H. discriminate H. Qed.

Lemma throws_only_throw {A} what :
  In what allowed -> throws_only allowed (@throw A what).
Proof. intros Hin st what' st' H. inversion H; subst. exact Hin. Qed.

Lemma throws_only_bind {A B} (m : M A) (k : A -> M B) :
  throws_only allowed m -> (forall a, throws_only allowed (k a)) ->
  throws_only allowed (bind m k).
Proof.
  intros Hm Hk st what st'. unfold bind.
  destruct (m st) as [[a|what1|why] st1] eqn:Em.
  - apply Hk.
  - intros H. inversion H; subst. exact (Hm st what st' Em).
  - intros H. discriminate H.
Qed.

End ThrowsOnly.

Ltac throws_only_step :=
  first
    [ apply throws_only_ret
    | apply throws_only_stuck
    | apply throws_only_gets
    | apply throws_only_modify
    | apply throws_only_native
    | apply throws_only_throw; cbn; tauto
    | apply throws_only_bind; [|intros ?]
    | match goal with
      | |- throws_only _ (if ?b then _ else _) => destruct b
      | |- throws_only _ (match ?x with _ => _ end) => destruct x
      end ].

Ltac throws_only_walk := repeat throws_only_step.

Ltac never_calls_step :=
  first
    [ apply never_calls_ret
    | apply never_calls_throw
    | apply never_calls_stuck
    | apply never_calls_gets
    | apply never_calls_modify; intros ?; reflexivity
    | apply never_calls_native; reflexivity
    | apply never_calls_bind; [|intros ?]
    | match goal with
      | |- never_calls _ (if ?b then _ else _) => destruct b
      | |- never_calls _ (match ?x with _ => _ end) => destruct x
      end ].

Ltac never_calls_walk := repeat never_calls_step.

Section Context.

Variable platform : Platform.
Variable maxNumPixelFormatsMS : nat.
Variable OpenGL_Latest : Z.

#[local] Abbreviation CreateExtContextProfile' :=
  (CreateExtContextProfile platform OpenGL_Latest).
#[local] Abbreviation CreateGLContext' :=
  (CreateGLContext platform OpenGL_Latest).
#[local] Abbreviation CreateContext' :=
  (CreateContext platform maxNumPixelFormatsMS OpenGL_Latest).
#[local] Abbreviation CreateContext_negotiate' :=
  (CreateContext_negotiate platform maxNumPixelFormatsMS OpenGL_Latest).

(** [ConvertGLVersion] on a version number written [major minor patch] in
    decimal digits. *)
Lemma ConvertGLVersion_digits major minor patch :
  0 <= major -> 0 <= minor <= 9 -> 0 <= patch <= 9 ->
  100 * major + 10 * minor + patch <> OpenGL_Latest ->
  ConvertGLVersion OpenGL_Latest (100 * major + 10 * minor + patch)
  = (major, minor).
Proof.
  intros Hmajor Hminor Hpatch Hlatest. unfold ConvertGLVersion.
  destruct (Z.eqb_spec (100 * major + 10 * minor + patch) OpenGL_Latest);
    [contradiction|].
  rewrite Z.rem_mod_nonneg by lia.
  rewrite (Z.quot_div_nonneg (100 * major + 10 * minor + patch)) by lia.
  assert (Hq : (100 * major + 10 * minor + patch) / 100 = major).
  { symmetry. apply (Z.div_unique _ 100 major (10 * minor + patch)); lia. }
  assert (Hr : (100 * major + 10 * minor + patch) mod 100 = 10 * minor + patch).
  { symmetry. apply (Z.mod_unique _ 100 major (10 * minor + patch)); lia. }
  rewrite Hq, Hr, Z.quot_div_nonneg by lia. f_equal.
  symmetry. apply (Z.div_unique _ 10 minor patch); lia.
Qed.

(** X15.  [CreateExtContextProfile] calls through the extension pointer
    [wglCreateContextAttribsARB] without testing it: while the pointer is
    null (the entry point is not loaded) the call cannot be made, nothing is
    called and no render context comes back.  With the entry point loaded it
    asks for the version the descriptor names: 4.5 for [OpenGL_Latest],
    otherwise the hundreds of the version number as major and its tens
    digit as minor version, with the descriptor's core-profile choice and
    the given context to share with.  It then reads the last error; it
    hands back the new context unless the error is invalid-version or
    invalid-profile, in which case it hands back null and logs what was
    wrong.  It does not throw. *)
Theorem CreateExtContextProfile_requests_version
    (sharedGLRC : HGLRC) (st : State) :
  (has_wglCreateContextAttribsARB (procs st) = false ->
   CreateExtContextProfile' sharedGLRC st
   = (Stuck "wglCreateContextAttribsARB: null function pointer", st))
  /\ (forall major minor : Z,
      has_wglCreateContextAttribsARB (procs st) = true ->
      (version (profileOpenGL (desc_ st)) = OpenGL_Latest /\ major = 4 /\ minor = 5)
      \/ (version (profileOpenGL (desc_ st)) <> OpenGL_Latest
          /\ exists patch,
               0 <= major /\ 0 <= minor <= 9 /\ 0 <= patch <= 9
               /\ version (profileOpenGL (desc_ st))
                  = 100 * major + 10 * minor + patch) ->
      exists rc st',
        CreateExtContextProfile' sharedGLRC st = (Val rc, st')
        /\ calls st'
           = calls st
             ++ [CallwglCreateContextAttribsARB (hDC (context_ st)) sharedGLRC
                   major minor (coreProfile (profileOpenGL (desc_ st)));
                 CallGetLastError]
        /\ rc
           = (if (GetLastError platform (S (List.length (calls st)))
                  =? ERROR_INVALID_VERSION_ARB)
                 || (GetLastError platform (S (List.length (calls st)))
                     =? ERROR_INVALID_PROFILE_ARB)
              then 0
              else wglCreateContextAttribsARB platform (List.length (calls st))
                     (hDC (context_ st)) sharedGLRC major minor
                     (coreProfile (profileOpenGL (desc_ st))))
        /\ log st'
           = log st
             ++ (if GetLastError platform (S (List.length (calls st)))
                    =? ERROR_INVALID_VERSION_ARB
                 then [(StdErr, "invalid version for OpenGL profile"%string)]
                 else if GetLastError platform (S (List.length (calls st)))
                         =? ERROR_INVALID_PROFILE_ARB
                 then [(StdErr, "invalid OpenGL profile"%string)]
                 else [])
        /\ desc_ st' = desc_ st
        /\ context_ st' = context_ st
        /\ hasSharedContext_ st' = hasSharedContext_ st).
Proof.
  split.
  - intros Hnull. unfold CreateExtContextProfile.
    unfold bind at 1, gets at 1. unfold bind at 1, gets at 1.
    destruct (ConvertGLVersion OpenGL_Latest _) as [major minor].
    destruct st as [desc context hasShared extensions logged made].
    cbn [procs] in Hnull. run_steps. rewrite Hnull. reflexivity.
  - intros major minor Hloaded Hversion.
    assert (Hconvert :
      ConvertGLVersion OpenGL_Latest (version (profileOpenGL (desc_ st)))
      = (major, minor)).
    { destruct Hversion as [(Hv & -> & ->) | (Hv & patch & H1 & H2 & H3 & Hd)].
      - unfold ConvertGLVersion. rewrite Hv, Z.eqb_refl. reflexivity.
      - rewrite Hd in *. apply ConvertGLVersion_digits; assumption. }
    unfold CreateExtContextProfile.
    unfold bind at 1, gets at 1. unfold bind at 1, gets at 1.
    rewrite Hconvert.
    destruct st as [desc context hasShared extensions logged made].
    cbn [procs] in Hloaded. run_steps. rewrite Hloaded. run_steps.
    rewrite length_app. cbn [List.length]. rewrite Nat.add_1_r.
    destruct (GetLastError platform (S (List.length made))
              =? ERROR_INVALID_VERSION_ARB).
    + eexists. eexists. split; [reflexivity|].
      cbn [desc_ context_ hasSharedContext_ procs log calls orb].
      rewrite <- app_assoc. repeat split; reflexivity.
    + destruct (GetLastError platform (S (List.length made))
                =? ERROR_INVALID_PROFILE_ARB).
      * eexists. eexists. split; [reflexivity|].
        cbn [desc_ context_ hasSharedContext_ procs log calls orb].
        rewrite <- app_assoc. repeat split; reflexivity.
      * eexists. eexists. split; [reflexivity|].
        cbn [desc_ context_ hasSharedContext_ procs log calls orb].
        rewrite <- app_assoc, app_nil_r. repeat split; reflexivity.
Qed.

(** X16.  [CreateGLContext], asked for the extended profile only with the
    entry point [wglCreateContextAttribsARB] loaded, returns; it does not
    throw.  Afterwards [hasSharedContext_]
    says whether a prior context with a live render context was given.  A
    render context that is handed back (not null) has just been made current
    on the device context, with success.  If a live prior context was given,
    no render context is created: what is handed back is the prior
    context's render context, or null.  The descriptor and the platform
    context are left as they were. *)
Theorem CreateGLContext_result (useExtProfile : bool)
    (sharedContext : option GLPlatformContext) (st : State) :
  (useExtProfile = true -> has_wglCreateContextAttribsARB (procs st) = true) ->
  exists rc st',
    CreateGLContext' useExtProfile sharedContext st = (Val rc, st')
    /\ hasSharedContext_ st'
       = match sharedContext with
         | Some shared => negb (hGLRC shared =? 0)
         | None => false
         end
    /\ (rc <> 0 ->
        exists before,
          calls st' = before ++ [CallwglMakeCurrent (hDC (context_ st)) rc]
          /\ wglMakeCurrent platform (List.length before) (hDC (context_ st)) rc
             = true)
    /\ (forall shared,
          sharedContext = Some shared -> hGLRC shared <> 0 ->
          (rc = hGLRC shared \/ rc = 0)
          /\ filter is_context_creation (calls st')
             = filter is_context_creation (calls st))
    /\ desc_ st' = desc_ st
    /\ context_ st' = context_ st.
Proof.
  intros Hloaded.
  destruct st as [desc context hasShared extensions logged made].
  cbn [procs] in Hloaded.
  assert (Hown : forall (create : M HGLRC),
    (exists rc0 more logged0,
       create (mkState desc context false extensions logged made)
       = (Val rc0, mkState desc context false extensions logged0 (made ++ more))) ->
    exists rc st',
      bind create (fun renderContext =>
        if renderContext =? 0
        then ret 0
        else
          hdc <- gets (fun st => hDC (context_ st)) ;;
          current <- native (CallwglMakeCurrent hdc renderContext)
                       (fun now => wglMakeCurrent platform now hdc renderContext) ;;
          if negb current
          then
            Log StdErr "failed to active OpenGL render context (wglMakeCurrent)" ;;;
            _ <- DeleteGLContext platform renderContext ;;
            ret 0
          else ret renderContext)
        (mkState desc context false extensions logged made)
      = (Val rc, st')
      /\ hasSharedContext_ st' = false
      /\ (rc <> 0 ->
          exists before,
            calls st' = before ++ [CallwglMakeCurrent (hDC context) rc]
            /\ wglMakeCurrent platform (List.length before) (hDC context) rc = true)
      /\ desc_ st' = desc
      /\ context_ st' = context).
  { intros create (rc0 & more & logged0 & Hcreate).
    unfold bind at 1. rewrite Hcreate.
    destruct (Z.eqb_spec rc0 0) as [->|Hrc0].
    - eexists. eexists. split; [reflexivity|].
      cbn. repeat split; try reflexivity. intros H; contradiction.
    - unfold bind, gets, native, Log, modify, ret, DeleteGLContext.
      cbn [desc_ context_ hasSharedContext_ procs log calls].
      destruct (wglMakeCurrent platform (List.length (made ++ more)) (hDC context) rc0)
        eqn:Ecurrent; cbn [negb].
      + eexists. eexists. split; [reflexivity|].
        cbn [desc_ context_ hasSharedContext_ procs log calls].
        repeat split; try reflexivity.
        intros _. eexists. split; [reflexivity | exact Ecurrent].
      + run_steps. match goal with
        | |- context [wglDeleteContext platform ?now rc0] =>
            destruct (wglDeleteContext platform now rc0)
        end; cbn [negb];
          eexists; eexists; (split; [reflexivity|]);
          cbn [desc_ context_ hasSharedContext_ procs log calls];
          repeat split; try reflexivity; intros H; contradiction. }
  assert (Hstd : exists rc0 more logged0,
    CreateStdContextProfile platform (mkState desc context false extensions logged made)
    = (Val rc0, mkState desc context false extensions logged0 (made ++ more))).
  { unfold CreateStdContextProfile, bind, gets, native.
    cbn [desc_ context_ hasSharedContext_ procs log calls].
    eexists. eexists. eexists. reflexivity. }
  assert (Hext : useExtProfile = true -> forall sharedGLRC, exists rc0 more logged0,
    CreateExtContextProfile' sharedGLRC (mkState desc context false extensions logged made)
    = (Val rc0, mkState desc context false extensions logged0 (made ++ more))).
  { intros Hext sharedGLRC. specialize (Hloaded Hext).
    unfold CreateExtContextProfile.
    unfold bind at 1, gets at 1. unfold bind at 1, gets at 1.
    destruct (ConvertGLVersion OpenGL_Latest _) as [major minor].
    run_steps. rewrite Hloaded. run_steps.
    destruct (_ =? ERROR_INVALID_VERSION_ARB);
      [|destruct (_ =? ERROR_INVALID_PROFILE_ARB)];
      rewrite <- app_assoc; eexists; eexists; eexists; reflexivity. }
  assert (Hcreate : forall sharedGLRC, exists rc0 more logged0,
    (if useExtProfile
     then CreateExtContextProfile' sharedGLRC
     else CreateStdContextProfile platform)
      (mkState desc context false extensions logged made)
    = (Val rc0, mkState desc context false extensions logged0 (made ++ more))).
  { intros sharedGLRC. destruct useExtProfile; [apply Hext; reflexivity | exact Hstd]. }
  unfold CreateGLContext.
  cbn [desc_ context_ hasSharedContext_ procs log calls].
  destruct sharedContext as [shared|].
  - destruct (Z.eqb_spec (hGLRC shared) 0) as [Hnull|Hlive]; cbn [negb].
    + rewrite Hnull.
      destruct (Hown (if useExtProfile
                      then CreateExtContextProfile' 0
                      else CreateStdContextProfile platform) (Hcreate 0))
        as (rc & st' & Hrun & Hshared & Hcurrent & Hdesc & Hcontext).
      exists rc, st'. split.
      { exact Hrun. }
      split; [exact Hshared|]. split; [exact Hcurrent|].
      split; [|split; assumption].
      intros shared' Hsome Hlive. inversion Hsome; subst. contradiction.
    + unfold DeleteGLContext. run_steps.
      destruct (Z.eqb_spec (hGLRC shared) 0) as [?|_]; [contradiction|].
      run_steps.
      destruct (wglMakeCurrent platform (List.length made) (hDC context) (hGLRC shared))
        eqn:Ecurrent; cbn [negb].
      * eexists. eexists. split; [reflexivity|].
        cbn [desc_ context_ hasSharedContext_ procs log calls].
        split; [reflexivity|]. split.
        { intros _. eexists. split; [reflexivity | exact Ecurrent]. }
        split; [|split; reflexivity].
        intros shared' Hsome _. inversion Hsome; subst.
        split; [left; reflexivity|].
        rewrite filter_app. cbn. apply app_nil_r.
      * run_steps. match goal with
        | |- context [wglDeleteContext platform ?now (hGLRC shared)] =>
            destruct (wglDeleteContext platform now (hGLRC shared))
        end; cbn [negb];
          eexists; eexists; (split; [reflexivity|]);
          cbn [desc_ context_ hasSharedContext_ procs log calls];
          (split; [reflexivity|]);
          (split; [intros H; contradiction|]);
          (split; [|split; reflexivity]);
          intros shared' Hsome _; inversion Hsome; subst;
          (split; [right; reflexivity|]);
          rewrite !filter_app; cbn; rewrite !app_nil_r; reflexivity.
  - destruct (Hown (if useExtProfile
                    then CreateExtContextProfile' 0
                    else CreateStdContextProfile platform) (Hcreate 0))
      as (rc & st' & Hrun & Hshared & Hcurrent & Hdesc & Hcontext).
    exists rc, st'. split.
    { exact Hrun. }
    split; [exact Hshared|]. split; [exact Hcurrent|].
    split; [|split; assumption].
    intros shared' Hsome. discriminate.
Qed.

(** The swap-interval step: it returns, touches neither the descriptor nor
    the platform context, and only calls the loader of the swap-interval
    entry point and that entry point. *)
Lemma CreateContext_vsync_run st :
  exists st' later,
    CreateContext_vsync platform st = (Val tt, st')
    /\ calls st' = calls st ++ later
    /\ forallb is_after_activation later = true
    /\ desc_ st' = desc_ st
    /\ context_ st' = context_ st
    /\ hasSharedContext_ st' = hasSharedContext_ st.
Proof.
  destruct st as [desc context hasShared extensions logged made].
  unfold CreateContext_vsync, SetSwapInterval. run_steps.
  destruct (has_wglSwapIntervalEXT extensions); run_steps.
  - eexists. eexists. split; [reflexivity|]. run_steps.
    repeat split; reflexivity.
  - destruct (LoadSwapIntervalProcs platform (List.length made)); run_steps.
    + eexists. eexists. split; [reflexivity|]. run_steps.
      rewrite <- app_assoc. repeat split; reflexivity.
    + eexists. eexists. split; [reflexivity|]. run_steps.
      repeat split; reflexivity.
Qed.

(** Whatever comes before it, the last step of the negotiation decides what
    holds when the negotiation returns. *)
Lemma ensures_last {A B} (P : State -> Prop) (m : M A) (k : A -> M B)
    (Q : B -> State -> Prop) :
  (forall a, ensures (fun _ => True) (k a) Q) -> ensures P (bind m k) Q.
Proof.
  intros Hk. apply (ensures_bind P m k (fun _ _ => True) Q).
  - intros st _ a st' _. exact I.
  - exact Hk.
Qed.

Lemma CreateContext_negotiate_current fuel sharedContext :
  ensures (fun _ => True) (CreateContext_negotiate' fuel sharedContext)
    (fun _ st => current_context platform st).
Proof.
  unfold CreateContext_negotiate.
  do 4 (apply ensures_last; intros ?).
  match goal with |- ensures _ (if ?b then _ else _) _ => destruct b end;
    [apply ensures_throw|].
  do 7 (apply ensures_last; intros ?).
  intros st _ r st'.
  destruct st as [desc context hasShared extensions logged made].
  run_steps.
  destruct (Z.eqb_spec (hGLRC context) 0) as [Hnull|Hlive]; [discriminate|].
  run_steps.
  destruct (wglMakeCurrent platform (List.length made) (hDC context) (hGLRC context))
    eqn:Ecurrent; cbn [negb]; [|discriminate].
  intros H. inversion H; subst. split; [exact Hlive|].
  exists made. split; [reflexivity | exact Ecurrent].
Qed.

(** Choosing the pixel format makes [GetDC], [ChoosePixelFormat] and
    [SetPixelFormat] calls only. *)
Lemma never_calls_SelectPixelFormat_loop p fuel want idx std :
  p CallGetDC = false ->
  (forall hdc, p (CallChoosePixelFormat hdc) = false) ->
  (forall hdc f, p (CallSetPixelFormat hdc f) = false) ->
  never_calls p
    (SelectPixelFormat_loop platform maxNumPixelFormatsMS fuel want idx std).
Proof.
  intros HGetDC HChoose HSet.
  revert idx std. induction fuel as [|fuel IH]; intros idx std;
    cbn [SelectPixelFormat_loop].
  - apply never_calls_stuck.
  - unfold ErrAntiAliasingNotSupported, Log, set_context.
    never_calls_walk; try apply IH;
      apply never_calls_native; auto.
Qed.

Lemma never_calls_SetupDeviceContextAndPixelFormat p fuel :
  p CallGetDC = false ->
  (forall hdc, p (CallChoosePixelFormat hdc) = false) ->
  (forall hdc f, p (CallSetPixelFormat hdc f) = false) ->
  never_calls p
    (SetupDeviceContextAndPixelFormat platform maxNumPixelFormatsMS fuel).
Proof.
  intros HGetDC HChoose HSet.
  unfold SetupDeviceContextAndPixelFormat, SelectPixelFormat, set_context.
  apply never_calls_bind; [apply never_calls_native; exact HGetDC | intros hdc].
  apply never_calls_bind; [never_calls_walk | intros _].
  apply never_calls_bind; [never_calls_walk | intros want].
  apply never_calls_SelectPixelFormat_loop; assumption.
Qed.

(** X17.  When [CreateContext] returns, the context has a render context
    that is not null and that was made current with success; after that
    call the only calls made are the sharing of resources and the setting
    of the swap interval, so the render context is still the current one
    and has not been deleted. *)
Theorem CreateContext_returns_current_context (fuel : nat)
    (sharedContext : option GLPlatformContext) (st st' : State) :
  CreateContext' fuel sharedContext st = (Val tt, st') ->
  hGLRC (context_ st') <> 0
  /\ exists before after,
       calls st'
       = before
         ++ CallwglMakeCurrent (hDC (context_ st')) (hGLRC (context_ st'))
         :: after
       /\ wglMakeCurrent platform (List.length before)
            (hDC (context_ st')) (hGLRC (context_ st')) = true
       /\ forallb is_after_activation after = true.
Proof.
  unfold CreateContext. rewrite Win32GLFacts.bind_run.
  destruct (CreateContext_negotiate' fuel sharedContext st)
    as [[[]|what|why] negotiated] eqn:Enegotiate; try discriminate.
  destruct (CreateContext_negotiate_current fuel sharedContext st I tt negotiated
              Enegotiate) as (Hlive & before & Hcalls & Hcurrent).
  rewrite Win32GLFacts.bind_run, Win32GLFacts.CreateContext_share_run.
  assert (Hvsync : forall shared_call s,
    context_ s = context_ negotiated ->
    calls s = calls negotiated ++ shared_call ->
    forallb is_after_activation shared_call = true ->
    CreateContext_vsync platform s = (Val tt, st') ->
    hGLRC (context_ st') <> 0
    /\ exists before after,
         calls st'
         = before
           ++ CallwglMakeCurrent (hDC (context_ st')) (hGLRC (context_ st'))
           :: after
         /\ wglMakeCurrent platform (List.length before)
              (hDC (context_ st')) (hGLRC (context_ st')) = true
         /\ forallb is_after_activation after = true).
  { intros shared_call s Hcontext Hs Hshared Hrun.
    destruct (CreateContext_vsync_run s)
      as (st2 & later & Hrun2 & Hlater & Hafter & _ & Hcontext2 & _).
    rewrite Hrun in Hrun2. inversion Hrun2; subst st2.
    rewrite Hcontext2, Hcontext. split; [exact Hlive|].
    exists before, (shared_call ++ later).
    rewrite Hlater, Hs, Hcalls, <- !app_assoc. cbn [app].
    split; [reflexivity|]. split; [exact Hcurrent|].
    rewrite forallb_app, Hshared, Hafter. reflexivity. }
  destruct sharedContext as [shared|];
    [destruct (hasSharedContext_ negotiated);
       [|destruct (extProfile (profileOpenGL (desc_ negotiated)))]|].
  all: try (apply (Hvsync [] negotiated);
            [reflexivity | symmetry; apply app_nil_r | reflexivity]).
  destruct (wglShareLists platform (List.length (calls negotiated))
              (hGLRC shared) (hGLRC (context_ negotiated))); [|discriminate].
  apply (Hvsync [CallwglShareLists (hGLRC shared) (hGLRC (context_ negotiated))]);
    reflexivity.
Qed.

(** With a prior context whose render context is live, [CreateGLContext]
    creates nothing: it hands back the prior render context, or null. *)
Lemma CreateGLContext_reuses useExtProfile shared st :
  hGLRC shared <> 0 ->
  exists rc st',
    CreateGLContext' useExtProfile (Some shared) st = (Val rc, st')
    /\ (rc = hGLRC shared \/ rc = 0)
    /\ hasSharedContext_ st' = true
    /\ filter is_context_creation (calls st')
       = filter is_context_creation (calls st).
Proof.
  intros Hlive.
  destruct st as [desc context hasShared extensions logged made].
  pose proof (proj2 (Z.eqb_neq _ _) Hlive) as Enull.
  unfold CreateGLContext, DeleteGLContext.
  run_steps; rewrite ?Enull; run_steps; rewrite ?Enull; run_steps.
  destruct (wglMakeCurrent platform (List.length made) (hDC context) (hGLRC shared));
    cbn [negb]; run_steps.
  - eexists. eexists. split; [reflexivity|]. run_steps.
    split; [left; reflexivity|]. split; [reflexivity|].
    rewrite filter_app. cbn. apply app_nil_r.
  - match goal with
    | |- context [wglDeleteContext platform ?now (hGLRC shared)] =>
        destruct (wglDeleteContext platform now (hGLRC shared))
    end; cbn [negb]; run_steps;
      eexists; eexists; (split; [reflexivity|]); run_steps;
      (split; [right; reflexivity|]); (split; [reflexivity|]);
      rewrite !filter_app; cbn; rewrite !app_nil_r; reflexivity.
Qed.

(** The negotiation with a prior context whose render context is live. *)
Lemma CreateContext_negotiate_reuses fuel shared created :
  hGLRC shared <> 0 ->
  ensures (fun st => filter is_context_creation (calls st) = created)
    (CreateContext_negotiate' fuel (Some shared))
    (fun _ st =>
       hGLRC (context_ st) = hGLRC shared
       /\ hasSharedContext_ st = true
       /\ filter is_context_creation (calls st) = created).
Proof.
  intros Hlive. unfold CreateContext_negotiate.
  assert (Hframe : forall {A} (m : M A),
    never_calls is_context_creation m ->
    ensures (fun st => filter is_context_creation (calls st) = created) m
      (fun _ st => filter is_context_creation (calls st) = created)).
  { intros A m Hm st Hst a st' Hrun. specialize (Hm st).
    rewrite Hrun in Hm. cbn [snd] in Hm. congruence. }
  eapply ensures_bind; [apply Hframe; never_calls_walk | intros msEnabled].
  eapply ensures_bind;
    [apply Hframe; unfold CopyPixelFormat, set_context; never_calls_walk
    | intros ?].
  eapply ensures_bind;
    [apply Hframe; apply never_calls_SetupDeviceContextAndPixelFormat;
     reflexivity
    | intros ?].
  eapply (ensures_bind _ _ _
            (fun std st =>
               (std = hGLRC shared \/ std = 0)
               /\ hasSharedContext_ st = true
               /\ filter is_context_creation (calls st) = created)).
  { intros st Hst std st' Hrun.
    destruct (CreateGLContext_reuses false shared st Hlive)
      as (rc & st2 & Hrun2 & Hrc & Hshared & Hcreated).
    rewrite Hrun in Hrun2. inversion Hrun2; subst.
    split; [assumption|]. split; [assumption|]. congruence. }
  intros std st (Hstd & Hshared & Hcreated) r st'.
  destruct st as [desc context hasShared extensions logged made].
  cbn [hasSharedContext_ calls] in Hshared, Hcreated. subst hasShared.
  destruct (Z.eqb_spec std 0) as [Hnull|Hstd0]; [intros H; discriminate H|].
  destruct Hstd as [Hstd|?]; [|contradiction].
  run_steps. rewrite !andb_false_r. run_steps.
  cbn [with_hGLRC hGLRC hDC].
  destruct (Z.eqb_spec std 0) as [?|_]; [contradiction|].
  run_steps. cbn [with_hGLRC hGLRC hDC].
  destruct (wglMakeCurrent platform (List.length made) (hDC context) std);
    cbn [negb]; run_steps; intros H; [|discriminate H].
  inversion H; subst st'. run_steps. cbn [hGLRC].
  split; [exact Hstd|]. split; [reflexivity|].
  rewrite filter_app. cbn. rewrite app_nil_r. exact Hcreated.
Qed.

(** X18.  Given a prior context whose render context is live, a
    [CreateContext] that returns has created no render context of its own:
    the new context uses the prior context's render context,
    [hasSharedContext_] is set, and neither [wglCreateContext] nor
    [wglCreateContextAttribsARB] nor [wglShareLists] has been called,
    whatever the descriptor asks for. *)
Theorem live_shared_context_is_reused (fuel : nat) (shared : GLPlatformContext)
    (st st' : State) :
  hGLRC shared <> 0 ->
  CreateContext' fuel (Some shared) st = (Val tt, st') ->
  hGLRC (context_ st') = hGLRC shared
  /\ hasSharedContext_ st' = true
  /\ filter is_context_creation (calls st')
     = filter is_context_creation (calls st)
  /\ share_calls (calls st') = share_calls (calls st).
Proof.
  intros Hlive. unfold CreateContext. rewrite Win32GLFacts.bind_run.
  destruct (CreateContext_negotiate' fuel (Some shared) st)
    as [[[]|what|why] negotiated] eqn:Enegotiate; try discriminate.
  destruct (CreateContext_negotiate_reuses fuel shared _ Hlive st eq_refl tt
              negotiated Enegotiate) as (Hrc & Hshared & Hcreated).
  pose proof (Win32GLFacts.never_shares_CreateContext_negotiate platform
                maxNumPixelFormatsMS OpenGL_Latest fuel (Some shared) st)
    as Hnoshare.
  rewrite Enegotiate in Hnoshare. cbn [snd] in Hnoshare.
  rewrite Win32GLFacts.bind_run, Win32GLFacts.CreateContext_share_run, Hshared.
  intros Hrun.
  destruct (CreateContext_vsync_run negotiated)
    as (st2 & later & Hrun2 & Hlater & Hafter & _ & Hcontext & Hshared2).
  rewrite Hrun in Hrun2. inversion Hrun2; subst st2.
  destruct (Win32GLFacts.CreateContext_vsync_returns platform negotiated)
    as (st3 & later' & Hrun3 & Hlater' & Hshares).
  rewrite Hrun in Hrun3. inversion Hrun3; subst st3.
  rewrite Hcontext, Hshared2. split; [exact Hrc|]. split; [exact Hshared|].
  split.
  - rewrite Hlater, filter_app, Hcreated.
    assert (Hnone : filter is_context_creation later = []).
    { clear - Hafter. induction later as [|c later IH]; [reflexivity|].
      cbn [forallb] in Hafter. apply andb_prop in Hafter as [Hc Hrest].
      cbn [filter]. destruct c; try discriminate; cbn; apply IH; exact Hrest. }
    rewrite Hnone. apply app_nil_r.
  - rewrite Hlater', Win32GLFacts.share_calls_app, Hshares, Hnoshare. lia.
Qed.

(** The loop of [SelectPixelFormat], when it is left by [break]. *)
Lemma SelectPixelFormat_loop_selected fuel want idx std st (r : unit) st' :
  SelectPixelFormat_loop platform maxNumPixelFormatsMS fuel want idx std st
  = (Val r, st') ->
  selected_format platform st'
  /\ hDC (context_ st') = hDC (context_ st)
  /\ desc_ st' = desc_ st.
Proof.
  revert want idx std st.
  induction fuel as [|fuel IH]; intros want idx std st;
    cbn [SelectPixelFormat_loop]; [intros H; discriminate H|].
  rewrite Win32GLFacts.bind_run.
  match goal with
  | |- match ?pick st with _ => _ end = _ -> _ =>
      assert (Hpick : forall idx1 st1,
                pick st = (Val idx1, st1) ->
                hDC (context_ st1) = hDC (context_ st) /\ desc_ st1 = desc_ st);
      [|destruct (pick st) as [[idx1|what|why] st1];
        [destruct (Hpick idx1 st1 eq_refl) as (Hhdc1 & Hdesc1); clear Hpick
        |intros H; discriminate H | intros H; discriminate H]]
  end.
  { intros idx1 st1. destruct st as [desc context hasShared extensions logged made].
    destruct (want && (idx <? maxNumPixelFormatsMS)%nat); run_steps.
    - destruct (nth_error (pixelFormatsMS context) idx); run_steps;
        intros H; inversion H; subst. split; reflexivity.
    - intros H; inversion H; subst. split; reflexivity. }
  rewrite Win32GLFacts.bind_run. unfold gets at 1.
  rewrite Win32GLFacts.bind_run.
  match goal with
  | |- match ?choose st1 with _ => _ end = _ -> _ =>
      assert (Hchoose : forall std2 st2,
                choose st1 = (Val std2, st2) ->
                hDC (context_ st2) = hDC (context_ st1) /\ desc_ st2 = desc_ st1);
      [|destruct (choose st1) as [[std2|what|why] st2];
        [destruct (Hchoose std2 st2 eq_refl) as (Hhdc2 & Hdesc2); clear Hchoose
        |intros H; discriminate H | intros H; discriminate H]]
  end.
  { intros std2 st2.
    destruct st1 as [desc1 context1 hasShared1 extensions1 logged1 made1].
    unfold ErrAntiAliasingNotSupported. run_steps.
    destruct (pixelFormat context1 =? 0); run_steps.
    - destruct want; run_steps; intros H; inversion H; subst; split; reflexivity.
    - intros H; inversion H; subst. split; reflexivity. }
  destruct st2 as [desc2 context2 hasShared2 extensions2 logged2 made2].
  cbn [context_ desc_] in Hhdc2, Hdesc2.
  run_steps.
  destruct (Z.eqb_spec (pixelFormat context2) 0) as [Hnull|Hformat];
    [intros H; discriminate H|].
  run_steps.
  destruct (SetPixelFormat platform (List.length made2) (hDC context2)
              (pixelFormat context2)) eqn:Eset; cbn [negb].
  - intros H. inversion H; subst st'. unfold selected_format. run_steps.
    split; [|split; congruence].
    split; [exact Hformat|].
    exists made2. split; [reflexivity | exact Eset].
  - destruct std2; [intros H; discriminate H|].
    intros H. apply IH in H. run_steps_in H.
    destruct H as (Hselected & Hhdc' & Hdesc).
    split; [exact Hselected|]. split; congruence.
Qed.

(** The loop of [SelectPixelFormat], when it is left by an exception. *)
Lemma SelectPixelFormat_loop_throws fuel want idx std st what st' :
  SelectPixelFormat_loop platform maxNumPixelFormatsMS fuel want idx std st
  = (@Throw unit what, st') ->
  what = "failed to select pixel format"%string
  \/ what = "failed to set pixel format"%string.
Proof.
  revert want idx std st.
  induction fuel as [|fuel IH]; intros want idx std st;
    cbn [SelectPixelFormat_loop]; [intros H; discriminate H|].
  rewrite Win32GLFacts.bind_run.
  match goal with
  | |- match ?pick st with _ => _ end = _ -> _ =>
      assert (Hpick : forall what1 st1, pick st <> (Throw what1, st1));
      [|destruct (pick st) as [[idx1|what1|why] st1];
        [clear Hpick
        |intros _; exfalso; exact (Hpick what1 st1 eq_refl)
        |intros H; discriminate H]]
  end.
  { intros what1 st1. destruct st as [desc context hasShared extensions logged made].
    destruct (want && (idx <? maxNumPixelFormatsMS)%nat); run_steps.
    - destruct (nth_error (pixelFormatsMS context) idx); run_steps; discriminate.
    - discriminate. }
  rewrite Win32GLFacts.bind_run. unfold gets at 1.
  rewrite Win32GLFacts.bind_run.
  match goal with
  | |- match ?choose st1 with _ => _ end = _ -> _ =>
      assert (Hchoose : forall what2 st2, choose st1 <> (Throw what2, st2));
      [|destruct (choose st1) as [[std2|what2|why] st2];
        [clear Hchoose
        |intros _; exfalso; exact (Hchoose what2 st2 eq_refl)
        |intros H; discriminate H]]
  end.
  { intros what2 st2.
    destruct st1 as [desc1 context1 hasShared1 extensions1 logged1 made1].
    unfold ErrAntiAliasingNotSupported. run_steps.
    destruct (pixelFormat context1 =? 0); run_steps.
    - destruct want; run_steps; discriminate.
    - discriminate. }
  destruct st2 as [desc2 context2 hasShared2 extensions2 logged2 made2].
  run_steps.
  destruct (pixelFormat context2 =? 0).
  { intros H. inversion H. left. reflexivity. }
  run_steps.
  destruct (SetPixelFormat platform (List.length made2) (hDC context2)
              (pixelFormat context2)); cbn [negb].
  - intros H. discriminate H.
  - destruct std2.
    + intros H. inversion H. right. reflexivity.
    + apply IH.
Qed.

(** X20.  When [SetupDeviceContextAndPixelFormat] returns, the device
    context is the one [GetDC] handed out, and the pixel format of the
    context is not zero and is the one the window has just accepted: the
    last call is the [SetPixelFormat] of it, answered TRUE.  The descriptor
    is left as it was.  When it throws, the exception is "failed to select
    pixel format" or "failed to set pixel format". *)
Theorem SetupDeviceContextAndPixelFormat_selects (fuel : nat) (st : State) :
  (forall st',
     SetupDeviceContextAndPixelFormat platform maxNumPixelFormatsMS fuel st
     = (Val tt, st') ->
     hDC (context_ st') = GetDC platform (List.length (calls st))
     /\ selected_format platform st'
     /\ desc_ st' = desc_ st)
  /\ (forall what st',
       SetupDeviceContextAndPixelFormat platform maxNumPixelFormatsMS fuel st
       = (Throw what, st') ->
       what = "failed to select pixel format"%string
       \/ what = "failed to set pixel format"%string).
Proof.
  destruct st as [desc context hasShared extensions logged made].
  unfold SetupDeviceContextAndPixelFormat, SelectPixelFormat. run_steps.
  split.
  - intros st' Hrun. apply SelectPixelFormat_loop_selected in Hrun.
    run_steps_in Hrun. cbn [with_hDC hDC] in Hrun.
    destruct Hrun as (Hselected & Hhdc & Hdesc).
    split; [exact Hhdc|]. split; assumption.
  - intros what st' Hrun. exact (SelectPixelFormat_loop_throws _ _ _ _ _ _ _ Hrun).
Qed.

(** One iteration of the loop of [SelectPixelFormat] that picks the
    anti-aliasing format [g], which is not zero, and hands it to
    [SetPixelFormat]. *)
Lemma SelectPixelFormat_loop_pick fuel idx g desc context hasShared extensions
    logged made :
  (idx < maxNumPixelFormatsMS)%nat ->
  nth_error (pixelFormatsMS context) idx = Some g ->
  g <> 0 ->
  SelectPixelFormat_loop platform maxNumPixelFormatsMS (S fuel) true idx false
    (mkState desc context hasShared extensions logged made)
  = if SetPixelFormat platform (List.length made) (hDC context) g
    then (Val tt,
          mkState desc (with_pixelFormat g context) hasShared extensions logged
            (made ++ [CallSetPixelFormat (hDC context) g]))
    else SelectPixelFormat_loop platform maxNumPixelFormatsMS fuel true (S idx)
           false
           (mkState desc (with_pixelFormat g context) hasShared extensions logged
              (made ++ [CallSetPixelFormat (hDC context) g])).
Proof.
  intros Hidx Hnth Hg. cbn [SelectPixelFormat_loop].
  apply Nat.ltb_lt in Hidx. rewrite Hidx. cbn [andb].
  run_steps. rewrite Hnth. apply Z.eqb_neq in Hg.
  repeat progress
    (run_steps; cbn [with_pixelFormat pixelFormat hDC]; rewrite ?Hg).
  destruct (SetPixelFormat platform (List.length made) (hDC context) g);
    reflexivity.
Qed.

Lemma last_default {A} (b d d' : A) l : last (b :: l) d = last (b :: l) d'.
Proof.
  revert b. induction l as [|c l IH]; intros b; [reflexivity|].
  change (last (c :: l) d = last (c :: l) d'). apply IH.
Qed.

Lemma last_cons {A} (a d : A) l : last (a :: l) d = last l a.
Proof.
  destruct l as [|b l]; [reflexivity|].
  change (last (b :: l) d = last (b :: l) a). apply last_default.
Qed.

(** The loop of [SelectPixelFormat] over anti-aliasing formats that
    [SetPixelFormat] refuses: it goes on to the next one. *)
Lemma SelectPixelFormat_loop_skips refused :
  forall pre post fuel desc context hasShared extensions logged made,
    pixelFormatsMS context = pre ++ refused ++ post ->
    (List.length pre + List.length refused <= maxNumPixelFormatsMS)%nat ->
    (forall g, In g refused ->
       g <> 0 /\ forall now, SetPixelFormat platform now (hDC context) g = false) ->
    SelectPixelFormat_loop platform maxNumPixelFormatsMS
      (List.length refused + fuel) true (List.length pre) false
      (mkState desc context hasShared extensions logged made)
    = SelectPixelFormat_loop platform maxNumPixelFormatsMS
        fuel true (List.length pre + List.length refused) false
        (mkState desc
           (with_pixelFormat (last refused (pixelFormat context)) context)
           hasShared extensions logged
           (made ++ map (CallSetPixelFormat (hDC context)) refused)).
Proof.
  induction refused as [|g refused IH];
    intros pre post fuel desc context hasShared extensions logged made
      Hformats Hlength Hrefused.
  - cbn [List.length last map Nat.add]. rewrite Nat.add_0_r, app_nil_r.
    destruct context; reflexivity.
  - cbn [List.length Nat.add] in *.
    rewrite (SelectPixelFormat_loop_pick _ _ g); try lia.
    + destruct (Hrefused g (or_introl eq_refl)) as (_ & Hset). rewrite Hset.
      specialize (IH (pre ++ [g]) post fuel desc (with_pixelFormat g context)
                    hasShared extensions logged
                    (made ++ [CallSetPixelFormat (hDC context) g])).
      rewrite length_app in IH. cbn [List.length] in IH.
      rewrite Nat.add_1_r in IH. rewrite IH.
      * rewrite last_cons. cbn [map with_pixelFormat hDC hGLRC pixelFormat
                                pixelFormatsMS].
        rewrite <- app_assoc. cbn [app].
        replace (S (List.length pre) + List.length refused)%nat
          with (List.length pre + S (List.length refused))%nat by lia.
        reflexivity.
      * cbn [with_pixelFormat pixelFormatsMS]. rewrite Hformats, <- app_assoc.
        reflexivity.
      * lia.
      * intros g' Hin. cbn [with_pixelFormat hDC].
        apply Hrefused. right. exact Hin.
    + rewrite Hformats, nth_error_app2, Nat.sub_diag by lia. reflexivity.
    + apply (Hrefused g). left. reflexivity.
Qed.

(** X21.  With anti-aliasing enabled and formats chosen for it,
    [SelectPixelFormat] hands these formats to [SetPixelFormat] in their
    order and takes the first one the window accepts: it makes one
    [SetPixelFormat] call for each format refused before it and one for the
    accepted format, which becomes the pixel format of the context, and
    logs nothing.  The formats are not zero, the accepted one is among the
    first [maxNumPixelFormatsMS], and the fuel covers the formats tried. *)
Theorem SelectPixelFormat_takes_first_accepted
    (refused : list Z) (accepted : Z) (later : list Z) (fuel : nat)
    (desc : RenderContextDescriptor) (context : GLPlatformContext)
    (hasShared : bool) (extensions : ExtensionProcs)
    (logged : list (Stream * string)) (made : list Call) :
  enabled (multiSampling desc) = true ->
  pixelFormatsMS context = refused ++ accepted :: later ->
  (List.length refused < maxNumPixelFormatsMS)%nat ->
  (forall g, In g refused ->
     g <> 0 /\ forall now, SetPixelFormat platform now (hDC context) g = false) ->
  accepted <> 0 ->
  (forall now, SetPixelFormat platform now (hDC context) accepted = true) ->
  SelectPixelFormat platform maxNumPixelFormatsMS
    (List.length refused + S fuel)
    (mkState desc context hasShared extensions logged made)
  = (Val tt,
     mkState desc (with_pixelFormat accepted context) hasShared extensions logged
       (made
        ++ map (CallSetPixelFormat (hDC context)) (refused ++ [accepted]))).
Proof.
  intros Henabled Hformats Hlength Hrefused Haccepted Hset.
  unfold SelectPixelFormat. run_steps. rewrite Henabled, Hformats.
  assert (Hwant : negb (match refused ++ accepted :: later with
                        | [] => true
                        | _ :: _ => false
                        end) = true)
    by (destruct refused; reflexivity).
  rewrite Hwant. cbn [andb].
  rewrite (SelectPixelFormat_loop_skips refused [] (accepted :: later));
    [|exact Hformats | cbn [List.length]; lia | exact Hrefused].
  cbn [List.length Nat.add].
  rewrite (SelectPixelFormat_loop_pick _ _ accepted); try assumption.
  - cbn [with_pixelFormat hDC]. rewrite Hset.
    rewrite map_app, app_assoc. cbn [map].
    destruct context; reflexivity.
  - cbn [with_pixelFormat pixelFormatsMS].
    rewrite Hformats, nth_error_app2, Nat.sub_diag by lia. reflexivity.
Qed.

(** X22.  If the window refuses every anti-aliasing format and there are
    fewer of them than [maxNumPixelFormatsMS], [SelectPixelFormat] goes on
    to read [pixelFormatsMS] one element past its end: the loop bounds the
    index by [maxNumPixelFormatsMS], not by the size of the vector. *)
Theorem SelectPixelFormat_reads_past_the_formats
    (refused : list Z) (fuel : nat)
    (desc : RenderContextDescriptor) (context : GLPlatformContext)
    (hasShared : bool) (extensions : ExtensionProcs)
    (logged : list (Stream * string)) (made : list Call) :
  enabled (multiSampling desc) = true ->
  pixelFormatsMS context = refused ->
  refused <> [] ->
  (List.length refused < maxNumPixelFormatsMS)%nat ->
  (forall g, In g refused ->
     g <> 0 /\ forall now, SetPixelFormat platform now (hDC context) g = false) ->
  fst (SelectPixelFormat platform maxNumPixelFormatsMS
         (List.length refused + S fuel)
         (mkState desc context hasShared extensions logged made))
  = Stuck "pixelFormatsMS: index out of range".
Proof.
  intros Henabled Hformats Hnonempty Hlength Hrefused.
  unfold SelectPixelFormat. run_steps. rewrite Henabled, Hformats.
  destruct refused as [|g0 refused0] eqn:Erefused; [contradiction|].
  rewrite <- Erefused in *. cbn [negb andb].
  rewrite (SelectPixelFormat_loop_skips refused [] []);
    [| rewrite app_nil_r; exact Hformats | cbn [List.length]; lia | exact Hrefused].
  cbn [List.length Nat.add SelectPixelFormat_loop].
  apply Nat.ltb_lt in Hlength. rewrite Hlength. cbn [andb]. run_steps.
  cbn [with_pixelFormat pixelFormatsMS].
  rewrite Hformats.
  rewrite (proj2 (nth_error_None refused (List.length refused)) (le_n _)).
  reflexivity.
Qed.

(** The loop of [SetupAntiAliasing] on a platform whose answer to the
    format query only depends on the sample count: it stops at the highest
    supported count that is not above the count on entry, or at zero. *)
Lemma SetupAntiAliasing_loop_finds (supported : Z -> bool) fuel st :
  (forall now hdc depth msEnabled s,
     negb (result (wglChoosePixelFormatARB platform now hdc depth msEnabled s))
     || (numFormats (wglChoosePixelFormatARB platform now hdc depth msEnabled s)
         <? 1)%nat
     = negb (supported s)) ->
  (Z.to_nat (samples (multiSampling (desc_ st))) <= fuel)%nat ->
  0 <= samples (multiSampling (desc_ st)) <= INT_MAX ->
  exists exit st',
    SetupAntiAliasing_loop platform maxNumPixelFormatsMS fuel st = (Val exit, st')
    /\ exit <> ReturnFalse
    /\ 0 <= samples (multiSampling (desc_ st'))
         <= samples (multiSampling (desc_ st))
    /\ (0 < samples (multiSampling (desc_ st')) ->
        supported (samples (multiSampling (desc_ st'))) = true)
    /\ (forall k,
          samples (multiSampling (desc_ st')) < k
            <= samples (multiSampling (desc_ st)) ->
          supported k = false)
    /\ enabled (multiSampling (desc_ st')) = enabled (multiSampling (desc_ st))
    /\ procs st' = procs st
    /\ log st' = log st.
Proof.
  intros Hsupported. revert st. induction fuel as [|fuel IH]; intros st Hfuel Hrange.
  - cbn [SetupAntiAliasing_loop]. unfold bind, gets, ret.
    destruct (Z.gtb_spec (samples (multiSampling (desc_ st))) 0) as [Hpos|Hle];
      [lia|].
    exists ConditionFalse, st.
    repeat split; try discriminate; try lia; intros; lia.
  - cbn [SetupAntiAliasing_loop]. rewrite Win32GLFacts.bind_run. unfold gets at 1.
    destruct (Z.gtb_spec (samples (multiSampling (desc_ st))) 0) as [Hpos|Hle].
    + unfold bind, gets, set_context, set_desc, modify, native, ret.
      cbn [desc_ context_ hasSharedContext_ procs log calls].
      rewrite (MachineFacts.to_int_small (samples (multiSampling (desc_ st))))
        by (unfold INT_MIN, INT_MAX in *; lia).
      rewrite Hsupported.
      destruct (supported (samples (multiSampling (desc_ st)))) eqn:Esupported;
        cbn [negb].
      * eexists Break, _. split; [reflexivity|].
        cbn [desc_ procs log].
        repeat split; try discriminate; try lia; intros; try assumption; lia.
      * destruct (Z.leb_spec (samples (multiSampling (desc_ st))) 0) as [Hle|_];
          [lia|].
        match goal with
        | |- context [SetupAntiAliasing_loop _ _ fuel ?s] =>
            destruct (IH s)
              as (exit & st' & Hrun & Hexit & Hs & Hfound & Hnone & Hen & Hp & Hl)
        end.
        { cbn [desc_ multiSampling samples with_samples with_multiSampling].
          unfold to_uint, INT_MAX in *. rewrite Z.mod_small by lia. lia. }
        { cbn [desc_ multiSampling samples with_samples with_multiSampling].
          unfold to_uint, INT_MAX in *. rewrite Z.mod_small by lia. lia. }
        exists exit, st'. rewrite Hrun.
        cbn [desc_ multiSampling samples enabled with_samples with_multiSampling
             procs log] in *.
        assert (Hdec : to_uint (samples (multiSampling (desc_ st)) - 1)
                       = samples (multiSampling (desc_ st)) - 1).
        { unfold to_uint, INT_MAX in *. apply Z.mod_small. lia. }
        rewrite Hdec in *.
        repeat split; try assumption; try lia.
        intros k Hk.
        destruct (Z.eq_dec k (samples (multiSampling (desc_ st)))) as [->|Hne];
          [exact Esupported | apply Hnone; lia].
    + unfold ret. exists ConditionFalse, st.
      repeat split; try discriminate; try lia; intros; lia.
Qed.

(** X19.  On a platform whose answer to the anti-aliasing format query only
    depends on the sample count, [SetupAntiAliasing] (with its entry point
    there or loadable) returns true with the sample count of the descriptor
    lowered to the highest supported count that is not above the requested
    one, or to zero if there is none; the enabled flag is left as it was,
    and the one message "reduced multi-samples for anti-aliasing from n to
    n'" is logged exactly when the count was lowered. *)
Theorem SetupAntiAliasing_finds_highest_supported (supported : Z -> bool)
    (st : State) :
  (forall now hdc depth msEnabled s,
     negb (result (wglChoosePixelFormatARB platform now hdc depth msEnabled s))
     || (numFormats (wglChoosePixelFormatARB platform now hdc depth msEnabled s)
         <? 1)%nat
     = negb (supported s)) ->
  has_wglChoosePixelFormatARB (procs st)
  || LoadPixelFormatProcs platform (List.length (calls st)) = true ->
  0 <= samples (multiSampling (desc_ st)) <= INT_MAX ->
  exists st',
    SetupAntiAliasing platform maxNumPixelFormatsMS st = (Val true, st')
    /\ 0 <= samples (multiSampling (desc_ st'))
         <= samples (multiSampling (desc_ st))
    /\ (0 < samples (multiSampling (desc_ st')) ->
        supported (samples (multiSampling (desc_ st'))) = true)
    /\ (forall k,
          samples (multiSampling (desc_ st')) < k
            <= samples (multiSampling (desc_ st)) ->
          supported k = false)
    /\ enabled (multiSampling (desc_ st')) = enabled (multiSampling (desc_ st))
    /\ log st'
       = log st
         ++ (if samples (multiSampling (desc_ st'))
                <? samples (multiSampling (desc_ st))
             then [(StdOut,
                    ("reduced multi-samples for anti-aliasing from "
                     ++ to_string (samples (multiSampling (desc_ st)))
                     ++ " to "
                     ++ to_string (samples (multiSampling (desc_ st'))))%string)]
             else []).
Proof.
  intros Hsupported Havail Hrange.
  unfold SetupAntiAliasing. rewrite Win32GLFacts.bind_run. unfold gets at 1.
  rewrite Win32GLFacts.bind_run.
  assert (Hentry : exists st1,
            (if has_wglChoosePixelFormatARB (procs st) then ret true
             else
               ok <- native CallLoadPixelFormatProcs (LoadPixelFormatProcs platform) ;;
               set_procs (fun p =>
                 mkExtensionProcs ok (has_wglCreateContextAttribsARB p)
                   (has_wglSwapIntervalEXT p)) ;;;
               ret ok) st = (Val true, st1)
            /\ desc_ st1 = desc_ st /\ log st1 = log st).
  { destruct (has_wglChoosePixelFormatARB (procs st)).
    - exists st. repeat split; reflexivity.
    - cbn [orb] in Havail.
      unfold bind, native, set_procs, modify, ret. rewrite Havail.
      eexists. repeat split; reflexivity. }
  destruct Hentry as (st1 & -> & Hdesc & Hlog). cbn [negb].
  rewrite Win32GLFacts.bind_run. unfold gets at 1.
  rewrite Win32GLFacts.bind_run.
  destruct (SetupAntiAliasing_loop_finds supported
              (Z.to_nat (samples (multiSampling (desc_ st1)))) st1 Hsupported)
    as (exit & st2 & -> & Hexit & Hs & Hfound & Hnone & Hen & _ & Hlog2).
  { lia. }
  { rewrite Hdesc. exact Hrange. }
  rewrite Hdesc in *. rewrite <- Hlog, <- Hlog2.
  destruct st2 as [desc2 context2 hasShared2 extensions2 logged2 made2].
  cbn [desc_ log] in *.
  destruct exit; [| |congruence]; run_steps;
    destruct (Z.ltb_spec (samples (multiSampling desc2))
                (samples (multiSampling (desc_ st)))) as [Hlt|Hge];
    run_steps; destruct (enabled (multiSampling desc2)) eqn:Een; run_steps;
    eexists; (split; [reflexivity|]); run_steps; rewrite ?Een;
    (split; [lia|]); (split; [exact Hfound|]); (split; [exact Hnone|]);
    (split; [exact Hen|]);
    destruct (Z.ltb_spec (samples (multiSampling desc2))
                (samples (multiSampling (desc_ st)))); try lia;
    rewrite ?app_nil_r; reflexivity.
Qed.

Lemma throws_only_SelectPixelFormat_loop fuel want idx std :
  throws_only CreateContext_errors
    (SelectPixelFormat_loop platform maxNumPixelFormatsMS fuel want idx std).
Proof.
  intros st what st' Hrun.
  destruct (SelectPixelFormat_loop_throws _ _ _ _ _ _ _ Hrun) as [->| ->];
    cbn; tauto.
Qed.

Lemma throws_only_SetupAntiAliasing_loop fuel :
  throws_only CreateContext_errors
    (SetupAntiAliasing_loop platform maxNumPixelFormatsMS fuel).
Proof.
  induction fuel as [|fuel IH]; cbn [SetupAntiAliasing_loop];
    unfold set_context, set_desc; throws_only_walk; apply IH.
Qed.

(** X23.  [CreateContext] throws no exception but these six: "failed to
    select pixel format", "failed to set pixel format", "failed to create
    standard OpenGL render context", "failed to create OpenGL render
    context", "failed to activate OpenGL render context" and "failed to
    share resources from OpenGL render context".  Failing anti-aliasing,
    a failing extended profile, a render context that cannot be deleted and
    a swap interval that cannot be set are logged or ignored, never
    thrown. *)
Theorem CreateContext_throws_only (fuel : nat)
    (sharedContext : option GLPlatformContext) (st st' : State) (what : string) :
  CreateContext' fuel sharedContext st = (Throw what, st') ->
  In what CreateContext_errors.
Proof.
  revert st what st'.
  change (throws_only CreateContext_errors (CreateContext' fuel sharedContext)).
  unfold CreateContext, CreateContext_negotiate, CreateContext_share,
    CreateContext_vsync, SetSwapInterval, CreateGLContext,
    CreateExtContextProfile, CreateStdContextProfile, DeleteGLContext,
    SetupAntiAliasing, RecreateWindow, SetupDeviceContextAndPixelFormat,
    SelectPixelFormat, CopyPixelFormat, ErrAntiAliasingNotSupported, Log,
    set_context, set_desc, set_hasSharedContext, set_procs.
  throws_only_walk;
    first [apply throws_only_SelectPixelFormat_loop
          | apply throws_only_SetupAntiAliasing_loop].
Qed.

End Context.

Lemma CreateContext_returns_current_context_witness :
  exists st',
    CreateContext (plain_platform (fun s => s <=? 4)) 8 0 4 None eight_samples
    = (Val tt, st')
    /\ hGLRC (context_ st') <> 0.
Proof.
  assert (Hrun : exists st',
            CreateContext (plain_platform (fun s => s <=? 4)) 8 0 4 None eight_samples
            = (Val tt, st')).
  { eexists. vm_compute. reflexivity. }
  destruct Hrun as (st' & Hrun). exists st'. split; [exact Hrun|].
  exact (proj1 (CreateContext_returns_current_context
                  (plain_platform (fun s => s <=? 4)) 8 0 4 None eight_samples st'
                  Hrun)).
Defined.

Lemma CreateExtContextProfile_requests_version_witness :
  exists rc st',
    CreateExtContextProfile (plain_platform (fun _ => true)) 0 0 core_33_loaded
    = (Val rc, st')
    /\ calls st' = [CallwglCreateContextAttribsARB 0 0 3 3 true; CallGetLastError].
Proof.
  destruct (proj2 (CreateExtContextProfile_requests_version
                     (plain_platform (fun _ => true)) 0 0 core_33_loaded) 3 3)
    as (rc & st' & Hrun & Hcalls & _).
  - reflexivity.
  - right. split; [discriminate|]. exists 0. cbn. lia.
  - exists rc, st'. split; [exact Hrun | exact Hcalls].
Defined.

Lemma CreateGLContext_result_witness :
  exists rc st',
    CreateGLContext (plain_platform (fun _ => true)) 0 true None core_33_loaded
    = (Val rc, st')
    /\ hasSharedContext_ st' = false.
Proof.
  destruct (CreateGLContext_result (plain_platform (fun _ => true)) 0 true None
              core_33_loaded)
    as (rc & st' & Hrun & Hshared & _).
  - intros _. reflexivity.
  - exists rc, st'. split; [exact Hrun | exact Hshared].
Defined.

Lemma live_shared_context_is_reused_witness :
  exists st',
    CreateContext (plain_platform (fun _ => true)) 8 0 4 (Some live_context)
      eight_samples
    = (Val tt, st')
    /\ hGLRC (context_ st') = 55
    /\ hasSharedContext_ st' = true.
Proof.
  assert (Hrun : exists st',
            CreateContext (plain_platform (fun _ => true)) 8 0 4
              (Some live_context) eight_samples
            = (Val tt, st')).
  { eexists. vm_compute. reflexivity. }
  destruct Hrun as (st' & Hrun). exists st'. split; [exact Hrun|].
  assert (Hlive : hGLRC live_context <> 0) by (cbn; lia).
  destruct (live_shared_context_is_reused (plain_platform (fun _ => true)) 8 0 4
              live_context eight_samples st' Hlive Hrun)
    as (Hrc & Hshared & _).
  split; [exact Hrc | exact Hshared].
Defined.

Lemma SetupAntiAliasing_finds_highest_supported_witness :
  exists st',
    SetupAntiAliasing (plain_platform (fun s => s <=? 4)) 8 eight_samples
    = (Val true, st')
    /\ samples (multiSampling (desc_ st')) = 4.
Proof.
  destruct (SetupAntiAliasing_finds_highest_supported
              (plain_platform (fun s => s <=? 4)) 8 (fun s => s <=? 4)
              eight_samples)
    as (st' & Hrun & Hrange & Hfound & Hnone & _).
  - intros now hdc depth msEnabled s. cbn.
    destruct (s <=? 4); reflexivity.
  - reflexivity.
  - cbn. unfold INT_MAX. lia.
  - exists st'. split; [exact Hrun|].
    change (samples (multiSampling (desc_ eight_samples))) with 8 in *.
    destruct (Z.lt_trichotomy (samples (multiSampling (desc_ st'))) 4)
      as [Hlt|[Heq|Hgt]].
    + specialize (Hnone 4). cbn in Hnone. assert (false = true -> False) by discriminate.
      exfalso. apply H. symmetry. apply Hnone. lia.
    + exact Heq.
    + assert (Hpos : 0 < samples (multiSampling (desc_ st'))) by lia.
      apply Hfound in Hpos. apply Z.leb_le in Hpos. lia.
Defined.

Lemma SetupDeviceContextAndPixelFormat_selects_witness :
  exists st',
    SetupDeviceContextAndPixelFormat (plain_platform (fun _ => true)) 8 4 core_33
    = (Val tt, st')
    /\ hDC (context_ st') = 1
    /\ pixelFormat (context_ st') <> 0.
Proof.
  assert (Hrun : exists st',
            SetupDeviceContextAndPixelFormat (plain_platform (fun _ => true)) 8 4
              core_33
            = (Val tt, st')).
  { eexists. vm_compute. reflexivity. }
  destruct Hrun as (st' & Hrun). exists st'. split; [exact Hrun|].
  destruct (proj1 (SetupDeviceContextAndPixelFormat_selects
                     (plain_platform (fun _ => true)) 8 4 core_33) st' Hrun)
    as (Hhdc & (Hformat & _) & _).
  split; [exact Hhdc | exact Hformat].
Defined.

Lemma SelectPixelFormat_takes_first_accepted_witness :
  SelectPixelFormat (picky_platform (fun f => 43 <=? f)) 8 3
    (with_formats [41; 42; 43; 44])
  = (Val tt,
     mkState (desc_ (with_formats [])) (mkGLPlatformContext 1 0 43 [41; 42; 43; 44])
       false (mkExtensionProcs true false false) []
       [CallSetPixelFormat 1 41; CallSetPixelFormat 1 42; CallSetPixelFormat 1 43]).
Proof.
  apply (SelectPixelFormat_takes_first_accepted
           (picky_platform (fun f => 43 <=? f)) 8 [41; 42] 43 [44] 0).
  - reflexivity.
  - reflexivity.
  - cbn. lia.
  - intros g [<-|[<-|[]]]; (split; [lia | intros now; reflexivity]).
  - lia.
  - intros now. reflexivity.
Defined.

Lemma SelectPixelFormat_reads_past_the_formats_witness :
  fst (SelectPixelFormat (picky_platform (fun _ => false)) 8 3
         (with_formats [41; 42]))
  = Stuck "pixelFormatsMS: index out of range".
Proof.
  apply (SelectPixelFormat_reads_past_the_formats
           (picky_platform (fun _ => false)) 8 [41; 42] 0).
  - reflexivity.
  - reflexivity.
  - discriminate.
  - cbn. lia.
  - intros g [<-|[<-|[]]]; (split; [lia | intros now; reflexivity]).
Defined.

Lemma CreateContext_throws_only_witness :
  exists st',
    CreateContext (picky_platform (fun _ => false)) 8 0 4 None core_33
    = (Throw "failed to set pixel format", st')
    /\ In "failed to set pixel format"%string CreateContext_errors.
Proof.
  assert (Hrun : exists st',
            CreateContext (picky_platform (fun _ => false)) 8 0 4 None core_33
            = (Throw "failed to set pixel format", st')).
  { eexists. vm_compute. reflexivity. }
  destruct Hrun as (st' & Hrun). exists st'. split; [exact Hrun|].
  exact (CreateContext_throws_only (picky_platform (fun _ => false)) 8 0 4 None
           core_33 st' _ Hrun).
Defined.

End Win32GLMore.

(* ===================================================================== *)
(** ** Module names (Win32Module.cpp) *)
(* ===================================================================== *)

Module Win32ModuleFacts.
Import Win32Module.

Local Open Scope string_scope.

Lemma list_ascii_of_string_append a b :
  list_ascii_of_string (a ++ b)
  = (list_ascii_of_string a ++ list_ascii_of_string b)%list.
Proof.
  induction a as [|c a IH]; [reflexivity|].
  cbn. rewrite IH. reflexivity.
Qed.

Lemma append_inv_head p a b : p ++ a = p ++ b -> a = b.
Proof.
  induction p as [|c p IH]; cbn; intros H; [exact H|].
  injection H as H. exact (IH H).
Qed.

Lemma append_inv_tail a b s : a ++ s = b ++ s -> a = b.
Proof.
  intros H. apply (f_equal list_ascii_of_string) in H.
  rewrite !list_ascii_of_string_append in H. apply app_inv_tail in H.
  apply (f_equal string_of_list_ascii) in H.
  rewrite !string_of_list_ascii_of_string in H. exact H.
Qed.

(** X24.  In one build (debug or release), [GetModuleFilename] gives
    different modules different file names: the file name is the module
    name between "LLGL_" and ".dll" (with a "D" before the extension in a
    debug build), so the module name can be read back from it. *)
Theorem GetModuleFilename_injective (LLGL_DEBUG : bool) (a b : string) :
  GetModuleFilename LLGL_DEBUG a = GetModuleFilename LLGL_DEBUG b -> a = b.
Proof.
  unfold GetModuleFilename. intros H.
  apply append_inv_head, append_inv_tail in H.
  destruct LLGL_DEBUG; [apply append_inv_tail in H|]; exact H.
Qed.

Lemma GetModuleFilename_injective_witness :
  GetModuleFilename true "OpenGL" = "LLGL_OpenGLD.dll"
  /\ "OpenGL" = "OpenGL".
Proof.
  split; [reflexivity|].
  apply (GetModuleFilename_injective true "OpenGL" "OpenGL"). reflexivity.
Defined.

End Win32ModuleFacts.
